(** * Mastodon.py: the request / authentication / rate-limiting engine

    A shallow embedding of [src/mastodon/Mastodon.py]: the constructor
    [__init__], [log_in], [__api_request] and [__generate_params], together
    with the properties of them that the specification states; then
    [create_app], the endpoint methods and [media_post], with further
    properties of the whole.

    Conventions of the embedding.
    - Python values are the inductive type [pyval] ([VObject] is an opaque
      object reference, such as the receiver in [locals()]; lists and tuples
      are told apart); a [dict] is an association list in insertion order
      with pairwise distinct keys.
    - Characters are Rocq's 8-bit [ascii], read as the code points below 256.
    - A file is the text it holds, or is marked as one that does not read as
      text, with the exception that reading it raises.  Files are read in
      text mode, where a newline, a carriage return and the two together
      each end a line; what is written is stored as it is.
    - Time is exact: [time.time()] reads the clock of the world and
      [time.sleep d] advances it by [d]; all other statements take no time.
      Timestamps and durations are rationals ([Q]), compared with [==].
    - A Python exception is a value of [exn]; a computation returns an
      [outcome] together with the state it leaves behind.
    - The retry loop of [__api_request] is unbounded in the source; it is
      embedded with a fuel argument and [Timeout] marks exhausted fuel.
    - The server is a script: [net w n] is the outcome of the [n]-th HTTP
      call made in the world [w]; [sent w] records the calls made and
      [sent_at w] the time of each.
    - [int] and [strptime] on header values are parameters of the engine. *)

From Stdlib Require Import ZArith QArith Qminmax List String Ascii Bool Lia.
From Stdlib Require Import DecimalString Decimal FinFun Lqa Permutation.
Import ListNotations.
Open Scope string_scope.
Set Warnings "-register-all".

(* ------------------------------------------------------------------ *)
(** ** Python values and dictionaries *)

Module Py.

Inductive pyval : Type :=
| VNone
| VBool (b : bool)
| VInt (z : Z)
| VFloat (q : Q)
| VStr (s : string)
| VObject
| VList (l : list pyval)
| VDict (d : list (string * pyval))
| VTuple (l : list pyval).

(** [v == None] *)
Definition is_none (v : pyval) : bool :=
  match v with VNone => true | _ => false end.

(** [isinstance(v, list)] *)
Definition is_list (v : pyval) : bool :=
  match v with VList _ => true | _ => false end.

(** [v == s] for a string literal [s] *)
Definition eq_str (v : pyval) (s : string) : bool :=
  match v with VStr t => String.eqb t s | _ => false end.

Definition dict : Type := list (string * pyval).

Definition dict_keys (d : dict) : list string := map fst d.

Fixpoint dict_get (d : dict) (k : string) : option pyval :=
  match d with
  | [] => None
  | (k', v) :: d' => if String.eqb k' k then Some v else dict_get d' k
  end.

(** [d[k] = v]: an existing key keeps its position, a new key goes last. *)
Fixpoint dict_set (d : dict) (k : string) (v : pyval) : dict :=
  match d with
  | [] => [(k, v)]
  | (k', v') :: d' =>
      if String.eqb k' k then (k', v) :: d' else (k', v') :: dict_set d' k v
  end.

(** [del d[k]] on a key that is present. *)
Fixpoint dict_del (d : dict) (k : string) : dict :=
  match d with
  | [] => []
  | (k', v') :: d' =>
      if String.eqb k' k then d' else (k', v') :: dict_del d' k
  end.

Definition dict_has (d : dict) (k : string) : bool :=
  match dict_get d k with Some _ => true | None => false end.

(** [k in l] for a list of strings *)
Definition str_in (k : string) (l : list string) : bool :=
  existsb (String.eqb k) l.

(** The invariant of a Python dictionary: keys are pairwise distinct. *)
Definition wf_dict (d : dict) : Prop := NoDup (dict_keys d).

End Py.
Import Py.

(* ------------------------------------------------------------------ *)
(** ** Exceptions and outcomes *)

Inductive exn : Type :=
| MastodonIllegalArgumentError (msg : string)
| MastodonNetworkError (msg : string)
| MastodonAPIError (msg : string)
| MastodonRatelimitError (msg : string)
| KeyError (key : string)
| TypeError
| ValueError
| AttributeError
| RequestException
| UnboundLocalError (name : string)
| UnicodeDecodeError
| PermissionError.

Inductive outcome (A : Type) : Type :=
| Return (a : A)
| Raise (e : exn)
| Timeout.
Arguments Return {A} a.
Arguments Raise {A} e.
Arguments Timeout {A}.

(* ------------------------------------------------------------------ *)
(** ** [__generate_params] *)

Module Params.

(** First loop of [__generate_params]:
    [for key in param_keys: if params[key] == None or key in exclude: del params[key]] *)
Fixpoint drop_loop (keys : list string) (exclude : list string) (params : dict)
  : outcome dict :=
  match keys with
  | [] => Return params
  | key :: keys' =>
      match dict_get params key with
      | None => Raise (KeyError key)
      | Some v =>
          if is_none v || str_in key exclude
          then drop_loop keys' exclude (dict_del params key)
          else drop_loop keys' exclude params
      end
  end.

(** Second loop:
    [for key in param_keys: if isinstance(params[key], list):
       params[key + "[]"] = params[key]; del params[key]] *)
Fixpoint rename_loop (keys : list string) (params : dict) : outcome dict :=
  match keys with
  | [] => Return params
  | key :: keys' =>
      match dict_get params key with
      | None => Raise (KeyError key)
      | Some v =>
          if is_list v
          then rename_loop keys' (dict_del (dict_set params (key ++ "[]") v) key)
          else rename_loop keys' params
      end
  end.

Definition __generate_params (params : dict) (exclude : list string)
  : outcome dict :=
  (* params = dict(params) *)
  (* del params['self'] *)
  if dict_has params "self" then
    let params := dict_del params "self" in
    match drop_loop (dict_keys params) exclude params with
    | Return params => rename_loop (dict_keys params) params
    | other => other
    end
  else Raise (KeyError "self").

(** Vocabulary for stating what the two loops leave behind. *)
Definition kept (exclude : list string) (kv : string * pyval) : bool :=
  negb (is_none (snd kv) || str_in (fst kv) exclude).

Definition is_list_entry (kv : string * pyval) : bool := is_list (snd kv).

Definition is_scalar_entry (kv : string * pyval) : bool :=
  negb (is_list (snd kv)).

Definition renamed (kv : string * pyval) : string * pyval :=
  (fst kv ++ "[]", snd kv).

Definition emitted_key (name : string) (v : pyval) : string :=
  if is_list v then name ++ "[]" else name.

(** No parameter name is another parameter name followed by ["[]"]; this
    holds of every [locals()] snapshot, whose keys are identifiers. *)
Definition no_clash (params : dict) : Prop :=
  forall k, In k (dict_keys params) -> ~ In (k ++ "[]") (dict_keys params).

(** The characters of an identifier: letters, digits and the underscore. *)
Definition identifier_char (c : ascii) : bool :=
  let n := N_of_ascii c in
  ((65 <=? n) && (n <=? 90) || (97 <=? n) && (n <=? 122)
   || (48 <=? n) && (n <=? 57) || (n =? 95))%N.

Fixpoint identifier_chars (s : string) : bool :=
  match s with
  | EmptyString => true
  | String c s' => identifier_char c && identifier_chars s'
  end.

(** The keys of [locals()]: argument names. *)
Definition argument_names (params : dict) : Prop :=
  Forall (fun k => identifier_chars k = true) (dict_keys params).

End Params.
Import Params.

(* ------------------------------------------------------------------ *)
(** ** Strings: the [str] methods the source uses *)

Module Str.

(** [c.isspace()] for a code point below 256. *)
Definition isspace (c : ascii) : bool :=
  let n := N_of_ascii c in
  ((9 <=? n) && (n <=? 13) || (28 <=? n) && (n <=? 32)
   || (n =? 133) || (n =? 160))%N.

(** [s.rstrip()]: drop every trailing whitespace character. *)
Fixpoint rstrip (s : string) : string :=
  match s with
  | EmptyString => EmptyString
  | String c s' =>
      match rstrip s' with
      | EmptyString => if isspace c then EmptyString else String c EmptyString
      | t => String c t
      end
  end.

Definition newline : ascii := ascii_of_nat 10.

Definition carriage_return : ascii := ascii_of_nat 13.

(** [f.readline()] on the unread text of a file opened by [open(path, 'r')]:
    the line and the text left unread.  In text mode a line ends at a
    newline, at a carriage return, or at the two in this order, and each of
    them is returned as a single newline; the last line may have none. *)
Fixpoint readline (text : string) : string * string :=
  match text with
  | EmptyString => (EmptyString, EmptyString)
  | String c rest =>
      if Ascii.eqb c newline then (String newline EmptyString, rest)
      else if Ascii.eqb c carriage_return then
        (String newline EmptyString,
         match rest with
         | String c' rest' => if Ascii.eqb c' newline then rest' else rest
         | EmptyString => rest
         end)
      else let (line, rest') := readline rest in (String c line, rest')
  end.

(** A line "stripped of trailing newline", in the words of the
    specification: the line without its final newline character, if any. *)
Fixpoint strip_trailing_newline (line : string) : string :=
  match line with
  | EmptyString => EmptyString
  | String c EmptyString =>
      if Ascii.eqb c newline then EmptyString else line
  | String c rest => String c (strip_trailing_newline rest)
  end.

(** [sep.join(l)] *)
Definition join (sep : string) (l : list string) : string :=
  String.concat sep l.

(** [s.split(" ")]: split at every single space. *)
Fixpoint split_space (s : string) : list string :=
  match s with
  | EmptyString => [EmptyString]
  | String c s' =>
      if Ascii.eqb c " "%char then EmptyString :: split_space s'
      else match split_space s' with
           | [] => [String c EmptyString]
           | w :: ws => String c w :: ws
           end
  end.

Fixpoint insert_sorted (x : string) (l : list string) : list string :=
  match l with
  | [] => [x]
  | y :: l' => if String.leb x y then x :: l else y :: insert_sorted x l'
  end.

(** [sorted(l)] on strings: ascending by code points. *)
Definition sorted (l : list string) : list string :=
  fold_right insert_sorted [] l.

(** [s.lower()] on code points below 256. *)
Definition lower_char (c : ascii) : ascii :=
  let n := N_of_ascii c in
  if ((65 <=? n) && (n <=? 90) || (192 <=? n) && (n <=? 214)
      || (216 <=? n) && (n <=? 222))%N
  then ascii_of_N (n + 32) else c.

Fixpoint lower (s : string) : string :=
  match s with
  | EmptyString => EmptyString
  | String c s' => String (lower_char c) (lower s')
  end.

(** The one-character string holding a double quote. *)
Definition dquote : string := String (ascii_of_nat 34) EmptyString.

(** [str(n)] for an [int]. *)
Definition str_of_int (n : Z) : string :=
  NilZero.string_of_int (Z.to_int n).

End Str.
Import Str.

(* ------------------------------------------------------------------ *)
(** ** The session object, the outside world and the monad *)

Record Mastodon : Type := mkMastodon {
  api_base_url : string;
  client_id : string;
  client_secret : pyval;
  access_token : pyval;
  debug_requests : bool;
  ratelimit_method : string;
  ratelimit_limit : Z;
  ratelimit_reset : Q;
  ratelimit_remaining : Z;
  ratelimit_lastcall : Q;
  ratelimit_pacefactor : Q
}.

(** What [requests.get/post/delete] is called with. *)
Record request : Type := mkRequest {
  rq_verb : string;
  rq_url : string;
  rq_data : dict;
  rq_headers : option dict;
  rq_files : dict
}.

(** The response object: [headers] is the lookup of its case-insensitive
    header dictionary, [json] the result of [.json()] ([None] when it
    raises). *)
Record response : Type := mkResponse {
  status_code : Z;
  headers : string -> option string;
  json : option pyval
}.

Inductive transport : Type :=
| NetFail
| NetResponse (r : response).

Inductive event : Type :=
| PrintRequest (endpoint method : string) (params : dict)
               (hdrs : option dict) (files : dict)
| PrintResponse (r : response).

Record World : Type := mkWorld {
  clock : Q;                      (* what [time.time()] returns *)
  fs : string -> option string;   (* regular files: path to text *)
  net : nat -> transport;         (* outcome of the n-th HTTP call *)
  sent : list request;            (* HTTP calls made, oldest first *)
  slept : list Q;                 (* arguments of [time.sleep], oldest first *)
  stdout : list event;            (* debug output, oldest first *)
  sent_at : list Q;               (* the clock at each HTTP call, oldest first *)
  unreadable : string -> option exn
                                  (* files that cannot be read as text: what
                                     reading them raises *)
}.

Definition state : Type := (Mastodon * World)%type.

Definition M (A : Type) : Type := state -> outcome A * state.

Definition ret {A} (a : A) : M A := fun st => (Return a, st).

Definition raise {A} (e : exn) : M A := fun st => (Raise e, st).

Definition timeout {A} : M A := fun st => (Timeout, st).

Definition bind {A B} (c : M A) (k : A -> M B) : M B :=
  fun st =>
    match c st with
    | (Return a, st') => k a st'
    | (Raise e, st') => (Raise e, st')
    | (Timeout, st') => (Timeout, st')
    end.

Declare Scope py_scope.
Delimit Scope py_scope with py.
Notation "x <- c ;; k" := (bind c (fun x => k))
  (at level 61, c at next level, right associativity) : py_scope.
Notation "c ;; k" := (bind c (fun _ => k))
  (at level 61, right associativity) : py_scope.
Open Scope py_scope.

(** [try: c  except: raise e] *)
Definition try_except_raise {A} (c : M A) (e : exn) : M A :=
  fun st =>
    match c st with
    | (Raise _, st') => (Raise e, st')
    | other => other
    end.

Definition lift {A} (o : outcome A) : M A := fun st => (o, st).

Definition get_self : M Mastodon := fun st => (Return (fst st), st).

Definition modify_self (f : Mastodon -> Mastodon) : M unit :=
  fun st => (Return tt, (f (fst st), snd st)).

Definition modify_world (f : World -> World) : M unit :=
  fun st => (Return tt, (fst st, f (snd st))).

Definition set_client_id (v : string) (s : Mastodon) : Mastodon :=
  mkMastodon (api_base_url s) v (client_secret s) (access_token s)
    (debug_requests s) (ratelimit_method s) (ratelimit_limit s)
    (ratelimit_reset s) (ratelimit_remaining s) (ratelimit_lastcall s)
    (ratelimit_pacefactor s).

Definition set_client_secret (v : pyval) (s : Mastodon) : Mastodon :=
  mkMastodon (api_base_url s) (client_id s) v (access_token s)
    (debug_requests s) (ratelimit_method s) (ratelimit_limit s)
    (ratelimit_reset s) (ratelimit_remaining s) (ratelimit_lastcall s)
    (ratelimit_pacefactor s).

Definition set_access_token (v : pyval) (s : Mastodon) : Mastodon :=
  mkMastodon (api_base_url s) (client_id s) (client_secret s) v
    (debug_requests s) (ratelimit_method s) (ratelimit_limit s)
    (ratelimit_reset s) (ratelimit_remaining s) (ratelimit_lastcall s)
    (ratelimit_pacefactor s).

Definition set_ratelimit_remaining (n : Z) (s : Mastodon) : Mastodon :=
  mkMastodon (api_base_url s) (client_id s) (client_secret s) (access_token s)
    (debug_requests s) (ratelimit_method s) (ratelimit_limit s)
    (ratelimit_reset s) n (ratelimit_lastcall s) (ratelimit_pacefactor s).

Definition set_ratelimit_limit (n : Z) (s : Mastodon) : Mastodon :=
  mkMastodon (api_base_url s) (client_id s) (client_secret s) (access_token s)
    (debug_requests s) (ratelimit_method s) n
    (ratelimit_reset s) (ratelimit_remaining s) (ratelimit_lastcall s)
    (ratelimit_pacefactor s).

Definition set_ratelimit_reset (t : Q) (s : Mastodon) : Mastodon :=
  mkMastodon (api_base_url s) (client_id s) (client_secret s) (access_token s)
    (debug_requests s) (ratelimit_method s) (ratelimit_limit s)
    t (ratelimit_remaining s) (ratelimit_lastcall s) (ratelimit_pacefactor s).

Definition set_ratelimit_lastcall (t : Q) (s : Mastodon) : Mastodon :=
  mkMastodon (api_base_url s) (client_id s) (client_secret s) (access_token s)
    (debug_requests s) (ratelimit_method s) (ratelimit_limit s)
    (ratelimit_reset s) (ratelimit_remaining s) t (ratelimit_pacefactor s).

Definition Qltb (a b : Q) : bool := negb (Qle_bool b a).

(** [time.time()] *)
Definition time_time : M Q := fun st => (Return (clock (snd st)), st).

Definition advance (d : Q) (w : World) : World :=
  mkWorld (clock w + d) (fs w) (net w) (sent w) (slept w ++ [d]) (stdout w)
          (sent_at w) (unreadable w).

(** [time.sleep(d)]; a negative argument is a [ValueError]. *)
Definition time_sleep (d : Q) : M unit :=
  if Qltb d 0 then raise ValueError else modify_world (advance d).

Definition log_print (e : event) (w : World) : World :=
  mkWorld (clock w) (fs w) (net w) (sent w) (slept w) (stdout w ++ [e])
          (sent_at w) (unreadable w).

Definition print (e : event) : M unit := modify_world (log_print e).

Definition log_call (rq : request) (w : World) : World :=
  mkWorld (clock w) (fs w) (net w) (sent w ++ [rq]) (slept w) (stdout w)
          (sent_at w ++ [clock w]) (unreadable w).

(** One call of [requests.get], [requests.post] or [requests.delete]: the
    call is recorded and the world decides its outcome; a failed call raises
    (the source catches whatever it raises). *)
Definition requests_call (rq : request) : M response :=
  fun st =>
    let w := snd st in
    match net w (List.length (sent w)) with
    | NetFail => (Raise RequestException, (fst st, log_call rq w))
    | NetResponse r => (Return r, (fst st, log_call rq w))
    end.

(** The world after a text file was written: the path holds the content,
    and reads as text from then on. *)
Definition store (path content : string) (w : World) : World :=
  mkWorld (clock w)
          (fun p => if String.eqb p path then Some content else fs w p)
          (net w) (sent w) (slept w) (stdout w) (sent_at w)
          (fun p => if String.eqb p path then None else unreadable w p).

(** [with open(path, 'w') as f: f.write(content)] *)
Definition write_file (path content : string) : M unit :=
  modify_world (store path content).

(** [v[key]] for a string key. *)
Definition subscript (v : pyval) (key : string) : outcome pyval :=
  match v with
  | VDict d => match dict_get d key with
               | Some x => Return x
               | None => Raise (KeyError key)
               end
  | _ => Raise TypeError
  end.

(** [key in s] for strings: [key] occurs in [s]. *)
Fixpoint is_substring (key s : string) : bool :=
  String.prefix key s ||
  match s with
  | EmptyString => false
  | String _ s' => is_substring key s'
  end.

(** [key in v] for a string key: membership in a dictionary's keys, in a
    list's elements, substring of a string; a [TypeError] otherwise. *)
Definition contains (v : pyval) (key : string) : outcome bool :=
  match v with
  | VDict d => Return (dict_has d key)
  | VList l | VTuple l => Return (existsb (fun x => eq_str x key) l)
  | VStr s => Return (is_substring key s)
  | _ => Raise TypeError
  end.

(* ------------------------------------------------------------------ *)
(** ** The request engine, login and the constructor *)

Section Engine.

(** Python's [int(s)] on a header value, and
    [(datetime.strptime(s, "%Y-%m-%dT%H:%M:%S.%fZ") - datetime(1970, 1, 1)).total_seconds()];
    both are [None] where Python raises [ValueError]. *)
Variable py_int : string -> option Z.
Variable strptime_total_seconds : string -> option Q.

(** [response_object.headers[name]]: the dictionary of [requests] ignores
    case, and reports a missing name in lower case. *)
Definition header (r : response) (name : string) : M string :=
  match headers r name with
  | Some v => ret v
  | None => raise (KeyError (lower name))
  end.

Definition int_of_header (v : string) : M Z :=
  match py_int v with Some n => ret n | None => raise ValueError end.

Definition reset_of_header (v : string) : M Q :=
  match strptime_total_seconds v with
  | Some t => ret t
  | None => raise ValueError
  end.

(** Lines 413-424: the "pace" mode wait before the request.  The local
    variable [remaining_wait] is bound in the [else] branch only. *)
Definition pace_wait : M unit :=
  self <- get_self ;;
  if String.eqb (ratelimit_method self) "pace" then
    remaining_wait <-
      (if Z.eqb (ratelimit_remaining self) 0 then
         now <- time_time ;;
         let to_next := ratelimit_reset self - now in
         (if Qltb 0 to_next then time_sleep to_next else ret tt) ;;
         ret None
       else
         now <- time_time ;;
         let time_waited := now - ratelimit_lastcall self in
         now' <- time_time ;;
         let time_wait :=
           (ratelimit_reset self - now') / inject_Z (ratelimit_remaining self) in
         ret (Some (time_wait - time_waited))) ;;
    match remaining_wait with
    | None => raise (UnboundLocalError "remaining_wait")
    | Some remaining_wait =>
        if Qltb 0 remaining_wait
        then time_sleep (remaining_wait * ratelimit_pacefactor self)
        else ret tt
    end
  else ret tt.

(** Lines 427-428: the request headers; ['Bearer ' + self.access_token] is a
    [TypeError] when the token is not a string. *)
Definition auth_headers (self : Mastodon) : outcome (option dict) :=
  match access_token self with
  | VNone => Return None
  | VStr token => Return (Some [("Authorization", VStr ("Bearer " ++ token))])
  | _ => Raise TypeError
  end.

(** Line 480: ["error" in response and response["error"] == "Throttled"] *)
Definition throttled_payload (response : pyval) : outcome bool :=
  match contains response "error" with
  | Return true =>
      match subscript response "error" with
      | Return e => Return (eq_str e "Throttled")
      | Raise e => Raise e
      | Timeout => Timeout
      end
  | other => other
  end.

(** Vocabulary for the properties of the loop.  A response is processed
    without an exception when its status is neither 404 nor 500, its body
    decodes and the three rate-limit headers are present and parse. *)
Definition processed (r : response) (remaining limit : Z) (reset : Q)
    (decoded : pyval) : Prop :=
  status_code r <> 404%Z /\ status_code r <> 500%Z /\
  json r = Some decoded /\
  (exists v, headers r "X-RateLimit-Remaining" = Some v
             /\ py_int v = Some remaining) /\
  (exists v, headers r "X-RateLimit-Limit" = Some v
             /\ py_int v = Some limit) /\
  (exists v, headers r "X-RateLimit-Reset" = Some v
             /\ strptime_total_seconds v = Some reset).

(** The session after lines 475-478. *)
Definition refreshed (remaining limit : Z) (reset now : Q) (self : Mastodon)
  : Mastodon :=
  set_ratelimit_lastcall now
    (set_ratelimit_reset reset
       (set_ratelimit_limit limit (set_ratelimit_remaining remaining self))).

(** The world after [to_next = t - time.time(); if to_next > 0: time.sleep(to_next)]. *)
Definition sleep_until (t : Q) (w : World) : World :=
  if Qltb 0 (t - clock w) then advance (t - clock w) w else w.

(** The world after the request [rq] was answered by [r] (lines 443-461). *)
Definition received (debug : bool) (rq : request) (r : response) (w : World)
  : World :=
  let w1 := log_call rq w in
  if debug then log_print (PrintResponse r) w1 else w1.

(** The world after lines 430-434. *)
Definition announced (debug : bool) (e : event) (w : World) : World :=
  if debug then log_print e w else w.

(** Lines 437-490: the request loop; one unit of fuel per iteration. *)
Fixpoint request_loop (fuel : nat) (method endpoint : string) (params : dict)
    (hdrs : option dict) (files : dict) : M pyval :=
  match fuel with
  | O => timeout
  | S fuel' =>
      self <- get_self ;;
      let call verb :=
        requests_call
          (mkRequest verb (api_base_url self ++ endpoint) params hdrs files) in
      response_object <-
        try_except_raise
          (r1 <- (if String.eqb method "GET"
                  then r <- call "GET" ;; ret (Some r) else ret None) ;;
           r2 <- (if String.eqb method "POST"
                  then r <- call "POST" ;; ret (Some r) else ret r1) ;;
           if String.eqb method "DELETE"
           then r <- call "DELETE" ;; ret (Some r) else ret r2)
          (MastodonNetworkError "Could not complete request.") ;;
      match response_object with
      | None => raise (MastodonIllegalArgumentError "Illegal request.")
      | Some response_object =>
          (if debug_requests self
           then print (PrintResponse response_object) else ret tt) ;;
          if Z.eqb (status_code response_object) 404
          then raise (MastodonAPIError "Endpoint not found.")
          else
          if Z.eqb (status_code response_object) 500
          then raise (MastodonAPIError "General API problem.")
          else
          response <-
            try_except_raise
              (match json response_object with
               | Some j => ret j
               | None => raise ValueError
               end)
              (MastodonAPIError
                 ("Could not parse response as JSON, respose code was "
                  ++ str_of_int (status_code response_object))) ;;
          v <- header response_object "X-RateLimit-Remaining" ;;
          n <- int_of_header v ;;
          modify_self (set_ratelimit_remaining n) ;;
          v <- header response_object "X-RateLimit-Limit" ;;
          n <- int_of_header v ;;
          modify_self (set_ratelimit_limit n) ;;
          v <- header response_object "X-RateLimit-Reset" ;;
          t <- reset_of_header v ;;
          modify_self (set_ratelimit_reset t) ;;
          now <- time_time ;;
          modify_self (set_ratelimit_lastcall now) ;;
          throttled <- lift (throttled_payload response) ;;
          if throttled : bool then
            self <- get_self ;;
            if String.eqb (ratelimit_method self) "throw"
            then raise (MastodonRatelimitError "Hit rate limit.")
            else
            if String.eqb (ratelimit_method self) "wait"
               || String.eqb (ratelimit_method self) "pace"
            then
              now <- time_time ;;
              let to_next := ratelimit_reset self - now in
              (if Qltb 0 to_next then time_sleep to_next else ret tt) ;;
              request_loop fuel' method endpoint params hdrs files
            else ret response
          else ret response
      end
  end.

(** Everything of [__api_request] after the "pace" wait. *)
Definition perform_request (fuel : nat) (method endpoint : string)
    (params files : dict) : M pyval :=
  self <- get_self ;;
  hdrs <- lift (auth_headers self) ;;
  (if debug_requests self
   then print (PrintRequest endpoint method params hdrs files) else ret tt) ;;
  request_loop fuel method endpoint params hdrs files.

Definition __api_request (fuel : nat) (method endpoint : string)
    (params files : dict) : M pyval :=
  pace_wait ;;
  perform_request fuel method endpoint params files.

(** [log_in]; [locals()] on entry binds the receiver and the four
    arguments, in this order. *)
Definition log_in_locals (username password : pyval) (scopes : list string)
    (to_file : option string) : dict :=
  [("self", VObject); ("username", username); ("password", password);
   ("scopes", VList (map VStr scopes));
   ("to_file", match to_file with Some p => VStr p | None => VNone end)].

Definition str_of (v : pyval) : outcome string :=
  match v with VStr s => Return s | _ => Raise AttributeError end.

Definition scope_mismatch_message (received_scopes requested_scopes : string)
  : string :=
  "Granted scopes " ++ dquote ++ received_scopes ++ dquote ++
  " differ from requested scopes " ++ dquote ++ requested_scopes ++ dquote
  ++ ".".

(** Lines 122-125 of [log_in]. *)
Definition token_request_params (self : Mastodon) (scopes : list string)
    (params : dict) : dict :=
  let params := dict_set params "client_id" (VStr (client_id self)) in
  let params := dict_set params "client_secret" (client_secret self) in
  let params := dict_set params "grant_type" (VStr "password") in
  let params := dict_set params "scope" (VStr (join " " scopes)) in
  params.

Definition log_in (fuel : nat) (username password : pyval)
    (scopes : list string) (to_file : option string) : M pyval :=
  params <- lift (__generate_params
                    (log_in_locals username password scopes to_file) []) ;;
  self <- get_self ;;
  let params := token_request_params self scopes params in
  response <-
    try_except_raise
      (response <- __api_request fuel "POST" "/oauth/token" params [] ;;
       token <- lift (subscript response "access_token") ;;
       modify_self (set_access_token token) ;;
       ret response)
      (MastodonIllegalArgumentError "Invalid user name, password or scopes.") ;;
  let requested_scopes := join " " (sorted scopes) in
  granted <- lift (subscript response "scope") ;;
  granted <- lift (str_of granted) ;;
  let received_scopes := join " " (sorted (split_space granted)) in
  if negb (String.eqb requested_scopes received_scopes)
  then raise (MastodonAPIError
                (scope_mismatch_message received_scopes requested_scopes))
  else
    (match to_file with
     | Some path =>
         token <- lift (subscript response "access_token") ;;
         match token with
         | VStr t => write_file path (t ++ String newline EmptyString)
         | _ =>
             (* the file is open, hence empty, when the concatenation fails *)
             write_file path EmptyString ;; raise TypeError
         end
     | None => ret tt
     end) ;;
    token <- lift (subscript response "access_token") ;;
    ret token.

End Engine.

(** The constructor.  It reads the clock and the file system and changes
    neither; the primed names are its arguments.  Reading a file that is not
    text raises what the world says it raises. *)
Definition DEFAULT_BASE_URL : string := "https://mastodon.social".

Definition __init__ (w : World) (client_id' : string)
    (client_secret' access_token' : option string) (api_base_url' : string)
    (debug_requests' : bool) (ratelimit_method' : string)
    (ratelimit_pacefactor' : Q) : outcome Mastodon :=
  let opt v := match v with Some s => VStr s | None => VNone end in
  let self :=
    mkMastodon api_base_url' client_id' (opt client_secret')
      (opt access_token') debug_requests' ratelimit_method'
      150          (* self.ratelimit_limit = 150 *)
      (clock w)    (* self.ratelimit_reset = time.time() *)
      150          (* self.ratelimit_remaining = 150 *)
      (clock w)    (* self.ratelimit_lastcall = time.time() *)
      (9 # 10)     (* self.ratelimit_pacefactor = 0.9 *) in
  let resolved :=
    match fs w (client_id self) with
    | Some secret_file =>
        match unreadable w (client_id self) with
        | Some e => Raise e
        | None =>
            let (line1, rest) := readline secret_file in
            let (line2, _) := readline rest in
            Return (set_client_secret (VStr (rstrip line2))
                      (set_client_id (rstrip line1) self))
        end
    | None =>
        if is_none (client_secret self)
        then Raise (MastodonIllegalArgumentError
                      "Specified client id directly, but did not supply secret")
        else Return self
    end in
  match resolved with
  | Return self =>
      match access_token self with
      | VStr path =>
          match fs w path with
          | Some token_file =>
              match unreadable w path with
              | Some e => Raise e
              | None =>
                  Return (set_access_token
                            (VStr (rstrip (fst (readline token_file)))) self)
              end
          | None => Return self
          end
      | _ => Return self
      end
  | other => other
  end.

(** The constructor called with the defaults of its optional arguments. *)
Definition Mastodon_new (w : World) (client_id : string)
    (client_secret : option string) : outcome Mastodon :=
  __init__ w client_id client_secret None DEFAULT_BASE_URL false "wait" (9 # 10).

(* ------------------------------------------------------------------ *)
(** ** App registration, the endpoint methods and media upload *)

(** [requests.post(url, data = request_data)] of [create_app], which is a
    static method: there is no session, the call is recorded in the world
    and whatever it raises is left to the caller. *)
Definition plain_post (rq : request) (w : World) : outcome response * World :=
  match net w (List.length (sent w)) with
  | NetFail => (Raise RequestException, log_call rq w)
  | NetResponse r => (Return r, log_call rq w)
  end.

(** [text + '\n'] for a value taken from a response. *)
Definition line_of (v : pyval) : outcome string :=
  match v with
  | VStr t => Return (t ++ String newline EmptyString)
  | _ => Raise TypeError
  end.

Definition append_file (path line : string) (w : World) : World :=
  store path (match fs w path with
              | Some written => written ++ line
              | None => line
              end) w.

(** Lines 55-58: [open(to_file, 'w')] empties the file, then the two lines
    are written in turn; what was written stays when a later step raises. *)
Definition write_secret_file (to_file : string) (response : pyval) (w : World)
  : outcome unit * World :=
  let w := store to_file EmptyString w in
  match subscript response "client_id" with
  | Return id =>
      match line_of id with
      | Return line1 =>
          let w := append_file to_file line1 w in
          match subscript response "client_secret" with
          | Return secret =>
              match line_of secret with
              | Return line2 => (Return tt, append_file to_file line2 w)
              | Raise e => (Raise e, w)
              | Timeout => (Timeout, w)
              end
          | Raise e => (Raise e, w)
          | Timeout => (Timeout, w)
          end
      | Raise e => (Raise e, w)
      | Timeout => (Timeout, w)
      end
  | Raise e => (Raise e, w)
  | Timeout => (Timeout, w)
  end.

Definition OOB_REDIRECT : string := "urn:ietf:wg:oauth:2.0:oob".

(** Lines 43-51 of [create_app]. *)
Definition app_request_data (client_name : pyval) (scopes : list string)
    (redirect_uris : pyval) : dict :=
  let request_data :=
    [("client_name", client_name); ("scopes", VStr (join " " scopes))] in
  if negb (is_none redirect_uris)
  then dict_set request_data "redirect_uris" redirect_uris
  else dict_set request_data "redirect_uris" (VStr OOB_REDIRECT).

Definition create_app (client_name : pyval) (scopes : list string)
    (redirect_uris : pyval) (to_file : option string) (api_base_url' : string)
    (w : World) : outcome (pyval * pyval) * World :=
  let request_data := app_request_data client_name scopes redirect_uris in
  match plain_post (mkRequest "POST" (api_base_url' ++ "/api/v1/apps")
                      request_data None []) w with
  | (Return response_object, w) =>
      match json response_object with
      | None => (Raise ValueError, w)
      | Some response =>
          let written :=
            match to_file with
            | Some path => write_secret_file path response w
            | None => (Return tt, w)
            end in
          match written with
          | (Return _, w) =>
              match subscript response "client_id" with
              | Return id =>
                  match subscript response "client_secret" with
                  | Return secret => (Return (id, secret), w)
                  | Raise e => (Raise e, w)
                  | Timeout => (Timeout, w)
                  end
              | Raise e => (Raise e, w)
              | Timeout => (Timeout, w)
              end
          | (Raise e, w) => (Raise e, w)
          | (Timeout, w) => (Timeout, w)
          end
      end
  | (Raise e, w) => (Raise e, w)
  | (Timeout, w) => (Timeout, w)
  end.

(** An argument that the endpoint methods turn into text with [str]: an
    [int] or a [str]. *)
Inductive ident : Type :=
| IdInt (n : Z)
| IdStr (s : string).

Definition str (i : ident) : string :=
  match i with
  | IdInt n => str_of_int n
  | IdStr s => s
  end.

Definition value_of (i : ident) : pyval :=
  match i with
  | IdInt n => VInt n
  | IdStr s => VStr s
  end.

(** The form fields [__generate_params] makes of the arguments that are
    not excluded: those that are not [None], lists last and under their
    name followed by ["[]"]. *)
Definition form_fields (args : dict) : dict :=
  let given := filter (kept []) args in
  (filter is_scalar_entry given ++ map renamed (filter is_list_entry given))%list.

Section Endpoints.

Variable py_int : string -> option Z.
Variable strptime_total_seconds : string -> option Q.

Local Abbreviation api_request :=
  (__api_request py_int strptime_total_seconds).

(** Lines 148-156 *)
Definition timeline (fuel : nat) (timeline' : string)
    (max_id since_id limit : pyval) : M pyval :=
  params <- lift (__generate_params
                    [("self", VObject); ("timeline", VStr timeline');
                     ("max_id", max_id); ("since_id", since_id);
                     ("limit", limit)] ["timeline"]) ;;
  api_request fuel "GET" ("/api/v1/timelines/" ++ timeline') params [].

Definition timeline_home (fuel : nat) (max_id since_id limit : pyval)
  : M pyval :=
  timeline fuel "home" max_id since_id limit.

Definition timeline_mentions (fuel : nat) (max_id since_id limit : pyval)
  : M pyval :=
  timeline fuel "mentions" max_id since_id limit.

Definition timeline_public (fuel : nat) (max_id since_id limit : pyval)
  : M pyval :=
  timeline fuel "public" max_id since_id limit.

Definition timeline_hashtag (fuel : nat) (hashtag : ident)
    (max_id since_id limit : pyval) : M pyval :=
  timeline fuel ("tag/" ++ str hashtag) max_id since_id limit.

(** Lines 185-208 *)
Definition status (fuel : nat) (id : ident) : M pyval :=
  api_request fuel "GET" ("/api/v1/statuses/" ++ str id) [] [].

Definition status_context (fuel : nat) (id : ident) : M pyval :=
  api_request fuel "GET" ("/api/v1/statuses/" ++ str id ++ "/context") [] [].

Definition status_reblogged_by (fuel : nat) (id : ident) : M pyval :=
  api_request fuel "GET" ("/api/v1/statuses/" ++ str id ++ "/reblogged_by")
    [] [].

Definition status_favourited_by (fuel : nat) (id : ident) : M pyval :=
  api_request fuel "GET" ("/api/v1/statuses/" ++ str id ++ "/favourited_by")
    [] [].

(** Lines 213-218 *)
Definition notifications (fuel : nat) : M pyval :=
  api_request fuel "GET" "/api/v1/notifications" [] [].

(** Lines 223-274 *)
Definition account (fuel : nat) (id : ident) : M pyval :=
  api_request fuel "GET" ("/api/v1/accounts/" ++ str id) [] [].

Definition account_verify_credentials (fuel : nat) : M pyval :=
  api_request fuel "GET" "/api/v1/accounts/verify_credentials" [] [].

Definition account_statuses (fuel : nat) (id : ident)
    (max_id since_id limit : pyval) : M pyval :=
  params <- lift (__generate_params
                    [("self", VObject); ("id", value_of id);
                     ("max_id", max_id); ("since_id", since_id);
                     ("limit", limit)] ["id"]) ;;
  api_request fuel "GET" ("/api/v1/accounts/" ++ str id ++ "/statuses")
    params [].

Definition account_following (fuel : nat) (id : ident) : M pyval :=
  api_request fuel "GET" ("/api/v1/accounts/" ++ str id ++ "/following") [] [].

Definition account_followers (fuel : nat) (id : ident) : M pyval :=
  api_request fuel "GET" ("/api/v1/accounts/" ++ str id ++ "/followers") [] [].

Definition account_relationships (fuel : nat) (id : pyval) : M pyval :=
  params <- lift (__generate_params [("self", VObject); ("id", id)] []) ;;
  api_request fuel "GET" "/api/v1/accounts/relationships" params [].

Definition account_suggestions (fuel : nat) : M pyval :=
  api_request fuel "GET" "/api/v1/accounts/suggestions" [] [].

Definition account_search (fuel : nat) (q limit : pyval) : M pyval :=
  params <- lift (__generate_params
                    [("self", VObject); ("q", q); ("limit", limit)] []) ;;
  api_request fuel "GET" "/api/v1/accounts/search" params [].

(** Lines 279-326 *)
Definition status_post (fuel : nat) (status' in_reply_to_id media_ids : pyval)
  : M pyval :=
  params <- lift (__generate_params
                    [("self", VObject); ("status", status');
                     ("in_reply_to_id", in_reply_to_id);
                     ("media_ids", media_ids)] []) ;;
  api_request fuel "POST" "/api/v1/statuses" params [].

Definition toot (fuel : nat) (status' : pyval) : M pyval :=
  status_post fuel status' VNone VNone.

Definition status_delete (fuel : nat) (id : ident) : M pyval :=
  api_request fuel "DELETE" ("/api/v1/statuses/" ++ str id) [] [].

Definition status_reblog (fuel : nat) (id : ident) : M pyval :=
  api_request fuel "POST" ("/api/v1/statuses/" ++ str id ++ "/reblog") [] [].

Definition status_unreblog (fuel : nat) (id : ident) : M pyval :=
  api_request fuel "POST" ("/api/v1/statuses/" ++ str id ++ "/unreblog") [] [].

Definition status_favourite (fuel : nat) (id : ident) : M pyval :=
  api_request fuel "POST" ("/api/v1/statuses/" ++ str id ++ "/favourite") [] [].

Definition status_unfavourite (fuel : nat) (id : ident) : M pyval :=
  api_request fuel "POST" ("/api/v1/statuses/" ++ str id ++ "/unfavourite")
    [] [].

(** Lines 331-361 *)
Definition account_follow (fuel : nat) (id : ident) : M pyval :=
  api_request fuel "POST" ("/api/v1/accounts/" ++ str id ++ "/follow") [] [].

Definition account_unfollow (fuel : nat) (id : ident) : M pyval :=
  api_request fuel "POST" ("/api/v1/accounts/" ++ str id ++ "/unfollow") [] [].

Definition account_block (fuel : nat) (id : ident) : M pyval :=
  api_request fuel "POST" ("/api/v1/accounts/" ++ str id ++ "/block") [] [].

Definition account_unblock (fuel : nat) (id : ident) : M pyval :=
  api_request fuel "POST" ("/api/v1/accounts/" ++ str id ++ "/unblock") [] [].

(** [media_post], lines 366-393.  [mimetypes.guess_type(name)[0]] and
    [mimetypes.guess_extension], Python's [str] on the float [time.time()]
    returns, and the ten characters that [random.choice] yields in the call
    are taken as given.  [media_file] is a file name or the data itself;
    the opened file is an object, and the triple put under ['file'] is
    embedded as the list of its three components. *)
Variable guess_type : string -> option string.
Variable guess_extension : string -> option string.
Variable str_of_float : Q -> string.

Definition media_post (fuel : nat) (random_suffix : string)
    (media_file : string) (mime_type : option string) : M pyval :=
  fun st =>
    let '(mime_type, media) :=
      match fs (snd st) media_file with
      | Some _ => (guess_type media_file, VObject)
      | None => (mime_type, VStr media_file)
      end in
    match mime_type with
    | None =>
        raise (MastodonIllegalArgumentError
                 "Could not determine mime type or data passed directly without mime type.")
              st
    | Some mime =>
        (now <- time_time ;;
         match guess_extension mime with
         | None => raise TypeError
         | Some extension =>
             let file_name :=
               "mastodonpyupload_" ++ str_of_float now ++ "_" ++ random_suffix
               ++ extension in
             api_request fuel "POST" "/api/v1/media" []
               [("file", VList [VStr file_name; media; VStr mime])]
         end) st
    end.

End Endpoints.

(** Vocabulary for further properties of the engine. *)

(** A decoded body on which ["error" in response] is a [TypeError]. *)
Definition scalar_body (j : pyval) : bool :=
  match j with
  | VNone | VBool _ | VInt _ | VFloat _ | VObject => true
  | VStr _ | VList _ | VDict _ | VTuple _ => false
  end.

Definition set_debug_requests (b : bool) (s : Mastodon) : Mastodon :=
  mkMastodon (api_base_url s) (client_id s) (client_secret s) (access_token s)
    b (ratelimit_method s) (ratelimit_limit s)
    (ratelimit_reset s) (ratelimit_remaining s) (ratelimit_lastcall s)
    (ratelimit_pacefactor s).

(** A result with the debug flag and the debug output left out. *)
Definition muted (st : state) : state :=
  (set_debug_requests false (fst st),
   mkWorld (clock (snd st)) (fs (snd st)) (net (snd st)) (sent (snd st))
           (slept (snd st)) [] (sent_at (snd st)) (unreadable (snd st))).

Definition muted_result {A} (res : outcome A * state) : outcome A * state :=
  (fst res, muted (snd res)).

(** The [Authorization] header of a session that holds the token [t]. *)
Definition bearer (t : string) : option dict :=
  Some [("Authorization", VStr ("Bearer " ++ t))].

(** The fields of a session that a request never assigns: everything but
    the four rate-limit readings. *)
Definition identity (s : Mastodon)
  : string * string * pyval * pyval * bool * string * Q :=
  (api_base_url s, client_id s, client_secret s, access_token s,
   debug_requests s, ratelimit_method s, ratelimit_pacefactor s).

(** The mime type [media_post] works with after lines 382-384: the guess
    from the name when [media_file] names a file, else the argument. *)
Definition effective_mime_type (guess_type : string -> option string)
    (w : World) (media_file : string) (mime_type : option string)
  : option string :=
  match fs w media_file with
  | Some _ => guess_type media_file
  | None => mime_type
  end.

(** Line-end characters, and texts without any. *)
Definition is_line_end (c : ascii) : bool :=
  Ascii.eqb c newline || Ascii.eqb c carriage_return.

Fixpoint no_line_end (t : string) : bool :=
  match t with
  | EmptyString => true
  | String c t' => negb (is_line_end c) && no_line_end t'
  end.

(** The lines of a text file, said without [readline]: a line is a text
    without line-end characters, followed by what ends it.  [line_end e rest]
    holds when [e], followed in the file by [rest], ends a line: a newline,
    a carriage return and a newline, a carriage return that no newline
    follows, or nothing at all at the end of the file. *)
Definition LF : string := String newline EmptyString.
Definition CR : string := String carriage_return EmptyString.
Definition CRLF : string := String carriage_return LF.

Definition starts_with_newline (t : string) : bool :=
  match t with
  | String c _ => Ascii.eqb c newline
  | EmptyString => false
  end.

Definition line_end (e rest : string) : Prop :=
  e = LF \/ e = CRLF \/ (e = CR /\ starts_with_newline rest = false)
  \/ (e = EmptyString /\ rest = EmptyString).

(** Trailing whitespace, said without [rstrip]: [stripped line t] holds
    when [t] is [line] without the whitespace at its end, all of it. *)
Fixpoint all_space (t : string) : bool :=
  match t with
  | EmptyString => true
  | String c t' => isspace c && all_space t'
  end.

Fixpoint ends_with_space (t : string) : bool :=
  match t with
  | EmptyString => false
  | String c EmptyString => isspace c
  | String _ t' => ends_with_space t'
  end.

Definition stripped (line t : string) : Prop :=
  exists ws : string,
    line = t ++ ws /\ all_space ws = true /\ ends_with_space t = false.

(** A line that is read back as it was written: no newline and no
    carriage return inside, and no whitespace at the end. *)
Definition clean_line (t : string) : Prop :=
  no_line_end t = true /\ ends_with_space t = false.

(* ------------------------------------------------------------------ *)
(** ** Concrete sessions, responses and worlds for the examples *)

Module Demo.

Definition nl : string := String newline EmptyString.

(** [int] on plain decimal numerals. *)
Definition int (s : string) : option Z :=
  option_map Z.of_int (NilZero.int_of_string s).

(** The one timestamp the examples use, 100 seconds after the epoch. *)
Definition reset_stamp : string := "1970-01-01T00:01:40.000000Z".

Definition strptime (s : string) : option Q :=
  if String.eqb s reset_stamp then Some 100 else None.

Definition rate_headers (remaining : string) (name : string) : option string :=
  if String.eqb name "X-RateLimit-Remaining" then Some remaining
  else if String.eqb name "X-RateLimit-Limit" then Some "150"
  else if String.eqb name "X-RateLimit-Reset" then Some reset_stamp
  else None.

Definition throttled_body : pyval := VDict [("error", VStr "Throttled")].

Definition throttled_response : response :=
  mkResponse 429 (rate_headers "0") (Some throttled_body).

Definition timeline_body : pyval := VList [VDict [("id", VInt 1)]].

Definition token_body (granted : string) : pyval :=
  VDict [("access_token", VStr "tok"); ("scope", VStr granted)].

Definition ok_response (body : pyval) : response :=
  mkResponse 200 (rate_headers "149") (Some body).

(** A response whose body is not JSON. *)
Definition html_response (status : Z) : response :=
  mkResponse status (rate_headers "149") None.

Definition serve (script : list response) (n : nat) : transport :=
  match nth_error script n with
  | Some r => NetResponse r
  | None => NetFail
  end.

Definition no_files (path : string) : option string := None.

Definition no_files_unreadable (path : string) : option exn := None.

(** A world at time 50 with no files and a scripted server. *)
Definition world (script : list response) : World :=
  mkWorld 50 no_files (serve script) [] [] [] [] no_files_unreadable.

(** A session without a token whose last call was at time 47 and whose
    window resets at time 150. *)
Definition session (method : string) (remaining : Z) : Mastodon :=
  mkMastodon DEFAULT_BASE_URL "id" (VStr "secret") VNone false method
    150 150 remaining 47 (9 # 10).

(** [locals()] of [account_statuses(self, id, max_id, since_id, limit)]
    extended with a list-valued argument. *)
Definition some_locals : dict :=
  [("self", VObject); ("id", VInt 7); ("max_id", VNone);
   ("media_ids", VList [VInt 1; VInt 2]); ("limit", VInt 20)].

Definition credentials_file : string := "abc" ++ nl ++ "xyz" ++ nl.

Definition padded_credentials_file : string := "abc " ++ nl ++ "xyz" ++ nl.

(** The same credentials with other line ends and a padded first line: a
    carriage return after ["abc "], a carriage return and a newline after
    ["xyz"]. *)
Definition mixed_credentials_file : string :=
  "abc " ++ String carriage_return ("xyz" ++ String carriage_return nl).

(** A token file whose first line ends at a carriage return. *)
Definition token_file : string :=
  "tok " ++ String carriage_return ("more" ++ nl).

Definition disk (content : string) (path : string) : option string :=
  if String.eqb path "app.secret" then Some content else None.

(** A world in which ["app.secret"] exists and holds bytes that are not
    text. *)
Definition undecodable (path : string) : option exn :=
  if String.eqb path "app.secret" then Some UnicodeDecodeError else None.

Definition world_with_binary_file : World :=
  mkWorld 50 (disk EmptyString) (serve []) [] [] [] [] undecodable.

Definition world_with_file (content : string) : World :=
  mkWorld 50 (disk content) (serve []) [] [] [] [] no_files_unreadable.

(** A response without rate-limit headers, and one whose reset time is
    not a timestamp. *)
Definition bare_response (body : pyval) : response :=
  mkResponse 200 (fun _ => None) (Some body).

Definition odd_reset_headers (name : string) : option string :=
  if String.eqb name "X-RateLimit-Remaining" then Some "149"
  else if String.eqb name "X-RateLimit-Limit" then Some "150"
  else if String.eqb name "X-RateLimit-Reset" then Some "tomorrow"
  else None.

Definition odd_reset_response (body : pyval) : response :=
  mkResponse 200 odd_reset_headers (Some body).

(** A server that throttles every request, at time 50. *)
Definition busy_world : World :=
  mkWorld 50 no_files (fun _ => NetResponse throttled_response) [] [] [] []
    no_files_unreadable.

(** A world at time 200, after the reset time of [session]. *)
Definition late_world (script : list response) : World :=
  mkWorld 200 no_files (serve script) [] [] [] [] no_files_unreadable.

(** [session] holding the token ["tok"]. *)
Definition logged_in (method : string) (remaining : Z) : Mastodon :=
  set_access_token (VStr "tok") (session method remaining).



(** [mimetypes] on the names and types the examples use. *)
Definition guess_type (name : string) : option string :=
  if String.eqb name "app.secret" then None
  else if String.eqb name "cat.png" then Some "image/png"
  else None.

Definition guess_extension (mime : string) : option string :=
  if String.eqb mime "image/png" then Some ".png" else None.

(** [str] on a float that is a whole number. *)
Definition str_of_float (t : Q) : string :=
  str_of_int (Qnum t / Z.pos (Qden t)) ++ ".0".

End Demo.

(* ================================================================== *)
(** * Properties *)

Open Scope list_scope.

(* ------------------------------------------------------------------ *)
(** ** Dictionaries *)

Section DictFacts.

Implicit Types (d pre suf : dict) (k : string) (v : pyval).

Lemma dict_keys_app pre suf :
  dict_keys (pre ++ suf) = dict_keys pre ++ dict_keys suf.
Proof. apply map_app. Qed.

Lemma dict_get_In d k v : dict_get d k = Some v -> In (k, v) d.
Proof.
  induction d as [|[k' v'] d IH]; simpl; [discriminate|].
  destruct (String.eqb_spec k' k) as [->|Hne]; intros H.
  - injection H as ->. now left.
  - right. now apply IH.
Qed.

Lemma dict_get_notin d k : ~ In k (dict_keys d) -> dict_get d k = None.
Proof.
  induction d as [|[k' v'] d IH]; simpl; [reflexivity|]. intros H.
  destruct (String.eqb_spec k' k) as [->|Hne]; [exfalso; auto|].
  apply IH. auto.
Qed.

Lemma In_dict_get d k v : wf_dict d -> In (k, v) d -> dict_get d k = Some v.
Proof.
  unfold wf_dict. induction d as [|[k' v'] d IH]; simpl; [contradiction|].
  intros ND [H|H].
  - injection H as -> ->. now rewrite String.eqb_refl.
  - inversion ND as [|? ? Hnotin ND']; subst.
    destruct (String.eqb_spec k' k) as [->|Hne]; [|now apply IH].
    exfalso. apply Hnotin. change k with (fst (k, v)). now apply in_map.
Qed.

Lemma dict_get_app_notin pre suf k :
  ~ In k (dict_keys pre) -> dict_get (pre ++ suf) k = dict_get suf k.
Proof.
  induction pre as [|[k' v'] pre IH]; simpl; [reflexivity|]. intros H.
  destruct (String.eqb_spec k' k) as [->|Hne]; [exfalso; auto|].
  apply IH. auto.
Qed.

Lemma dict_del_app_notin pre suf k :
  ~ In k (dict_keys pre) -> dict_del (pre ++ suf) k = pre ++ dict_del suf k.
Proof.
  induction pre as [|[k' v'] pre IH]; simpl; [reflexivity|]. intros H.
  destruct (String.eqb_spec k' k) as [->|Hne]; [exfalso; auto|].
  f_equal. apply IH. auto.
Qed.

Lemma dict_set_notin d k v :
  ~ In k (dict_keys d) -> dict_set d k v = d ++ [(k, v)].
Proof.
  induction d as [|[k' v'] d IH]; simpl; [reflexivity|]. intros H.
  destruct (String.eqb_spec k' k) as [->|Hne]; [exfalso; auto|].
  f_equal. apply IH. auto.
Qed.

Lemma dict_del_In d k k' v :
  In (k', v) (dict_del d k) -> In (k', v) d.
Proof.
  induction d as [|[k0 v0] d IH]; simpl; [contradiction|].
  destruct (String.eqb k0 k); simpl; intuition.
Qed.

Lemma dict_del_keys d k k' :
  In k' (dict_keys (dict_del d k)) -> In k' (dict_keys d).
Proof.
  induction d as [|[k0 v0] d IH]; simpl; [contradiction|].
  destruct (String.eqb k0 k); simpl; intuition.
Qed.

Lemma dict_del_wf d k : wf_dict d -> wf_dict (dict_del d k).
Proof.
  unfold wf_dict. induction d as [|[k0 v0] d IH]; simpl; intros ND; [exact ND|].
  inversion ND as [|? ? Hnotin ND']; subst.
  destruct (String.eqb k0 k); simpl; [exact ND'|].
  constructor; [|now apply IH].
  intros H. apply Hnotin. eapply dict_del_keys, H.
Qed.

Lemma dict_del_gone d k : wf_dict d -> ~ In k (dict_keys (dict_del d k)).
Proof.
  unfold wf_dict. induction d as [|[k0 v0] d IH]; simpl; intros ND; [tauto|].
  inversion ND as [|? ? Hnotin ND']; subst.
  destruct (String.eqb_spec k0 k) as [->|Hne]; simpl; [exact Hnotin|].
  intros [H|H]; [contradiction|]. now apply IH.
Qed.

Lemma dict_del_other d k k' v :
  k' <> k -> In (k', v) d -> In (k', v) (dict_del d k).
Proof.
  intros Hne. induction d as [|[k0 v0] d IH]; simpl; [contradiction|].
  intros [H|H].
  - injection H as -> ->.
    destruct (String.eqb_spec k' k) as [->|_]; [contradiction|now left].
  - destruct (String.eqb k0 k); [exact H|right; now apply IH].
Qed.

Lemma filter_keys_In (f : string * pyval -> bool) d k :
  In k (dict_keys (filter f d)) -> In k (dict_keys d).
Proof.
  unfold dict_keys. rewrite !in_map_iff.
  intros [kv [Hk Hin]]. exists kv. split; [exact Hk|].
  now apply filter_In in Hin.
Qed.

Lemma filter_wf (f : string * pyval -> bool) d :
  wf_dict d -> wf_dict (filter f d).
Proof.
  unfold wf_dict. induction d as [|[k0 v0] d IH]; simpl; intros ND; [exact ND|].
  inversion ND as [|? ? Hnotin ND']; subst.
  destruct (f (k0, v0)); simpl; [|now apply IH].
  constructor; [|now apply IH].
  intros H. apply Hnotin. eapply filter_keys_In, H.
Qed.

End DictFacts.

Lemma string_length_append (s t : string) :
  String.length (s ++ t)%string = (String.length s + String.length t)%nat.
Proof. induction s as [|c s IH]; simpl; [reflexivity|now rewrite IH]. Qed.

Lemma string_app_inv_tail (s1 s2 t : string) :
  (s1 ++ t = s2 ++ t)%string -> s1 = s2.
Proof.
  revert s2. induction s1 as [|c s1 IH]; intros [|c' s2] H; simpl in H.
  - reflexivity.
  - apply (f_equal String.length) in H. simpl in H.
    rewrite string_length_append in H. lia.
  - apply (f_equal String.length) in H. simpl in H.
    rewrite string_length_append in H. lia.
  - injection H as -> H. f_equal. now apply IH.
Qed.

(* ------------------------------------------------------------------ *)
(** ** [__generate_params] *)

Section GenerateParams.

Variable exclude : list string.

Lemma drop_loop_filter (suf : dict) : forall pre : dict,
  wf_dict (pre ++ suf) ->
  drop_loop (dict_keys suf) exclude (pre ++ suf)
  = Return (pre ++ filter (kept exclude) suf).
Proof.
  induction suf as [|[k v] suf IH]; intros pre ND; simpl.
  - reflexivity.
  - unfold wf_dict in ND. rewrite dict_keys_app in ND. simpl in ND.
    pose proof (NoDup_remove_2 _ _ _ ND) as Hk.
    pose proof (NoDup_remove_1 _ _ _ ND) as ND'.
    assert (Hpre : ~ In k (dict_keys pre)) by (intros H; apply Hk, in_or_app; auto).
    rewrite dict_get_app_notin by exact Hpre. simpl. rewrite String.eqb_refl.
    unfold kept at 1. simpl.
    destruct (is_none v || str_in k exclude); simpl.
    + rewrite dict_del_app_notin by exact Hpre. simpl. rewrite String.eqb_refl.
      apply IH. unfold wf_dict. now rewrite dict_keys_app.
    + replace (pre ++ (k, v) :: suf) with ((pre ++ [(k, v)]) ++ suf)
        by (now rewrite <- app_assoc).
      rewrite IH.
      * now rewrite <- app_assoc.
      * unfold wf_dict. rewrite <- app_assoc, dict_keys_app. exact ND.
Qed.

Lemma rename_loop_spec (suf : dict) : forall pre ren : dict,
  wf_dict (pre ++ suf ++ ren) ->
  (forall k, In k (dict_keys suf) ->
             ~ In (k ++ "[]")%string (dict_keys (pre ++ suf ++ ren))) ->
  rename_loop (dict_keys suf) (pre ++ suf ++ ren)
  = Return (pre ++ filter is_scalar_entry suf ++ ren
            ++ map renamed (filter is_list_entry suf)).
Proof.
  induction suf as [|[k v] suf IH]; intros pre ren ND Hclash; simpl.
  - now rewrite app_nil_r.
  - unfold wf_dict in ND. rewrite dict_keys_app in ND. simpl in ND.
    pose proof (NoDup_remove_2 _ _ _ ND) as Hk.
    pose proof (NoDup_remove_1 _ _ _ ND) as ND'.
    rewrite <- dict_keys_app in Hk, ND'.
    assert (Hpre : ~ In k (dict_keys pre)).
    { intros H. apply Hk. rewrite dict_keys_app. apply in_or_app; auto. }
    rewrite dict_get_app_notin by exact Hpre. simpl. rewrite String.eqb_refl.
    unfold is_scalar_entry at 1, is_list_entry at 1. simpl.
    destruct (is_list v) eqn:Hv; simpl.
    + rewrite dict_set_notin by (apply Hclash; now left).
      rewrite <- app_assoc. simpl.
      rewrite dict_del_app_notin by exact Hpre. simpl. rewrite String.eqb_refl.
      rewrite <- app_assoc.
      rewrite IH.
      * now rewrite <- !app_assoc.
      * unfold wf_dict. rewrite !app_assoc.
        rewrite dict_keys_app. apply NoDup_app.
        -- rewrite <- app_assoc. exact ND'.
        -- simpl. constructor; [tauto|constructor].
        -- intros a Ha [<-|[]]. rewrite <- app_assoc in Ha.
           apply (Hclash k); [now left|].
           rewrite !dict_keys_app in *. simpl.
           apply in_app_or in Ha. apply in_or_app.
           destruct Ha as [Ha|Ha]; [now left|right; now right].
      * intros k' Hk' Hin.
        rewrite !app_assoc in Hin. rewrite dict_keys_app in Hin.
        apply in_app_or in Hin. destruct Hin as [Hin|Hin].
        -- rewrite <- app_assoc in Hin.
           apply (Hclash k'); [now right|].
           rewrite !dict_keys_app in *. simpl.
           apply in_app_or in Hin. apply in_or_app.
           destruct Hin as [Hin|Hin]; [now left|right; now right].
        -- simpl in Hin. destruct Hin as [Heq|[]].
           apply string_app_inv_tail in Heq. subst k'.
           apply Hk. rewrite !dict_keys_app. apply in_or_app. right.
           apply in_or_app. now left.
    + replace (pre ++ (k, v) :: suf ++ ren) with ((pre ++ [(k, v)]) ++ suf ++ ren)
        by (now rewrite <- app_assoc).
      rewrite IH.
      * now rewrite <- app_assoc.
      * unfold wf_dict. rewrite <- app_assoc, dict_keys_app. exact ND.
      * intros k' Hk'. rewrite <- app_assoc. simpl.
        apply Hclash. now right.
Qed.

(** The result of [__generate_params], entry by entry and in order: the
    scalar entries that are kept, then the list entries that are kept, each
    under its name followed by ["[]"]. *)
Lemma generate_params_exact (params : dict) :
  wf_dict params -> dict_has params "self" = true -> no_clash params ->
  __generate_params params exclude
  = Return (let kept_params := filter (kept exclude) (dict_del params "self") in
            filter is_scalar_entry kept_params
            ++ map renamed (filter is_list_entry kept_params)).
Proof.
  intros ND Hself Hclash. unfold __generate_params. rewrite Hself.
  pose proof (drop_loop_filter (dict_del params "self") []) as Hdrop.
  simpl in Hdrop. rewrite Hdrop by now apply dict_del_wf.
  set (d1 := filter (kept exclude) (dict_del params "self")).
  pose proof (rename_loop_spec d1 [] []) as Hren.
  rewrite !app_nil_r in Hren. simpl in Hren. apply Hren.
  - apply filter_wf. now apply dict_del_wf.
  - intros k Hk Hin. apply (Hclash k).
    + eapply dict_del_keys, filter_keys_In, Hk.
    + eapply dict_del_keys, filter_keys_In, Hin.
Qed.

End GenerateParams.

Lemma identifier_chars_append (s t : string) :
  identifier_chars (s ++ t)%string = identifier_chars s && identifier_chars t.
Proof.
  induction s as [|c s IH]; simpl; [reflexivity|].
  now rewrite IH, andb_assoc.
Qed.

(** Argument names never clash. *)
Lemma argument_names_no_clash (params : dict) :
  argument_names params -> no_clash params.
Proof.
  unfold argument_names, no_clash. rewrite Forall_forall.
  intros Hid k _ Hin. apply Hid in Hin.
  rewrite identifier_chars_append in Hin.
  apply andb_true_iff in Hin. destruct Hin as [_ Hin]. discriminate Hin.
Qed.

Lemma kept_params_In (exclude : list string) (params : dict) name v :
  wf_dict params ->
  In (name, v) (filter (kept exclude) (dict_del params "self")) <->
  name <> "self" /\ In (name, v) params /\
  is_none v = false /\ str_in name exclude = false.
Proof.
  intros ND. rewrite filter_In. unfold kept. simpl.
  rewrite negb_true_iff, orb_false_iff. split.
  - intros [Hin Hk]. repeat split; try tauto.
    + intros ->. apply (dict_del_gone params "self" ND).
      change "self" with (fst ("self", v)). now apply in_map.
    + eapply dict_del_In, Hin.
  - intros (Hne & Hin & Hk). split; [|exact Hk]. now apply dict_del_other.
Qed.

Lemma renamed_keys (d : dict) :
  dict_keys (map renamed d) = map (fun k => (k ++ "[]")%string) (dict_keys d).
Proof. unfold dict_keys. rewrite !map_map. reflexivity. Qed.

Lemma generate_params_result_wf (d1 : dict) :
  wf_dict d1 -> no_clash d1 ->
  wf_dict (filter is_scalar_entry d1 ++ map renamed (filter is_list_entry d1)).
Proof.
  intros ND Hclash. unfold wf_dict. rewrite dict_keys_app. apply NoDup_app.
  - now apply filter_wf.
  - rewrite renamed_keys. apply Injective_map_NoDup.
    + intros a b. apply string_app_inv_tail.
    + now apply filter_wf.
  - intros a Ha Hb. rewrite renamed_keys in Hb. apply in_map_iff in Hb.
    destruct Hb as [k [<- Hk]].
    apply (Hclash k); eapply filter_keys_In; eassumption.
Qed.

(** The result entry by entry, in the terms of the tests the code makes. *)
Lemma generate_params_entries (params : dict) (exclude : list string) :
  wf_dict params -> dict_has params "self" = true -> no_clash params ->
  exists out : dict,
    __generate_params params exclude = Return out /\
    wf_dict out /\
    (forall k v,
        dict_get out k = Some v <->
        exists name,
          name <> "self" /\ dict_get params name = Some v /\
          is_none v = false /\ str_in name exclude = false /\
          k = emitted_key name v) /\
    (forall k v, dict_get out k = Some v -> is_none v = false) /\
    (forall k, In k (dict_keys out) ->
               exists name, In name (dict_keys params) /\
                            (k = name \/ k = (name ++ "[]")%string)).
Proof.
  intros ND Hself Hclash.
  set (d1 := filter (kept exclude) (dict_del params "self")).
  set (out := filter is_scalar_entry d1 ++ map renamed (filter is_list_entry d1)).
  assert (Hd1wf : wf_dict d1) by (apply filter_wf; now apply dict_del_wf).
  assert (Hd1clash : no_clash d1).
  { intros k Hk Hin. apply (Hclash k);
      eapply dict_del_keys, filter_keys_In; eassumption. }
  assert (Hwf : wf_dict out) by now apply generate_params_result_wf.
  assert (Hchar : forall k v,
             dict_get out k = Some v <->
             exists name,
               name <> "self" /\ dict_get params name = Some v /\
               is_none v = false /\ str_in name exclude = false /\
               k = emitted_key name v).
  { intros k v. split.
    - intros Hget. apply dict_get_In in Hget. unfold out in Hget.
      apply in_app_or in Hget. destruct Hget as [Hget|Hget].
      + apply filter_In in Hget. destruct Hget as [Hin Hsc].
        unfold is_scalar_entry in Hsc. simpl in Hsc.
        apply negb_true_iff in Hsc.
        apply (kept_params_In exclude params k v ND) in Hin.
        destruct Hin as (Hne & Hin & Hnone & Hex).
        exists k. repeat split; auto.
        * now apply In_dict_get.
        * unfold emitted_key. now rewrite Hsc.
      + apply in_map_iff in Hget. destruct Hget as [[name v'] [Heq Hin]].
        unfold renamed in Heq. simpl in Heq. injection Heq as <- ->.
        apply filter_In in Hin. destruct Hin as [Hin Hl].
        unfold is_list_entry in Hl. simpl in Hl.
        apply (kept_params_In exclude params name v ND) in Hin.
        destruct Hin as (Hne & Hin & Hnone & Hex).
        exists name. repeat split; auto.
        * now apply In_dict_get.
        * unfold emitted_key. now rewrite Hl.
    - intros (name & Hne & Hget & Hnone & Hex & ->).
      apply In_dict_get; [exact Hwf|].
      assert (Hin : In (name, v) d1).
      { apply kept_params_In; [exact ND|].
        repeat split; auto. now apply dict_get_In. }
      unfold out, emitted_key. apply in_or_app.
      destruct (is_list v) eqn:Hl.
      + right. change ((name ++ "[]")%string, v) with (renamed (name, v)).
        apply in_map. apply filter_In. split; [exact Hin|exact Hl].
      + left. apply filter_In. split; [exact Hin|].
        unfold is_scalar_entry. simpl. now rewrite Hl. }
  exists out. split; [now apply generate_params_exact|].
  split; [exact Hwf|]. split; [exact Hchar|]. split.
  - intros k v Hget. apply Hchar in Hget. now destruct Hget as (? & ? & ? & ? & ?).
  - intros k Hk. unfold dict_keys in Hk. apply in_map_iff in Hk.
    destruct Hk as [[k' v] [Hfst Hin]]. simpl in Hfst. subst k'.
    apply (In_dict_get out k v Hwf) in Hin. apply Hchar in Hin.
    destruct Hin as (name & _ & Hget & _ & _ & ->).
    exists name. split.
    + apply dict_get_In in Hget. change name with (fst (name, v)).
      now apply in_map.
    + unfold emitted_key. destruct (is_list v); auto.
Qed.

Lemma is_none_false (v : pyval) : is_none v = false <-> v <> VNone.
Proof. destruct v; simpl; split; congruence. Qed.

Lemma str_in_false (k : string) (l : list string) :
  str_in k l = false <-> ~ In k l.
Proof.
  unfold str_in. induction l as [|x l IH]; simpl.
  - tauto.
  - rewrite orb_false_iff, IH. destruct (String.eqb_spec k x) as [->|Hne].
    + split; [intros [H _]; discriminate|intros H; exfalso; apply H; now left].
    + split; [intros [_ H] [Hx|Hin]; [congruence|contradiction]
             |intros H; split; [reflexivity|tauto]].
Qed.

Lemma emitted_key_cases (name : string) (v : pyval) :
  emitted_key name v
  = match v with VList _ => (name ++ "[]")%string | _ => name end.
Proof. destruct v; reflexivity. Qed.

Lemma dict_has_In (d : dict) (k : string) :
  In k (dict_keys d) -> dict_has d k = true.
Proof.
  unfold dict_has. induction d as [|[k' v] d IH]; simpl; [tauto|].
  intros [->|Hin].
  - now rewrite String.eqb_refl.
  - destruct (String.eqb k' k); [reflexivity|now apply IH].
Qed.

(** C8 (as the code has it). For every argument mapping (pairwise distinct
    names, ['self'] among them, none of them another name followed by
    ["[]"]) and every exclude list, [__generate_params] returns a
    dictionary whose entries are exactly the entries of the input other
    than ['self'] whose value is not [None] and whose name is not excluded,
    each under its own name, except that an entry whose value is a list
    goes under its name followed by ["[]"]; the values are unchanged.  Only
    a [list] is renamed: a tuple, or any other value, keeps its name.  No
    emitted value is [None], and every emitted key is an input name or an
    input name followed by ["[]"]. *)
Theorem generate_params_spec (params : dict) (exclude : list string) :
  wf_dict params -> In "self" (dict_keys params) -> no_clash params ->
  exists out : dict,
    __generate_params params exclude = Return out /\
    wf_dict out /\
    (forall k v,
        dict_get out k = Some v <->
        exists name,
          name <> "self" /\ dict_get params name = Some v /\
          v <> VNone /\ ~ In name exclude /\
          k = match v with VList _ => (name ++ "[]")%string | _ => name end) /\
    (forall k v, dict_get out k = Some v -> v <> VNone) /\
    (forall k, In k (dict_keys out) ->
               exists name, In name (dict_keys params) /\
                            (k = name \/ k = (name ++ "[]")%string)).
Proof.
  intros ND Hself Hclash.
  destruct (generate_params_entries params exclude ND (dict_has_In _ _ Hself)
              Hclash) as (out & Hrun & Hwf & Hchar & Hnone & Hkeys).
  exists out. split; [exact Hrun|]. split; [exact Hwf|]. split; [|split].
  - intros k v. rewrite Hchar. split.
    + intros (name & Hne & Hget & Hn & Hex & ->). exists name.
      rewrite <- emitted_key_cases.
      repeat split; try assumption;
        [now apply is_none_false|now apply str_in_false].
    + intros (name & Hne & Hget & Hn & Hex & ->). exists name.
      rewrite <- emitted_key_cases.
      repeat split; try assumption;
        [now apply is_none_false|now apply str_in_false].
  - intros k v Hget. apply is_none_false. exact (Hnone k v Hget).
  - exact Hkeys.
Qed.

(* ------------------------------------------------------------------ *)
(** ** Rational comparisons *)

Lemma Qltb_true (a b : Q) : Qltb a b = true <-> a < b.
Proof.
  unfold Qltb. rewrite negb_true_iff. split.
  - intros H. apply Qnot_le_lt. intros Hle.
    apply Qle_bool_iff in Hle. congruence.
  - intros H. destruct (Qle_bool b a) eqn:E; [|reflexivity].
    apply Qle_bool_iff in E. exfalso. exact (Qlt_not_le _ _ H E).
Qed.

Lemma Qltb_false (a b : Q) : Qltb a b = false <-> b <= a.
Proof.
  unfold Qltb. rewrite negb_false_iff. apply Qle_bool_iff.
Qed.

Lemma time_sleep_nonneg (d : Q) (st : state) :
  0 <= d -> time_sleep d st = (Return tt, (fst st, advance d (snd st))).
Proof.
  intros H. unfold time_sleep.
  apply Qltb_false in H. rewrite H. reflexivity.
Qed.

Lemma sleep_until_clock (t : Q) (w : World) : t <= clock (sleep_until t w).
Proof.
  unfold sleep_until. destruct (Qltb 0 (t - clock w)) eqn:E.
  - simpl. setoid_replace (clock w + (t - clock w)) with t by ring.
    apply Qle_refl.
  - apply Qltb_false in E.
    apply Qplus_le_l with (z := - clock w).
    setoid_replace (clock w + - clock w) with 0 by ring. exact E.
Qed.

Lemma sleep_until_monotone (t : Q) (w : World) : clock w <= clock (sleep_until t w).
Proof.
  unfold sleep_until. destruct (Qltb 0 (t - clock w)) eqn:E.
  - simpl. apply Qltb_true in E.
    setoid_replace (clock w) with (clock w + 0) at 1 by ring.
    apply Qplus_le_r. now apply Qlt_le_weak.
  - apply Qle_refl.
Qed.

(* ------------------------------------------------------------------ *)
(** ** The "pace" wait *)

Section PaceFacts.

Variable py_int : string -> option Z.
Variable strptime_total_seconds : string -> option Q.

Local Abbreviation api_request := (__api_request py_int strptime_total_seconds).
Local Abbreviation perform := (perform_request py_int strptime_total_seconds).

(** The world the request is issued in, in "pace" mode with calls remaining. *)
Lemma pace_wait_remaining (s : Mastodon) (w : World) :
  ratelimit_method s = "pace" ->
  ratelimit_remaining s <> 0%Z ->
  0 <= ratelimit_pacefactor s ->
  let remaining_wait :=
    (ratelimit_reset s - clock w) / inject_Z (ratelimit_remaining s)
    - (clock w - ratelimit_lastcall s) in
  pace_wait (s, w)
  = (Return tt,
     (s, if Qltb 0 remaining_wait
         then advance (remaining_wait * ratelimit_pacefactor s) w else w)).
Proof.
  intros Hm Hr Hpf rw. unfold pace_wait, bind, get_self, time_time, ret.
  simpl. rewrite Hm. simpl.
  apply Z.eqb_neq in Hr. rewrite Hr. simpl. fold rw.
  destruct (Qltb 0 rw) eqn:E; [|reflexivity].
  apply time_sleep_nonneg. apply Qltb_true in E.
  apply Qmult_le_0_compat; [now apply Qlt_le_weak|exact Hpf].
Qed.

(** C1. In "pace" mode with [ratelimit_remaining > 0] (and a pace factor
    that is not negative) the wait before the request advances the clock by
    [pace_factor * ((reset_at - now) / remaining - (now - last_call_at))]
    clamped below at 0, nothing is sent meanwhile, and [__api_request] goes
    on to issue the request from there; with [remaining = 10],
    [reset_at = now + 100] and [pace_factor = 0.9] that is
    [0.9 * (10 - elapsed)] clamped below at 0. *)
Theorem pace_sleep_formula (fuel : nat) (method endpoint : string)
    (params files : dict) (s : Mastodon) (w : World) :
  ratelimit_method s = "pace" ->
  (0 < ratelimit_remaining s)%Z ->
  0 <= ratelimit_pacefactor s ->
  let now := clock w in
  let spacing := (ratelimit_reset s - now) / inject_Z (ratelimit_remaining s) in
  let elapsed := now - ratelimit_lastcall s in
  exists w' : World,
    pace_wait (s, w) = (Return tt, (s, w')) /\
    api_request fuel method endpoint params files (s, w)
    = perform fuel method endpoint params files (s, w') /\
    clock w' == now + Qmax 0 (ratelimit_pacefactor s * (spacing - elapsed)) /\
    sent w' = sent w /\
    (ratelimit_remaining s = 10%Z ->
     ratelimit_reset s == now + 100 ->
     ratelimit_pacefactor s == 9 # 10 ->
     clock w' == now + Qmax 0 ((9 # 10) * (10 - elapsed))).
Proof.
  intros Hm Hr Hpf now spacing elapsed.
  assert (Hr' : ratelimit_remaining s <> 0%Z) by lia.
  pose proof (pace_wait_remaining s w Hm Hr' Hpf) as Hw. simpl in Hw.
  fold now spacing elapsed in Hw.
  set (w' := if Qltb 0 (spacing - elapsed)
             then advance ((spacing - elapsed) * ratelimit_pacefactor s) w
             else w) in *.
  assert (Hclock :
            clock w' == now + Qmax 0 (ratelimit_pacefactor s * (spacing - elapsed))).
  { unfold w'. destruct (Qltb 0 (spacing - elapsed)) eqn:E.
    - apply Qltb_true in E. simpl. fold now.
      rewrite Q.max_r.
      + ring.
      + apply Qmult_le_0_compat; [exact Hpf|now apply Qlt_le_weak].
    - apply Qltb_false in E. fold now.
      rewrite Q.max_l.
      + ring.
      + setoid_replace 0 with (ratelimit_pacefactor s * 0) by ring.
        rewrite (Qmult_comm _ (spacing - elapsed)), (Qmult_comm _ 0).
        now apply Qmult_le_compat_r. }
  exists w'. split; [exact Hw|]. split.
  { unfold __api_request, bind. now rewrite Hw. }
  split; [exact Hclock|]. split.
  { unfold w'. now destruct (Qltb 0 (spacing - elapsed)). }
  intros H10 Hreset Hf. rewrite Hclock.
  assert (Hsp : spacing == 10).
  { unfold spacing. rewrite H10, Hreset. field. }
  now rewrite Hf, Hsp.
Qed.

(** C2 (the source misses it). In "pace" mode with [ratelimit_remaining == 0]
    the call sleeps until [ratelimit_reset] when that is in the future, and
    then fails on the unbound local [remaining_wait]: no request is sent. *)
Theorem pace_exhausted_unbound_local (fuel : nat) (method endpoint : string)
    (params files : dict) (s : Mastodon) (w : World) :
  ratelimit_method s = "pace" ->
  ratelimit_remaining s = 0%Z ->
  api_request fuel method endpoint params files (s, w)
  = (Raise (UnboundLocalError "remaining_wait"),
     (s, sleep_until (ratelimit_reset s) w)) /\
  sent (sleep_until (ratelimit_reset s) w) = sent w.
Proof.
  intros Hm Hr. split.
  - unfold __api_request, pace_wait, bind, get_self, time_time, ret, raise.
    simpl. rewrite Hm, Hr. simpl. unfold sleep_until.
    destruct (Qltb 0 (ratelimit_reset s - clock w)) eqn:E; [|reflexivity].
    rewrite time_sleep_nonneg; [reflexivity|].
    apply Qltb_true in E. now apply Qlt_le_weak.
  - unfold sleep_until.
    now destruct (Qltb 0 (ratelimit_reset s - clock w)).
Qed.

End PaceFacts.

(* ------------------------------------------------------------------ *)
(** ** The request loop *)

(** Runs the monadic operations at the head of the goal. *)
Ltac mrun :=
  cbv beta iota delta [bind try_except_raise get_self requests_call ret raise
                       lift modify_self time_time header int_of_header
                       reset_of_header print modify_world];
  cbn [fst snd].

Section LoopFacts.

Variable py_int : string -> option Z.
Variable strptime_total_seconds : string -> option Q.

Local Abbreviation loop := (request_loop py_int strptime_total_seconds).
Local Abbreviation ok := (processed py_int strptime_total_seconds).
Local Abbreviation api_request := (__api_request py_int strptime_total_seconds).

(** One iteration of the loop on a response that is processed without an
    exception. *)
Lemma request_loop_step fuel method endpoint params hdrs files s w r rem lim reset j :
  In method ["GET"; "POST"; "DELETE"] ->
  net w (List.length (sent w)) = NetResponse r ->
  ok r rem lim reset j ->
  loop (S fuel) method endpoint params hdrs files (s, w) =
    let rq := mkRequest method (api_base_url s ++ endpoint)%string params hdrs files in
    let w1 := received (debug_requests s) rq r w in
    let s1 := refreshed rem lim reset (clock w) s in
    match throttled_payload j with
    | Return true =>
        if String.eqb (ratelimit_method s) "throw"
        then (Raise (MastodonRatelimitError "Hit rate limit."), (s1, w1))
        else if String.eqb (ratelimit_method s) "wait"
                || String.eqb (ratelimit_method s) "pace"
        then loop fuel method endpoint params hdrs files (s1, sleep_until reset w1)
        else (Return j, (s1, w1))
    | Return false => (Return j, (s1, w1))
    | Raise e => (Raise e, (s1, w1))
    | Timeout => (Timeout, (s1, w1))
    end.
Proof.
  intros Hm Hnet (H404 & H500 & Hj & (v1 & Hh1 & Hp1) & (v2 & Hh2 & Hp2)
                  & (v3 & Hh3 & Hp3)).
  apply Z.eqb_neq in H404, H500.
  assert (Hcases : method = "GET" \/ method = "POST" \/ method = "DELETE")
    by (simpl in Hm; intuition).
  unfold refreshed, received, sleep_until.
  destruct Hcases as [-> | [-> | ->]];
    (cbn [request_loop]; mrun; cbn [String.eqb Ascii.eqb Bool.eqb]; mrun;
     rewrite Hnet; mrun;
     destruct (debug_requests s) eqn:Hd; mrun;
     rewrite H404, H500, Hj; mrun; rewrite Hh1; mrun; rewrite Hp1; mrun;
     rewrite Hh2; mrun; rewrite Hp2; mrun; rewrite Hh3; mrun; rewrite Hp3; mrun;
     (destruct (throttled_payload j) as [[|]| |] eqn:Ht; mrun;
      [ cbn [ratelimit_method ratelimit_reset set_ratelimit_lastcall
             set_ratelimit_reset set_ratelimit_limit set_ratelimit_remaining
             clock log_print log_call];
        destruct (String.eqb (ratelimit_method s) "throw"); mrun;
        [ reflexivity | ];
        destruct (String.eqb (ratelimit_method s) "wait"
                  || String.eqb (ratelimit_method s) "pace"); mrun;
        [ | reflexivity ];
        cbn [clock log_print log_call];
        match goal with
        | |- context [Qltb 0 ?d] =>
            destruct (Qltb 0 d) eqn:E; mrun;
            [ rewrite time_sleep_nonneg
                by (apply Qlt_le_weak; now apply Qltb_true);
              mrun; reflexivity
            | reflexivity ]
        end
      | reflexivity | reflexivity | reflexivity ])).
Qed.

Lemma received_sent debug rq r w : sent (received debug rq r w) = sent w ++ [rq].
Proof. unfold received. now destruct debug. Qed.

Lemma received_net debug rq r w : net (received debug rq r w) = net w.
Proof. unfold received. now destruct debug. Qed.

Lemma received_clock debug rq r w : clock (received debug rq r w) = clock w.
Proof. unfold received. now destruct debug. Qed.

Lemma received_slept debug rq r w : slept (received debug rq r w) = slept w.
Proof. unfold received. now destruct debug. Qed.

Lemma sleep_until_sent t w : sent (sleep_until t w) = sent w.
Proof. unfold sleep_until. now destruct (Qltb 0 (t - clock w)). Qed.

Lemma sleep_until_net t w : net (sleep_until t w) = net w.
Proof. unfold sleep_until. now destruct (Qltb 0 (t - clock w)). Qed.

Lemma announced_sent debug e w : sent (announced debug e w) = sent w.
Proof. unfold announced. now destruct debug. Qed.

Lemma announced_net debug e w : net (announced debug e w) = net w.
Proof. unfold announced. now destruct debug. Qed.

Lemma announced_clock debug e w : clock (announced debug e w) = clock w.
Proof. unfold announced. now destruct debug. Qed.

Lemma announced_slept debug e w : slept (announced debug e w) = slept w.
Proof. unfold announced. now destruct debug. Qed.

(** The reset time a response declares is determined by the response. *)
Lemma processed_reset r rem lim reset j rem' lim' reset' j' :
  ok r rem lim reset j -> ok r rem' lim' reset' j' -> reset = reset'.
Proof.
  intros (_ & _ & _ & _ & _ & (v & Hv & Hp)) (_ & _ & _ & _ & _ & (v' & Hv' & Hp')).
  congruence.
Qed.

(** Outside "pace" mode nothing happens before the request. *)
Lemma pace_wait_other_mode (s : Mastodon) (w : World) :
  ratelimit_method s <> "pace" -> pace_wait (s, w) = (Return tt, (s, w)).
Proof.
  intros Hm. unfold pace_wait. mrun.
  apply String.eqb_neq in Hm. now rewrite Hm.
Qed.

(** [__api_request] once the "pace" wait is over and the headers are built. *)
Lemma api_request_after_wait fuel method endpoint params files s w w0 hdrs :
  pace_wait (s, w) = (Return tt, (s, w0)) ->
  auth_headers s = Return hdrs ->
  api_request fuel method endpoint params files (s, w)
  = loop fuel method endpoint params hdrs files
      (s, announced (debug_requests s)
            (PrintRequest endpoint method params hdrs files) w0).
Proof.
  intros Hw Hh. unfold __api_request, perform_request, bind at 1.
  rewrite Hw. mrun. rewrite Hh. mrun. unfold announced.
  now destruct (debug_requests s).
Qed.

(** C5. Under [ratelimit_method = "throw"], when the response to the request
    carries a throttle payload (and is processed up to line 480: status
    neither 404 nor 500, body decoded, rate-limit headers read), the call
    raises [MastodonRatelimitError] and has sent the request exactly once,
    without sleeping. *)
Theorem throw_raises_without_retry (fuel : nat) (method endpoint : string)
    (params files : dict) (s : Mastodon) (w : World) (hdrs : option dict)
    (r : response) (rem lim : Z) (reset : Q) (j : pyval) :
  ratelimit_method s = "throw" ->
  In method ["GET"; "POST"; "DELETE"] ->
  auth_headers s = Return hdrs ->
  net w (List.length (sent w)) = NetResponse r ->
  ok r rem lim reset j ->
  throttled_payload j = Return true ->
  exists (s' : Mastodon) (w' : World),
    api_request (S fuel) method endpoint params files (s, w)
    = (Raise (MastodonRatelimitError "Hit rate limit."), (s', w')) /\
    sent w' = sent w ++ [mkRequest method (api_base_url s ++ endpoint)%string
                           params hdrs files] /\
    slept w' = slept w.
Proof.
  intros Hm Hmethod Hh Hnet Hok Ht.
  rewrite (api_request_after_wait _ _ _ _ _ s w w hdrs);
    [|apply pace_wait_other_mode; rewrite Hm; discriminate|exact Hh].
  rewrite (request_loop_step fuel method endpoint params hdrs files s _ r
             rem lim reset j Hmethod);
    [|now rewrite announced_net, announced_sent|exact Hok].
  cbv zeta. rewrite Ht, Hm. cbn [String.eqb Ascii.eqb Bool.eqb].
  eexists. eexists. split; [reflexivity|].
  rewrite received_sent, received_slept, announced_sent, announced_slept.
  split; reflexivity.
Qed.

(** In "wait" and "pace" mode the loop replays the request for as long as
    the responses carry a throttle payload, sleeping until each declared
    reset time, and returns the data of the first response that does not. *)
Lemma loop_retries_until_accepted (method endpoint : string)
    (params : dict) (hdrs : option dict) (files : dict) (n : nat) :
  forall (fuel : nat) (s : Mastodon) (w : World)
         (r : response) (rem lim : Z) (reset : Q) (j : pyval),
  ratelimit_method s = "wait" \/ ratelimit_method s = "pace" ->
  In method ["GET"; "POST"; "DELETE"] ->
  (forall i, (i < n)%nat ->
     exists ri remi limi reseti ji,
       net w (List.length (sent w) + i) = NetResponse ri /\
       ok ri remi limi reseti ji /\ throttled_payload ji = Return true) ->
  net w (List.length (sent w) + n) = NetResponse r ->
  ok r rem lim reset j ->
  throttled_payload j = Return false ->
  (n < fuel)%nat ->
  exists (s' : Mastodon) (w' : World),
    loop fuel method endpoint params hdrs files (s, w) = (Return j, (s', w')) /\
    sent w' = sent w ++ repeat (mkRequest method (api_base_url s ++ endpoint)%string
                                  params hdrs files) (S n) /\
    clock w <= clock w' /\
    (forall i ri remi limi reseti ji,
        (i < n)%nat ->
        net w (List.length (sent w) + i) = NetResponse ri ->
        ok ri remi limi reseti ji -> reseti <= clock w').
Proof.
  induction n as [|n IH]; intros fuel s w r rem lim reset j Hm Hmethod Hthr Hnet
                                 Hok Hacc Hfuel.
  - destruct fuel as [|fuel]; [lia|].
    rewrite Nat.add_0_r in Hnet.
    rewrite (request_loop_step fuel method endpoint params hdrs files s w r
               rem lim reset j Hmethod Hnet Hok).
    cbv zeta. rewrite Hacc. eexists. eexists. split; [reflexivity|].
    rewrite received_sent, received_clock. split; [reflexivity|].
    split; [apply Qle_refl|]. intros; lia.
  - destruct fuel as [|fuel]; [lia|].
    destruct (Hthr 0%nat) as (r0 & rem0 & lim0 & reset0 & j0 & Hnet0 & Hok0 & Ht0);
      [lia|].
    rewrite Nat.add_0_r in Hnet0.
    rewrite (request_loop_step fuel method endpoint params hdrs files s w r0
               rem0 lim0 reset0 j0 Hmethod Hnet0 Hok0).
    cbv zeta. rewrite Ht0.
    assert (Hnothrow : String.eqb (ratelimit_method s) "throw" = false)
      by (destruct Hm as [-> | ->]; reflexivity).
    assert (Hretry : String.eqb (ratelimit_method s) "wait"
                     || String.eqb (ratelimit_method s) "pace" = true)
      by (destruct Hm as [-> | ->]; reflexivity).
    rewrite Hnothrow, Hretry.
    set (rq := mkRequest method (api_base_url s ++ endpoint)%string
                 params hdrs files).
    set (s1 := refreshed rem0 lim0 reset0 (clock w) s).
    set (w1 := sleep_until reset0 (received (debug_requests s) rq r0 w)).
    assert (Hsent1 : sent w1 = sent w ++ [rq])
      by (unfold w1; now rewrite sleep_until_sent, received_sent).
    assert (Hnet1 : net w1 = net w)
      by (unfold w1; now rewrite sleep_until_net, received_net).
    assert (Hlen1 : forall i, (List.length (sent w1) + i
                               = List.length (sent w) + S i)%nat)
      by (intros i; rewrite Hsent1, length_app; simpl; lia).
    destruct (IH fuel s1 w1 r rem lim reset j) as (s' & w' & Hrun & Hsent & Hclock & Hresets).
    + exact Hm.
    + exact Hmethod.
    + intros i Hi. rewrite Hnet1, Hlen1. apply Hthr. lia.
    + now rewrite Hnet1, Hlen1.
    + exact Hok.
    + exact Hacc.
    + lia.
    + exists s', w'. split; [exact Hrun|]. split.
      * rewrite Hsent, Hsent1. change (api_base_url s1) with (api_base_url s).
        fold rq. rewrite <- app_assoc. reflexivity.
      * assert (Hw1 : clock w <= clock w1).
        { unfold w1. eapply Qle_trans; [|apply sleep_until_monotone].
          rewrite received_clock. apply Qle_refl. }
        split; [eapply Qle_trans; eassumption|].
        intros i ri remi limi reseti ji Hi Hneti Hoki.
        destruct i as [|i].
        -- rewrite Nat.add_0_r in Hneti.
           assert (ri = r0) by congruence. subst ri.
           rewrite (processed_reset _ _ _ _ _ _ _ _ _ Hoki Hok0).
           eapply Qle_trans; [|exact Hclock].
           unfold w1. apply sleep_until_clock.
        -- apply (Hresets i ri remi limi reseti ji); [lia| |exact Hoki].
           now rewrite Hnet1, Hlen1.
Qed.

Lemma sleep_until_reaches (t : Q) (w : World) :
  clock (sleep_until t w) == Qmax (clock w) t.
Proof.
  unfold sleep_until. destruct (Qltb 0 (t - clock w)) eqn:E.
  - apply Qltb_true in E. cbn [clock advance].
    rewrite Q.max_r by lra. ring.
  - apply Qltb_false in E. rewrite Q.max_l by lra. reflexivity.
Qed.

Lemma sleep_until_sent_at (t : Q) (w : World) :
  sent_at (sleep_until t w) = sent_at w.
Proof. unfold sleep_until. now destruct (Qltb 0 (t - clock w)). Qed.

Lemma received_sent_at debug rq r w :
  sent_at (received debug rq r w) = sent_at w ++ [clock w].
Proof. unfold received. now destruct debug. Qed.

Lemma announced_sent_at debug e w : sent_at (announced debug e w) = sent_at w.
Proof. unfold announced. now destruct debug. Qed.

(** The times at which the loop sends: the first request at once, each
    replay when the sleep that follows the throttled response is over, that
    is at the later of the time of that response and its reset time.  The
    session returned is the one refreshed from the last response. *)
Lemma loop_retry_schedule (method endpoint : string)
    (params : dict) (hdrs : option dict) (files : dict) (n : nat) :
  forall (fuel : nat) (s : Mastodon) (w : World)
         (r : response) (rem lim : Z) (reset : Q) (j : pyval),
  ratelimit_method s = "wait" \/ ratelimit_method s = "pace" ->
  In method ["GET"; "POST"; "DELETE"] ->
  (forall i, (i < n)%nat ->
     exists ri remi limi reseti ji,
       net w (List.length (sent w) + i) = NetResponse ri /\
       ok ri remi limi reseti ji /\ throttled_payload ji = Return true) ->
  net w (List.length (sent w) + n) = NetResponse r ->
  ok r rem lim reset j ->
  throttled_payload j = Return false ->
  (n < fuel)%nat ->
  exists (w' : World) (ts : list Q),
    loop fuel method endpoint params hdrs files (s, w)
    = (Return j, (refreshed rem lim reset (clock w') s, w')) /\
    sent_at w' = sent_at w ++ ts /\
    List.length ts = S n /\
    nth_error ts 0 = Some (clock w) /\
    nth_error ts n = Some (clock w') /\
    (forall i ri remi limi reseti ji ti,
        (i < n)%nat ->
        net w (List.length (sent w) + i) = NetResponse ri ->
        ok ri remi limi reseti ji ->
        nth_error ts i = Some ti ->
        exists ti', nth_error ts (S i) = Some ti' /\ ti' == Qmax ti reseti).
Proof.
  induction n as [|n IH]; intros fuel s w r rem lim reset j Hm Hmethod Hthr Hnet
                                 Hok Hacc Hfuel.
  - destruct fuel as [|fuel]; [lia|].
    rewrite Nat.add_0_r in Hnet.
    rewrite (request_loop_step fuel method
               endpoint params hdrs files s w r rem lim reset j Hmethod Hnet
               Hok).
    cbv zeta. rewrite Hacc.
    exists (received (debug_requests s)
              (mkRequest method (api_base_url s ++ endpoint)%string params hdrs
                 files) r w), [clock w].
    rewrite received_sent_at, received_clock.
    repeat split. intros; lia.
  - destruct fuel as [|fuel]; [lia|].
    destruct (Hthr 0%nat) as (r0 & rem0 & lim0 & reset0 & j0 & Hnet0 & Hok0 & Ht0);
      [lia|].
    rewrite Nat.add_0_r in Hnet0.
    rewrite (request_loop_step fuel method
               endpoint params hdrs files s w r0 rem0 lim0 reset0 j0 Hmethod
               Hnet0 Hok0).
    cbv zeta. rewrite Ht0.
    assert (Hnothrow : String.eqb (ratelimit_method s) "throw" = false)
      by (destruct Hm as [-> | ->]; reflexivity).
    assert (Hretry : String.eqb (ratelimit_method s) "wait"
                     || String.eqb (ratelimit_method s) "pace" = true)
      by (destruct Hm as [-> | ->]; reflexivity).
    rewrite Hnothrow, Hretry.
    set (rq := mkRequest method (api_base_url s ++ endpoint)%string
                 params hdrs files).
    set (s1 := refreshed rem0 lim0 reset0 (clock w) s).
    set (w1 := sleep_until reset0 (received (debug_requests s) rq r0 w)).
    assert (Hsent1 : sent w1 = sent w ++ [rq])
      by (unfold w1; now rewrite sleep_until_sent, received_sent).
    assert (Hat1 : sent_at w1 = sent_at w ++ [clock w])
      by (unfold w1; now rewrite sleep_until_sent_at, received_sent_at).
    assert (Hnet1 : net w1 = net w)
      by (unfold w1; now rewrite sleep_until_net, received_net).
    assert (Hclock1 : clock w1 == Qmax (clock w) reset0)
      by (unfold w1; rewrite sleep_until_reaches, received_clock; reflexivity).
    assert (Hlen1 : forall i, (List.length (sent w1) + i
                               = List.length (sent w) + S i)%nat)
      by (intros i; rewrite Hsent1, length_app; simpl; lia).
    destruct (IH fuel s1 w1 r rem lim reset j)
      as (w' & ts & Hrun & Hat & Hlen & Hfirst & Hlast & Hsched).
    + exact Hm.
    + exact Hmethod.
    + intros i Hi. rewrite Hnet1, Hlen1. apply Hthr. lia.
    + now rewrite Hnet1, Hlen1.
    + exact Hok.
    + exact Hacc.
    + lia.
    + exists w', (clock w :: ts). split; [exact Hrun|].
      split; [rewrite Hat, Hat1, <- app_assoc; reflexivity|].
      split; [cbn [List.length]; now rewrite Hlen|].
      split; [reflexivity|]. split; [exact Hlast|].
      intros i ri remi limi reseti ji ti Hi Hneti Hoki Hti.
      destruct i as [|i].
      * rewrite Nat.add_0_r in Hneti.
        assert (ri = r0) by congruence. subst ri.
        rewrite (processed_reset _ _ _ _ _ _ _ _
                   _ Hoki Hok0).
        cbn [nth_error] in Hti. injection Hti as <-.
        exists (clock w1). split; [exact Hfirst|exact Hclock1].
      * cbn [nth_error] in Hti.
        apply (Hsched i ri remi limi reseti ji ti); [lia| |exact Hoki|exact Hti].
        now rewrite Hnet1, Hlen1.
Qed.


(** C4. Under [ratelimit_method = "wait"], when the first [n] responses
    carry a throttle payload and the next one does not (each processed up
    to line 480), the call, given more than [n] loop iterations, sends the
    same request [n + 1] times and returns the decoded data of the last
    response.  The first request is sent at once; after each throttled
    response the call sleeps until the reset time that response declares
    and only then replays: the replay is sent at the later of the time of
    the response and its reset time, neither before nor after.  The call
    ends at the time of the last request, with the session refreshed from
    the last response; [n] is arbitrary, and [n = 1] is the case of one
    throttled response followed by an accepted one. *)
Theorem wait_retries_until_accepted (n fuel : nat) (method endpoint : string)
    (params files : dict) (s : Mastodon) (w : World) (hdrs : option dict)
    (r : response) (rem lim : Z) (reset : Q) (j : pyval) :
  ratelimit_method s = "wait" ->
  In method ["GET"; "POST"; "DELETE"] ->
  auth_headers s = Return hdrs ->
  (forall i, (i < n)%nat ->
     exists ri remi limi reseti ji,
       net w (List.length (sent w) + i) = NetResponse ri /\
       ok ri remi limi reseti ji /\ throttled_payload ji = Return true) ->
  net w (List.length (sent w) + n) = NetResponse r ->
  ok r rem lim reset j ->
  throttled_payload j = Return false ->
  (n < fuel)%nat ->
  exists (s' : Mastodon) (w' : World) (ts : list Q),
    api_request fuel method endpoint params files (s, w) = (Return j, (s', w')) /\
    sent w' = sent w ++ repeat (mkRequest method (api_base_url s ++ endpoint)%string
                                  params hdrs files) (S n) /\
    (forall i ri remi limi reseti ji,
        (i < n)%nat ->
        net w (List.length (sent w) + i) = NetResponse ri ->
        ok ri remi limi reseti ji -> reseti <= clock w') /\
    s' = refreshed rem lim reset (clock w') s /\
    sent_at w' = sent_at w ++ ts /\
    List.length ts = S n /\
    nth_error ts 0 = Some (clock w) /\
    nth_error ts n = Some (clock w') /\
    (forall i ri remi limi reseti ji ti,
        (i < n)%nat ->
        net w (List.length (sent w) + i) = NetResponse ri ->
        ok ri remi limi reseti ji ->
        nth_error ts i = Some ti ->
        exists ti', nth_error ts (S i) = Some ti' /\ ti' == Qmax ti reseti).
Proof.
  intros Hm Hmethod Hh Hthr Hnet Hok Hacc Hfuel.
  rewrite (api_request_after_wait _ _ _ _ _ s w w hdrs);
    [|apply pace_wait_other_mode; rewrite Hm; discriminate|exact Hh].
  set (w0 := announced (debug_requests s)
               (PrintRequest endpoint method params hdrs files) w).
  assert (Hsent0 : sent w0 = sent w) by apply announced_sent.
  assert (Hnet0 : net w0 = net w) by apply announced_net.
  assert (Hat0 : sent_at w0 = sent_at w) by apply announced_sent_at.
  assert (Hclock0 : clock w0 = clock w) by apply announced_clock.
  assert (Hthr0 : forall i, (i < n)%nat ->
            exists ri remi limi reseti ji,
              net w0 (List.length (sent w0) + i) = NetResponse ri /\
              ok ri remi limi reseti ji /\ throttled_payload ji = Return true)
    by (intros i Hi; rewrite Hnet0, Hsent0; now apply Hthr).
  assert (Hnetn : net w0 (List.length (sent w0) + n) = NetResponse r)
    by now rewrite Hnet0, Hsent0.
  destruct (loop_retries_until_accepted method endpoint params hdrs files n
              fuel s w0 r rem lim reset j (or_introl Hm) Hmethod Hthr0 Hnetn
              Hok Hacc Hfuel)
    as (s' & w' & Hrun & Hsent & _ & Hresets).
  destruct (loop_retry_schedule method endpoint params hdrs files n
              fuel s w0 r rem lim reset j (or_introl Hm) Hmethod Hthr0 Hnetn
              Hok Hacc Hfuel)
    as (w'' & ts & Hrun' & Hat & Hlen & Hfirst & Hlast & Hsched).
  rewrite Hrun in Hrun'. injection Hrun' as Hs' Hw'. subst w''.
  exists s', w', ts. split; [exact Hrun|].
  split; [now rewrite Hsent, Hsent0|]. split.
  { intros i ri remi limi reseti ji Hi Hneti Hoki.
    apply (Hresets i ri remi limi reseti ji Hi); [|exact Hoki].
    now rewrite Hnet0, Hsent0. }
  split; [exact Hs'|]. split; [now rewrite Hat, Hat0|].
  split; [exact Hlen|]. split; [now rewrite Hfirst, Hclock0|].
  split; [exact Hlast|].
  intros i ri remi limi reseti ji ti Hi Hneti Hoki Hti.
  apply (Hsched i ri remi limi reseti ji ti Hi); [|exact Hoki|exact Hti].
  now rewrite Hnet0, Hsent0.
Qed.

(** How the loop classifies a response by status and body. *)
Lemma loop_error_classes fuel method endpoint params hdrs files s w r :
  In method ["GET"; "POST"; "DELETE"] ->
  net w (List.length (sent w)) = NetResponse r ->
  let result := fst (loop (S fuel) method endpoint params hdrs files (s, w)) in
  (status_code r = 404%Z ->
   result = Raise (MastodonAPIError "Endpoint not found.")) /\
  (status_code r = 500%Z ->
   result = Raise (MastodonAPIError "General API problem.")) /\
  (status_code r <> 404%Z -> status_code r <> 500%Z -> json r = None ->
   result = Raise (MastodonAPIError
                     ("Could not parse response as JSON, respose code was "
                      ++ str_of_int (status_code r))%string)).
Proof.
  intros Hm Hnet.
  assert (Hcases : method = "GET" \/ method = "POST" \/ method = "DELETE")
    by (simpl in Hm; intuition).
  cbv zeta.
  destruct Hcases as [-> | [-> | ->]];
    (cbn [request_loop]; mrun; cbn [String.eqb Ascii.eqb Bool.eqb]; mrun;
     rewrite Hnet; mrun;
     destruct (debug_requests s); mrun;
     (split; [|split];
      [ intros H; rewrite H; reflexivity
      | intros H; rewrite H; reflexivity
      | intros H4 H5 Hj; apply Z.eqb_neq in H4, H5;
        rewrite H4, H5, Hj; reflexivity ])).
Qed.

(** C7 (as the code has it). Once the wait of "pace" mode is over and the
    request is sent, a response with status 404 makes the call raise
    [MastodonAPIError "Endpoint not found."], one with status 500
    [MastodonAPIError "General API problem."], and one with another status
    and a body that does not decode
    [MastodonAPIError "Could not parse response as JSON, respose code was <code>"]
    with the status code in decimal. *)
Theorem error_classification (fuel : nat) (method endpoint : string)
    (params files : dict) (s : Mastodon) (w w0 : World) (hdrs : option dict)
    (r : response) :
  pace_wait (s, w) = (Return tt, (s, w0)) ->
  auth_headers s = Return hdrs ->
  In method ["GET"; "POST"; "DELETE"] ->
  net w0 (List.length (sent w0)) = NetResponse r ->
  let result := fst (api_request (S fuel) method endpoint params files (s, w)) in
  (status_code r = 404%Z ->
   result = Raise (MastodonAPIError "Endpoint not found.")) /\
  (status_code r = 500%Z ->
   result = Raise (MastodonAPIError "General API problem.")) /\
  (status_code r <> 404%Z -> status_code r <> 500%Z -> json r = None ->
   result = Raise (MastodonAPIError
                     ("Could not parse response as JSON, respose code was "
                      ++ str_of_int (status_code r))%string)).
Proof.
  intros Hw Hh Hm Hnet. cbv zeta.
  rewrite (api_request_after_wait _ _ _ _ _ s w w0 hdrs Hw Hh).
  apply loop_error_classes; [exact Hm|].
  now rewrite announced_net, announced_sent.
Qed.

(** As [mrun], running [time.sleep] and exhausted fuel as well. *)
Ltac mrun_all :=
  cbv beta iota delta [bind try_except_raise get_self requests_call ret raise
                       lift modify_self time_time header int_of_header
                       reset_of_header print modify_world time_sleep timeout];
  cbn [fst snd orb].

(** Case analysis on everything an iteration of the loop branches on. *)
Ltac split_cases :=
  repeat (mrun_all;
          cbn [ratelimit_method ratelimit_reset api_base_url debug_requests
               set_ratelimit_lastcall set_ratelimit_reset set_ratelimit_limit
               set_ratelimit_remaining];
          match goal with
          | |- context [net ?w ?n] => destruct (net w n) eqn:?
          | |- context [if debug_requests ?s then _ else _] =>
              destruct (debug_requests s) eqn:?
          | |- context [Z.eqb (status_code ?r) ?c] =>
              destruct (Z.eqb (status_code r) c) eqn:?
          | |- context [match json ?r with _ => _ end] => destruct (json r) eqn:?
          | |- context [match headers ?r ?n with _ => _ end] =>
              destruct (headers r n) eqn:?
          | |- context [match py_int ?v with _ => _ end] =>
              destruct (py_int v) eqn:?
          | |- context [match strptime_total_seconds ?v with _ => _ end] =>
              destruct (strptime_total_seconds v) eqn:?
          | |- context [match throttled_payload ?j with _ => _ end] =>
              destruct (throttled_payload j) as [[|]| |] eqn:?
          | |- context [String.eqb (ratelimit_method ?s) ?m] =>
              destruct (String.eqb (ratelimit_method s) m) eqn:?
          | |- context [if Qltb ?a ?b then _ else _] =>
              destruct (Qltb a b) eqn:?
          end).

(** Whatever the server answers, the loop only ever sends the one request
    it was given, and sends it at least once when it runs at all. *)
Lemma loop_sent_invariant (method endpoint : string) (params : dict)
    (hdrs : option dict) (files : dict) (fuel : nat) :
  In method ["GET"; "POST"; "DELETE"] ->
  forall (s : Mastodon) (w : World),
  exists k : nat,
    sent (snd (snd (loop fuel method endpoint params hdrs files (s, w))))
    = sent w ++ repeat (mkRequest method (api_base_url s ++ endpoint)%string
                          params hdrs files) k /\
    (fuel <> 0%nat -> k <> 0%nat).
Proof.
  intros Hm.
  assert (Hcases : method = "GET" \/ method = "POST" \/ method = "DELETE")
    by (simpl in Hm; intuition).
  clear Hm.
  induction fuel as [|fuel IH]; intros s w.
  - exists 0%nat. simpl. rewrite app_nil_r. split; [reflexivity|congruence].
  - destruct Hcases as [-> | [-> | ->]].
    all: cbn [request_loop]; mrun_all; cbn [String.eqb Ascii.eqb Bool.eqb];
      split_cases;
      cbn [sent snd fst log_call log_print advance];
      try (exists 1%nat; split; [reflexivity|discriminate]).
    all: match goal with
         | |- context [request_loop _ _ _ _ _ _ _ _ (?s1, ?w1)] =>
             destruct (IH s1 w1) as [k [Hk _]]; exists (S k); rewrite Hk;
             cbn [sent snd fst log_call log_print advance api_base_url
                  set_ratelimit_lastcall set_ratelimit_reset
                  set_ratelimit_limit set_ratelimit_remaining repeat];
             rewrite <- app_assoc; split; [reflexivity|discriminate]
         end.
Qed.

End LoopFacts.

(* ------------------------------------------------------------------ *)
(** ** [log_in] *)




Lemma dict_get_set_other (d : dict) (k k' : string) (v : pyval) :
  k <> k' -> dict_get (dict_set d k v) k' = dict_get d k'.
Proof.
  intros Hne. induction d as [|[k0 v0] d IH]; simpl.
  - apply String.eqb_neq in Hne. now rewrite Hne.
  - destruct (String.eqb_spec k0 k) as [->|Hk]; simpl.
    + apply String.eqb_neq in Hne. now rewrite Hne.
    + now rewrite IH.
Qed.

Lemma log_in_locals_params (username password : pyval) (scopes : list string)
    (to_file : option string) :
  exists params : dict,
    __generate_params (log_in_locals username password scopes to_file) []
    = Return params /\
    dict_get params "to_file" = option_map VStr to_file.
Proof.
  destruct to_file as [path|], username, password;
    (eexists; split; [reflexivity|reflexivity]).
Qed.

Lemma token_request_params_to_file (s : Mastodon) (scopes : list string)
    (params : dict) :
  dict_get (token_request_params s scopes params) "to_file"
  = dict_get params "to_file".
Proof.
  unfold token_request_params.
  rewrite !dict_get_set_other by discriminate. reflexivity.
Qed.

Section LoginFacts.

Variable py_int : string -> option Z.
Variable strptime_total_seconds : string -> option Q.

Local Abbreviation loop := (request_loop py_int strptime_total_seconds).
Local Abbreviation api_request := (__api_request py_int strptime_total_seconds).
Local Abbreviation login := (log_in py_int strptime_total_seconds).

Lemma pace_wait_sent (s : Mastodon) (w : World) :
  fst (snd (pace_wait (s, w))) = s /\
  sent (snd (snd (pace_wait (s, w)))) = sent w.
Proof.
  unfold pace_wait.
  cbv beta iota delta [bind get_self time_time ret raise time_sleep modify_world].
  cbn [fst snd].
  repeat (cbv beta iota; cbn [fst snd];
          match goal with
          | |- context [if ?b then _ else _] => destruct b
          end).
  all: cbv beta iota; cbn [fst snd sent advance]; now split.
Qed.

Lemma api_request_sent (fuel : nat) (method endpoint : string)
    (params files : dict) (s : Mastodon) (w : World) :
  In method ["GET"; "POST"; "DELETE"] ->
  exists (k : nat) (hdrs : option dict),
    sent (snd (snd (api_request fuel method endpoint params files (s, w))))
    = sent w ++ repeat (mkRequest method (api_base_url s ++ endpoint)%string
                          params hdrs files) k /\
    (ratelimit_method s <> "pace" ->
     (exists h, auth_headers s = Return h) -> fuel <> 0%nat -> k <> 0%nat).
Proof.
  intros Hm. unfold __api_request, bind at 1.
  destruct (pace_wait_sent s w) as [Hs Hsent].
  destruct (pace_wait (s, w)) as [[[]|e|] [s0 w0]] eqn:Hw;
    cbn [fst snd] in Hs, Hsent; subst s0.
  - unfold perform_request. 
    cbv beta iota delta [bind get_self ret raise lift print modify_world].
    cbn [fst snd].
    destruct (auth_headers s) as [hdrs|e|] eqn:Hh.
    + destruct (loop_sent_invariant py_int strptime_total_seconds method
                  endpoint params hdrs files fuel Hm s
                  (announced (debug_requests s)
                     (PrintRequest endpoint method params hdrs files) w0))
        as (k & Hk & Hk').
      exists k, hdrs. split.
      * unfold announced in Hk. rewrite <- Hsent.
        destruct (debug_requests s); exact Hk.
      * intros _ _. exact Hk'.
    + exists 0%nat, None. cbn [fst snd repeat]. rewrite app_nil_r.
      split; [exact Hsent|]. intros _ [h Hh']. discriminate.
    + exists 0%nat, None. cbn [fst snd repeat]. rewrite app_nil_r.
      split; [exact Hsent|]. intros _ [h Hh']. discriminate.
  - exists 0%nat, None. cbn [fst snd repeat]. rewrite app_nil_r.
    split; [exact Hsent|]. intros Hne.
    rewrite pace_wait_other_mode in Hw by exact Hne. discriminate.
  - exists 0%nat, None. cbn [fst snd repeat]. rewrite app_nil_r.
    split; [exact Hsent|]. intros Hne.
    rewrite pace_wait_other_mode in Hw by exact Hne. discriminate.
Qed.

Lemma log_in_sent (fuel : nat) (username password : pyval)
    (scopes : list string) (to_file : option string) (params : dict)
    (s : Mastodon) (w : World) :
  __generate_params (log_in_locals username password scopes to_file) []
  = Return params ->
  sent (snd (snd (login fuel username password scopes to_file (s, w))))
  = sent (snd (snd (api_request fuel "POST" "/oauth/token"
                      (token_request_params s scopes params) [] (s, w)))).
Proof.
  intros Hp. unfold log_in.
  cbv beta iota delta [bind get_self ret raise lift try_except_raise
                       modify_self modify_world write_file store].
  rewrite Hp. cbn [fst snd].
  destruct (api_request fuel "POST" "/oauth/token"
              (token_request_params s scopes params) [] (s, w))
    as [[response|e|] [s1 w1]]; cbn [fst snd]; try reflexivity.
  repeat (cbv beta iota; cbn [fst snd sent negb];
          match goal with
          | |- context [match subscript ?a ?k with _ => _ end] =>
              destruct (subscript a k)
          | |- context [match str_of ?a with _ => _ end] => destruct (str_of a)
          | |- context [if negb ?b then _ else _] => destruct b
          | |- context [match to_file with _ => _ end] => destruct to_file
          | |- context [match ?v with VStr _ => _ | _ => _ end] =>
              is_var v; destruct v
          end).
  all: reflexivity.
Qed.

(** C10. A [log_in] call with a [to_file] argument sends nothing but POSTs
    to [/oauth/token] whose form parameters map ['to_file'] to that path;
    outside "pace" mode, with usable credentials and at least one loop
    iteration, it sends at least one. *)
Theorem log_in_transmits_to_file (fuel : nat) (username password : pyval)
    (scopes : list string) (path : string) (s : Mastodon) (w : World) :
  exists (k : nat) (params : dict) (hdrs : option dict),
    sent (snd (snd (login fuel username password scopes (Some path) (s, w))))
    = sent w ++ repeat (mkRequest "POST"
                          (api_base_url s ++ "/oauth/token")%string
                          params hdrs []) k /\
    dict_get params "to_file" = Some (VStr path) /\
    (ratelimit_method s <> "pace" ->
     (exists h, auth_headers s = Return h) -> fuel <> 0%nat -> k <> 0%nat).
Proof.
  destruct (log_in_locals_params username password scopes (Some path))
    as (params0 & Hp & Hfile).
  destruct (api_request_sent fuel "POST" "/oauth/token"
              (token_request_params s scopes params0) [] s w)
    as (k & hdrs & Hk & Hk'); [simpl; tauto|].
  exists k, (token_request_params s scopes params0), hdrs.
  split; [|split].
  - rewrite (log_in_sent fuel username password scopes (Some path) params0 s w Hp).
    exact Hk.
  - rewrite token_request_params_to_file. exact Hfile.
  - exact Hk'.
Qed.


End LoginFacts.

(* ------------------------------------------------------------------ *)
(** ** The constructor *)


(** [readline] reads up to the first line end, and gives it back as a
    newline. *)
Lemma readline_at_line_end (l e rest : string) :
  no_line_end l = true -> line_end e rest ->
  readline (l ++ e ++ rest)%string
  = ((l ++ (if String.eqb e EmptyString then EmptyString else LF))%string,
     rest).
Proof.
  intros Hl He. induction l as [|c l IH].
  - cbn [append]. destruct He as [-> | [-> | [[-> Hn] | [-> ->]]]].
    + reflexivity.
    + reflexivity.
    + destruct rest as [|c' rest']; [reflexivity|].
      cbn [starts_with_newline] in Hn.
      cbn [CR append readline]. rewrite Hn. reflexivity.
    + reflexivity.
  - cbn [no_line_end] in Hl. apply andb_true_iff in Hl. destruct Hl as [Hc Hl].
    apply negb_true_iff in Hc. unfold is_line_end in Hc.
    apply orb_false_iff in Hc. destruct Hc as [Hn Hr].
    cbn [append readline]. rewrite Hn, Hr, (IH Hl). reflexivity.
Qed.

Lemma rstrip_newline (t : string) :
  rstrip (t ++ LF)%string = rstrip t.
Proof.
  induction t as [|c t IH]; [reflexivity|].
  cbn [append rstrip]. now rewrite IH.
Qed.

Lemma rstrip_of_line (l e : string) :
  rstrip (l ++ (if String.eqb e EmptyString then EmptyString else LF))%string
  = rstrip l.
Proof.
  destruct (String.eqb e EmptyString).
  - f_equal. induction l as [|c l IH]; [reflexivity|]. cbn [append].
    now rewrite IH.
  - apply rstrip_newline.
Qed.

(** [rstrip] removes the trailing whitespace, all of it and nothing else. *)
Lemma rstrip_stripped (line : string) : stripped line (rstrip line).
Proof.
  unfold stripped. induction line as [|c line (ws & Hline & Hws & Hend)].
  - exists EmptyString. repeat split.
  - cbn [rstrip]. destruct (rstrip line) as [|a t] eqn:E.
    + cbn [append] in Hline. subst ws.
      destruct (isspace c) eqn:Hc.
      * exists (String c line). cbn [append all_space]. rewrite Hc, Hws.
        repeat split.
      * exists line. cbn [append ends_with_space]. rewrite Hc. repeat split.
        exact Hws.
    + exists ws. split; [|split].
      * cbn [append]. f_equal. exact Hline.
      * exact Hws.
      * exact Hend.
Qed.

(** What remains of [line] once its trailing whitespace is gone is
    determined by [line]. *)
Lemma all_space_ends (ws : string) :
  all_space ws = true -> ws <> EmptyString -> ends_with_space ws = true.
Proof.
  induction ws as [|c ws IH]; intros Hws Hne; [congruence|].
  cbn [all_space] in Hws. apply andb_true_iff in Hws. destruct Hws as [Hc Hws].
  destruct ws as [|c' ws']; [exact Hc|].
  cbn [ends_with_space]. apply IH; [exact Hws|discriminate].
Qed.

Lemma all_space_append (a b : string) :
  all_space (a ++ b)%string = all_space a && all_space b.
Proof.
  induction a as [|c a IH]; [reflexivity|].
  cbn [append all_space]. now rewrite IH, andb_assoc.
Qed.

Lemma stripped_unique (line t t' : string) :
  stripped line t -> stripped line t' -> t = t'.
Proof.
  intros (ws & Hline & Hws & Hend) (ws' & Hline' & Hws' & Hend').
  subst line. revert t' ws ws' Hline' Hws Hws' Hend Hend'.
  induction t as [|c t IH]; intros [|c' t'] ws ws' Heq Hws Hws' Hend Hend'.
  - reflexivity.
  - cbn [append] in Heq. subst ws. exfalso.
    change (String c' (t' ++ ws')) with (String c' t' ++ ws')%string in Hws.
    rewrite all_space_append in Hws. apply andb_true_iff in Hws.
    destruct Hws as [Hsp _].
    rewrite (all_space_ends _ Hsp) in Hend' by discriminate. discriminate.
  - cbn [append] in Heq. subst ws'. exfalso.
    change (String c (t ++ ws)) with (String c t ++ ws)%string in Hws'.
    rewrite all_space_append in Hws'. apply andb_true_iff in Hws'.
    destruct Hws' as [Hsp _].
    rewrite (all_space_ends _ Hsp) in Hend by discriminate. discriminate.
  - cbn [append] in Heq. injection Heq as <- Heq. f_equal.
    apply (IH t' ws ws' Heq Hws Hws').
    + destruct t as [|a t0]; [reflexivity|exact Hend].
    + destruct t' as [|a t0]; [reflexivity|exact Hend'].
Qed.

Lemma rstrip_clean (t : string) : ends_with_space t = false -> rstrip t = t.
Proof.
  intros Hend. apply (stripped_unique t).
  - apply rstrip_stripped.
  - exists EmptyString. split; [|split; [reflexivity|exact Hend]].
    induction t as [|c t IH]; [reflexivity|].
    cbn [append]. f_equal. apply IH.
    destruct t as [|a t0]; [reflexivity|exact Hend].
Qed.

(** The constructor on a credentials file given line by line. *)
Lemma init_from_lines (w : World) (path : string)
    (secret token : option string) (url : string) (dbg : bool)
    (method : string) (pf : Q) (l1 e1 l2 e2 rest : string) :
  fs w path = Some (l1 ++ e1 ++ l2 ++ e2 ++ rest)%string ->
  no_line_end l1 = true -> line_end e1 (l2 ++ e2 ++ rest)%string ->
  no_line_end l2 = true -> line_end e2 rest ->
  unreadable w path = None ->
  (forall t, token = Some t -> unreadable w t = None) ->
  exists s : Mastodon,
    __init__ w path secret token url dbg method pf = Return s /\
    client_id s = rstrip l1 /\ client_secret s = VStr (rstrip l2).
Proof.
  intros Hfile Hl1 He1 Hl2 He2 Hread Htoken. unfold __init__.
  cbn [client_id client_secret access_token]. rewrite Hfile, Hread.
  rewrite (readline_at_line_end l1 e1 _ Hl1 He1).
  rewrite (readline_at_line_end l2 e2 _ Hl2 He2).
  rewrite !rstrip_of_line.
  cbn [access_token set_client_secret set_client_id].
  destruct token as [tpath|].
  - destruct (fs w tpath).
    + rewrite (Htoken tpath eq_refl).
      eexists; split; [reflexivity|split; reflexivity].
    + eexists; split; [reflexivity|split; reflexivity].
  - eexists; split; [reflexivity|split; reflexivity].
Qed.

(** C9 (as the code has it). When [client_id] names an existing file that
    reads as text (and so does the file that [access_token] names, if it
    names one), the constructor succeeds, whatever [client_secret] was
    passed, and takes [client_id] and [client_secret] from the first two
    lines of the file, each without its line end and without any of the
    whitespace before it ([rstrip()]), not only the newline.  A line ends at
    a newline, at a carriage return, at the two together or with the file;
    for the file ["abc\nxyz\n"] the two are ["abc"] and ["xyz"]. *)
Theorem init_reads_credentials_file (w : World) (path : string)
    (secret token : option string) (url : string) (dbg : bool)
    (method : string) (pf : Q) (l1 e1 l2 e2 rest : string) :
  fs w path = Some (l1 ++ e1 ++ l2 ++ e2 ++ rest)%string ->
  no_line_end l1 = true -> line_end e1 (l2 ++ e2 ++ rest)%string ->
  no_line_end l2 = true -> line_end e2 rest ->
  unreadable w path = None ->
  (forall t, token = Some t -> unreadable w t = None) ->
  exists (s : Mastodon) (id sec : string),
    __init__ w path secret token url dbg method pf = Return s /\
    client_id s = id /\ client_secret s = VStr sec /\
    stripped l1 id /\ stripped l2 sec /\
    (l1 = "abc" -> l2 = "xyz" -> id = "abc" /\ sec = "xyz").
Proof.
  intros Hfile Hl1 He1 Hl2 He2 Hread Htoken.
  destruct (init_from_lines w path secret token url dbg method pf l1 e1 l2 e2
              rest Hfile Hl1 He1 Hl2 He2 Hread Htoken)
    as (s & Hrun & Hid & Hsec).
  exists s, (rstrip l1), (rstrip l2).
  split; [exact Hrun|]. split; [exact Hid|]. split; [exact Hsec|].
  split; [apply rstrip_stripped|]. split; [apply rstrip_stripped|].
  intros -> ->. split; reflexivity.
Qed.

(** Case analysis on everything the constructor branches on. *)
Ltac init_cases :=
  unfold __init__; cbn [client_id client_secret access_token];
  repeat match goal with
         | |- context [match fs ?w ?p with _ => _ end] =>
             destruct (fs w p) eqn:?
         | |- context [match unreadable ?w ?p with _ => _ end] =>
             destruct (unreadable w p) eqn:?
         | |- context [let (_, _) := readline ?c in _] =>
             destruct (readline c) eqn:?
         | |- context [match ?v with Some _ => _ | None => _ end] =>
             is_var v; destruct v
         | _ => progress cbn [access_token set_client_secret set_client_id
                              client_id client_secret is_none]
         end.

(** C3 (the source misses it). Whatever [ratelimit_pacefactor] the
    constructor is given, the pace factor of the session it returns is 0.9. *)
Theorem init_pace_factor_is_fixed (w : World) (id : string)
    (secret token : option string) (url : string) (dbg : bool)
    (method : string) (pf : Q) (s : Mastodon) :
  __init__ w id secret token url dbg method pf = Return s ->
  ratelimit_pacefactor s = 9 # 10.
Proof.
  init_cases; intros H; try discriminate H; injection H as <-; reflexivity.
Qed.

(* ------------------------------------------------------------------ *)
(** ** The embedding on small inputs *)

Example rstrip_line : rstrip ("abc " ++ Demo.nl)%string = "abc".
Proof. reflexivity. Qed.

Example readline_twice :
  let (line1, rest) := readline Demo.credentials_file in
  let (line2, rest') := readline rest in
  line1 = ("abc" ++ Demo.nl)%string /\ line2 = ("xyz" ++ Demo.nl)%string
  /\ rest' = EmptyString.
Proof. repeat split. Qed.

Example readline_carriage_return :
  readline ("abc" ++ CR ++ "xyz")%string = (("abc" ++ LF)%string, "xyz")
  /\ readline ("abc" ++ CRLF ++ "xyz")%string = (("abc" ++ LF)%string, "xyz").
Proof. split; reflexivity. Qed.

Example lower_header_name :
  lower "X-RateLimit-Remaining" = "x-ratelimit-remaining".
Proof. reflexivity. Qed.

Example split_then_sort :
  sorted (split_space "write read follow") = ["follow"; "read"; "write"].
Proof. reflexivity. Qed.

Example split_keeps_empty_fields : split_space "a  b" = ["a"; EmptyString; "b"].
Proof. reflexivity. Qed.

Example str_of_status : str_of_int 404 = "404".
Proof. reflexivity. Qed.

Example mismatch_message :
  scope_mismatch_message "read" "read write"
  = ("Granted scopes " ++ dquote ++ "read" ++ dquote
     ++ " differ from requested scopes " ++ dquote ++ "read write" ++ dquote
     ++ ".")%string.
Proof. reflexivity. Qed.

Example generate_params_account_statuses :
  __generate_params Demo.some_locals ["id"]
  = Return [("limit", VInt 20); ("media_ids[]", VList [VInt 1; VInt 2])].
Proof. reflexivity. Qed.

(** Outside the argument mappings of [generate_params_spec]: without
    ['self'] the function raises, and a key that is another key followed by
    ["[]"] is overwritten by the renaming and then renamed itself. *)
Example generate_params_without_self :
  __generate_params [("limit", VInt 20)] [] = Raise (KeyError "self").
Proof. reflexivity. Qed.

Example generate_params_clashing_keys :
  __generate_params
    [("self", VObject); ("a", VList [VInt 1]); ("a[]", VInt 5)] []
  = Return [("a[][]", VList [VInt 1])].
Proof. reflexivity. Qed.

Example throttle_detection :
  throttled_payload Demo.throttled_body = Return true /\
  throttled_payload Demo.timeline_body = Return false /\
  throttled_payload (VDict [("error", VStr "Record not found")]) = Return false /\
  throttled_payload (VInt 3) = Raise TypeError.
Proof. repeat split. Qed.

(** The defaults of the constructor's optional arguments. *)
Example constructor_defaults :
  exists s : Mastodon,
    Mastodon_new (Demo.world []) "id" (Some "secret") = Return s /\
    api_base_url s = "https://mastodon.social" /\
    debug_requests s = false /\
    ratelimit_method s = "wait" /\
    ratelimit_pacefactor s = 9 # 10 /\
    access_token s = VNone.
Proof. eexists. repeat split. Qed.

Example constructor_needs_secret :
  Mastodon_new (Demo.world []) "id" None
  = Raise (MastodonIllegalArgumentError
             "Specified client id directly, but did not supply secret").
Proof. reflexivity. Qed.

Example constructor_on_binary_file :
  Mastodon_new Demo.world_with_binary_file "app.secret" (Some "secret")
  = Raise UnicodeDecodeError.
Proof. reflexivity. Qed.

(** A token that is not a string: the call raises at the concatenation,
    with the token file already emptied. *)
Example log_in_number_token_empties_file :
  let result :=
    log_in Demo.int Demo.strptime 1 (VStr "user") (VStr "pw") ["read"]
      (Some "app.secret")
      (Demo.session "wait" 150,
       mkWorld 50 (Demo.disk "old")
         (Demo.serve
            [Demo.ok_response
               (VDict [("access_token", VInt 7); ("scope", VStr "read")])])
         [] [] [] [] Demo.no_files_unreadable) in
  fst result = Raise TypeError /\
  fs (snd (snd result)) "app.secret" = Some EmptyString.
Proof. split; vm_compute; reflexivity. Qed.

(* ------------------------------------------------------------------ *)
(** ** Instances *)

Lemma generate_params_spec_witness :
  exists out : dict,
    __generate_params Demo.some_locals ["id"] = Return out /\
    out = [("limit", VInt 20); ("media_ids[]", VList [VInt 1; VInt 2])] /\
    dict_get out "media_ids[]" = Some (VList [VInt 1; VInt 2]) /\
    dict_get out "media_ids" = None /\
    dict_get out "id" = None /\ dict_get out "max_id" = None /\
    dict_get out "self" = None.
Proof.
  destruct (generate_params_spec Demo.some_locals ["id"])
    as (out & Hrun & _ & Hchar & _ & _).
  - unfold wf_dict. simpl.
    repeat (constructor; [simpl; intuition discriminate|]). constructor.
  - simpl. tauto.
  - apply argument_names_no_clash. unfold argument_names. simpl.
    repeat (constructor; [reflexivity|]). constructor.
  - exists out. split; [exact Hrun|].
    assert (Hlist : dict_get out "media_ids[]" = Some (VList [VInt 1; VInt 2])).
    { apply Hchar. exists "media_ids". repeat split; try discriminate.
      simpl. intuition discriminate. }
    split; [|split; [exact Hlist|]];
      vm_compute in Hrun; injection Hrun as <-; repeat split.
Defined.

(** C8 as the specification words it fails: a tuple is a sequence, and
    [__generate_params] leaves it under its own name. *)
Lemma generate_params_keeps_tuple_name :
  exists out : dict,
    __generate_params
      [("self", VObject); ("media_ids", VTuple [VInt 1; VInt 2])] []
    = Return out /\
    dict_get out "media_ids[]" = None /\
    dict_get out "media_ids" = Some (VTuple [VInt 1; VInt 2]).
Proof. eexists. repeat split. Qed.

Lemma pace_sleep_formula_witness :
  exists w' : World,
    pace_wait (Demo.session "pace" 10, Demo.world [])
    = (Return tt, (Demo.session "pace" 10, w')) /\
    clock w' == 50 + Qmax 0 ((9 # 10) * (10 - (50 - 47))).
Proof.
  destruct (pace_sleep_formula Demo.int Demo.strptime 1 "GET"
              "/api/v1/timelines/home" [] [] (Demo.session "pace" 10)
              (Demo.world []))
    as (w' & Hw & _ & _ & _ & Hex).
  - reflexivity.
  - reflexivity.
  - discriminate.
  - exists w'. split; [exact Hw|].
    apply Hex; reflexivity.
Defined.

Lemma pace_exhausted_unbound_local_witness :
  fst (__api_request Demo.int Demo.strptime 1 "GET" "/api/v1/timelines/home"
         [] [] (Demo.session "pace" 0, Demo.world [Demo.ok_response Demo.timeline_body]))
  = Raise (UnboundLocalError "remaining_wait").
Proof.
  destruct (pace_exhausted_unbound_local Demo.int Demo.strptime 1 "GET"
              "/api/v1/timelines/home" [] [] (Demo.session "pace" 0)
              (Demo.world [Demo.ok_response Demo.timeline_body]))
    as [H _].
  - reflexivity.
  - reflexivity.
  - now rewrite H.
Defined.

Lemma throttled_response_processed :
  processed Demo.int Demo.strptime Demo.throttled_response 0 150 100
    Demo.throttled_body.
Proof.
  unfold processed. repeat split; try discriminate;
    eexists; split; reflexivity.
Qed.

Lemma ok_response_processed (body : pyval) :
  processed Demo.int Demo.strptime (Demo.ok_response body) 149 150 100 body.
Proof.
  unfold processed. repeat split; try discriminate;
    eexists; split; reflexivity.
Qed.

Lemma throw_raises_without_retry_witness :
  exists (s' : Mastodon) (w' : World),
    __api_request Demo.int Demo.strptime 1 "GET" "/api/v1/timelines/home" [] []
      (Demo.session "throw" 150, Demo.world [Demo.throttled_response])
    = (Raise (MastodonRatelimitError "Hit rate limit."), (s', w')) /\
    sent w'
    = [mkRequest "GET" (DEFAULT_BASE_URL ++ "/api/v1/timelines/home")%string
         [] None []] /\
    slept w' = [].
Proof.
  apply (throw_raises_without_retry Demo.int Demo.strptime 0 "GET"
           "/api/v1/timelines/home" [] [] (Demo.session "throw" 150)
           (Demo.world [Demo.throttled_response]) None
           Demo.throttled_response 0 150 100 Demo.throttled_body).
  - reflexivity.
  - simpl; tauto.
  - reflexivity.
  - reflexivity.
  - exact throttled_response_processed.
  - reflexivity.
Defined.

Lemma wait_retries_until_accepted_witness :
  exists (s' : Mastodon) (w' : World) (t0 t1 : Q),
    __api_request Demo.int Demo.strptime 2 "GET" "/api/v1/timelines/home" [] []
      (Demo.session "wait" 150,
       Demo.world [Demo.throttled_response; Demo.ok_response Demo.timeline_body])
    = (Return Demo.timeline_body, (s', w')) /\
    List.length (sent w') = 2%nat /\
    sent_at w' = [t0; t1] /\ t0 == 50 /\ t1 == 100 /\
    clock w' == 100 /\
    ratelimit_remaining s' = 149%Z /\ ratelimit_lastcall s' == 100.
Proof.
  destruct (wait_retries_until_accepted Demo.int Demo.strptime 1 2 "GET"
              "/api/v1/timelines/home" [] [] (Demo.session "wait" 150)
              (Demo.world [Demo.throttled_response;
                           Demo.ok_response Demo.timeline_body])
              None (Demo.ok_response Demo.timeline_body) 149 150 100
              Demo.timeline_body)
    as (s' & w' & ts & Hrun & Hsent & _ & Hs' & Hat & Hlen & Hfirst & Hlast
        & Hsched).
  - reflexivity.
  - simpl; tauto.
  - reflexivity.
  - intros i Hi. assert (i = 0%nat) by lia. subst i.
    exists Demo.throttled_response, 0%Z, 150%Z, 100, Demo.throttled_body.
    split; [reflexivity|]. split; [exact throttled_response_processed|reflexivity].
  - reflexivity.
  - exact (ok_response_processed Demo.timeline_body).
  - reflexivity.
  - lia.
  - destruct (Hsched 0%nat Demo.throttled_response 0%Z 150%Z 100
                Demo.throttled_body 50) as (t1 & Ht1 & Hmax).
    + lia.
    + reflexivity.
    + exact throttled_response_processed.
    + exact Hfirst.
    + assert (Hts : ts = [50; t1]).
      { destruct ts as [|a [|b [|c ts]]]; cbn [List.length] in Hlen;
          try discriminate Hlen.
        cbn [nth_error] in Hfirst, Ht1.
        injection Hfirst as ->. injection Ht1 as ->. reflexivity. }
      assert (Ht1' : t1 == 100) by (rewrite Hmax; reflexivity).
      assert (Hclock : clock w' == 100).
      { rewrite Hts in Hlast. cbn [nth_error] in Hlast.
        injection Hlast as <-. exact Ht1'. }
      exists s', w', 50, t1. split; [exact Hrun|]. split.
      { rewrite Hsent. reflexivity. }
      split; [rewrite Hat, Hts; reflexivity|].
      split; [reflexivity|]. split; [exact Ht1'|]. split; [exact Hclock|].
      rewrite Hs'. split; [reflexivity|exact Hclock].
Defined.

Lemma error_classification_witness :
  fst (__api_request Demo.int Demo.strptime 1 "GET" "/api/v1/nowhere" [] []
         (Demo.session "wait" 150, Demo.world [Demo.html_response 404]))
  = Raise (MastodonAPIError "Endpoint not found.").
Proof.
  destruct (error_classification Demo.int Demo.strptime 0 "GET"
              "/api/v1/nowhere" [] [] (Demo.session "wait" 150)
              (Demo.world [Demo.html_response 404])
              (Demo.world [Demo.html_response 404]) None
              (Demo.html_response 404))
    as [H404 _].
  - reflexivity.
  - reflexivity.
  - simpl; tauto.
  - reflexivity.
  - apply H404. reflexivity.
Defined.

(** C7 as the specification words it fails: none of the three messages it
    gives is the message of the error raised. *)
Lemma error_messages_differ_from_claim :
  fst (__api_request Demo.int Demo.strptime 1 "GET" "/api/v1/nowhere" [] []
         (Demo.session "wait" 150, Demo.world [Demo.html_response 404]))
  <> Raise (MastodonAPIError "Endpoint not found") /\
  fst (__api_request Demo.int Demo.strptime 1 "GET" "/api/v1/nowhere" [] []
         (Demo.session "wait" 150, Demo.world [Demo.html_response 500]))
  <> Raise (MastodonAPIError "General API problem") /\
  fst (__api_request Demo.int Demo.strptime 1 "GET" "/api/v1/nowhere" [] []
         (Demo.session "wait" 150, Demo.world [Demo.html_response 200]))
  <> Raise (MastodonAPIError
              "Could not parse response as JSON, status was 200").
Proof.
  repeat split; vm_compute; intros H; discriminate H.
Qed.



Lemma log_in_transmits_to_file_example :
  map (fun rq => dict_get (rq_data rq) "to_file")
      (sent (snd (snd (log_in Demo.int Demo.strptime 1 (VStr "user") (VStr "pw")
                         ["read"] (Some "token.secret")
                         (Demo.session "wait" 150,
                          Demo.world [Demo.ok_response (Demo.token_body "read")])))))
  = [Some (VStr "token.secret")].
Proof. vm_compute. reflexivity. Qed.

Lemma init_reads_credentials_file_witness :
  (exists s : Mastodon,
     __init__ (Demo.world_with_file Demo.credentials_file) "app.secret"
       (Some "ignored") None DEFAULT_BASE_URL false "wait" (9 # 10)
     = Return s /\
     client_id s = "abc" /\ client_secret s = VStr "xyz") /\
  (exists s : Mastodon,
     __init__ (Demo.world_with_file Demo.mixed_credentials_file) "app.secret"
       (Some "ignored") None DEFAULT_BASE_URL false "wait" (9 # 10)
     = Return s /\
     client_id s = "abc" /\ client_secret s = VStr "xyz").
Proof.
  split.
  - destruct (init_reads_credentials_file
                (Demo.world_with_file Demo.credentials_file) "app.secret"
                (Some "ignored") None DEFAULT_BASE_URL false "wait" (9 # 10)
                "abc" LF "xyz" LF EmptyString)
      as (s & id & sec & Hs & Hid & Hsec & _ & _ & Habc).
    + reflexivity.
    + reflexivity.
    + left. reflexivity.
    + reflexivity.
    + left. reflexivity.
    + reflexivity.
    + discriminate.
    + destruct (Habc eq_refl eq_refl) as [-> ->].
      exists s. split; [exact Hs|]. split; [exact Hid|exact Hsec].
  - destruct (init_reads_credentials_file
                (Demo.world_with_file Demo.mixed_credentials_file) "app.secret"
                (Some "ignored") None DEFAULT_BASE_URL false "wait" (9 # 10)
                "abc " CR "xyz" CRLF EmptyString)
      as (s & id & sec & Hs & Hid & Hsec & Hstrip1 & Hstrip2 & _).
    + reflexivity.
    + reflexivity.
    + right. right. left. split; reflexivity.
    + reflexivity.
    + right. left. reflexivity.
    + reflexivity.
    + discriminate.
    + assert (Hone : stripped "abc " "abc")
        by (exists " "; repeat split).
      assert (Htwo : stripped "xyz" "xyz")
        by (exists EmptyString; repeat split).
      rewrite (stripped_unique _ _ _ Hstrip1 Hone) in Hid.
      rewrite (stripped_unique _ _ _ Hstrip2 Htwo) in Hsec.
      exists s. split; [exact Hs|]. split; [exact Hid|exact Hsec].
Defined.

(** C9 as the specification words it fails: the first line of the file
    ["abc \nxyz\n"] without its trailing newline is ["abc "], and the
    constructor resolves [client_id] to ["abc"]. *)
Lemma init_strips_more_than_the_newline :
  strip_trailing_newline (fst (readline Demo.padded_credentials_file))
  = "abc " /\
  exists s : Mastodon,
    __init__ (Demo.world_with_file Demo.padded_credentials_file) "app.secret"
      None None DEFAULT_BASE_URL false "wait" (9 # 10)
    = Return s /\
    client_id s = "abc" /\
    client_id s
    <> strip_trailing_newline (fst (readline Demo.padded_credentials_file)).
Proof.
  split; [reflexivity|].
  eexists. split; [reflexivity|]. split; [reflexivity|].
  vm_compute. discriminate.
Qed.

Lemma init_pace_factor_is_fixed_witness :
  exists s : Mastodon,
    __init__ (Demo.world []) "id" (Some "secret") None DEFAULT_BASE_URL false
      "pace" (1 # 2)
    = Return s /\
    ratelimit_pacefactor s = 9 # 10 /\ ~ ratelimit_pacefactor s == 1 # 2.
Proof.
  eexists. split; [reflexivity|]. split.
  - apply (init_pace_factor_is_fixed (Demo.world []) "id" (Some "secret") None
             DEFAULT_BASE_URL false "pace" (1 # 2)).
    reflexivity.
  - vm_compute. discriminate.
Defined.

(* ================================================================== *)
(** * Further properties *)

(* ------------------------------------------------------------------ *)
(** ** The request engine: failures, refresh, policies *)

Section MoreLoopFacts.

Variable py_int : string -> option Z.
Variable strptime_total_seconds : string -> option Q.

Local Abbreviation loop := (request_loop py_int strptime_total_seconds).
Local Abbreviation ok := (processed py_int strptime_total_seconds).
Local Abbreviation api_request := (__api_request py_int strptime_total_seconds).

(** The first steps of an iteration for each of the three verbs. *)
Ltac enter_loop Hm :=
  let Hcases := fresh "Hcases" in
  match type of Hm with
  | In ?method _ =>
      assert (Hcases : method = "GET" \/ method = "POST" \/ method = "DELETE")
        by (simpl in Hm; intuition);
      destruct Hcases as [-> | [-> | ->]]
  end;
  cbn [request_loop]; mrun; cbn [String.eqb Ascii.eqb Bool.eqb]; mrun.

Lemma loop_network_failure fuel method endpoint params hdrs files s w :
  In method ["GET"; "POST"; "DELETE"] ->
  net w (List.length (sent w)) = NetFail ->
  loop (S fuel) method endpoint params hdrs files (s, w)
  = (Raise (MastodonNetworkError "Could not complete request."),
     (s, log_call (mkRequest method (api_base_url s ++ endpoint)%string
                     params hdrs files) w)).
Proof.
  intros Hm Hnet. enter_loop Hm; rewrite Hnet; reflexivity.
Qed.

Lemma loop_illegal_method fuel method endpoint params hdrs files s w :
  ~ In method ["GET"; "POST"; "DELETE"] ->
  loop (S fuel) method endpoint params hdrs files (s, w)
  = (Raise (MastodonIllegalArgumentError "Illegal request."), (s, w)).
Proof.
  intros Hm. cbn [request_loop]. mrun.
  destruct (String.eqb_spec method "GET") as [->|_];
    [exfalso; apply Hm; simpl; tauto|].
  destruct (String.eqb_spec method "POST") as [->|_];
    [exfalso; apply Hm; simpl; tauto|].
  destruct (String.eqb_spec method "DELETE") as [->|_];
    [exfalso; apply Hm; simpl; tauto|].
  reflexivity.
Qed.

Lemma loop_error_response fuel method endpoint params hdrs files s w r :
  In method ["GET"; "POST"; "DELETE"] ->
  net w (List.length (sent w)) = NetResponse r ->
  status_code r = 404%Z \/ status_code r = 500%Z \/ json r = None ->
  snd (loop (S fuel) method endpoint params hdrs files (s, w))
  = (s, received (debug_requests s)
          (mkRequest method (api_base_url s ++ endpoint)%string
             params hdrs files) r w).
Proof.
  intros Hm Hnet Herr. unfold received.
  enter_loop Hm; rewrite Hnet; mrun;
    (destruct (debug_requests s); mrun;
     (destruct (Z.eqb (status_code r) 404) eqn:E4; [reflexivity|];
      destruct (Z.eqb (status_code r) 500) eqn:E5; [reflexivity|];
      destruct Herr as [H|[H|H]];
      [ rewrite H in E4; discriminate
      | rewrite H in E5; discriminate
      | rewrite H; reflexivity ])).
Qed.

Lemma loop_missing_remaining_header fuel method endpoint params hdrs files s w r j :
  In method ["GET"; "POST"; "DELETE"] ->
  net w (List.length (sent w)) = NetResponse r ->
  status_code r <> 404%Z -> status_code r <> 500%Z -> json r = Some j ->
  headers r "X-RateLimit-Remaining" = None ->
  loop (S fuel) method endpoint params hdrs files (s, w)
  = (Raise (KeyError "x-ratelimit-remaining"),
     (s, received (debug_requests s)
           (mkRequest method (api_base_url s ++ endpoint)%string
              params hdrs files) r w)).
Proof.
  intros Hm Hnet H404 H500 Hj Hh. unfold received.
  apply Z.eqb_neq in H404, H500.
  enter_loop Hm; rewrite Hnet; mrun;
    (destruct (debug_requests s); mrun;
     rewrite H404, H500, Hj; mrun; rewrite Hh; reflexivity).
Qed.

Lemma loop_unparsable_reset fuel method endpoint params hdrs files s w r j
      v1 rem v2 lim v3 :
  In method ["GET"; "POST"; "DELETE"] ->
  net w (List.length (sent w)) = NetResponse r ->
  status_code r <> 404%Z -> status_code r <> 500%Z -> json r = Some j ->
  headers r "X-RateLimit-Remaining" = Some v1 -> py_int v1 = Some rem ->
  headers r "X-RateLimit-Limit" = Some v2 -> py_int v2 = Some lim ->
  headers r "X-RateLimit-Reset" = Some v3 ->
  strptime_total_seconds v3 = None ->
  loop (S fuel) method endpoint params hdrs files (s, w)
  = (Raise ValueError,
     (set_ratelimit_limit lim (set_ratelimit_remaining rem s),
      received (debug_requests s)
        (mkRequest method (api_base_url s ++ endpoint)%string
           params hdrs files) r w)).
Proof.
  intros Hm Hnet H404 H500 Hj Hh1 Hp1 Hh2 Hp2 Hh3 Hp3. unfold received.
  apply Z.eqb_neq in H404, H500.
  enter_loop Hm; rewrite Hnet; mrun;
    (destruct (debug_requests s); mrun;
     rewrite H404, H500, Hj; mrun; rewrite Hh1; mrun; rewrite Hp1; mrun;
     rewrite Hh2; mrun; rewrite Hp2; mrun; rewrite Hh3; mrun; rewrite Hp3;
     reflexivity).
Qed.

(** X1. When the transport call fails, [__api_request] raises
    [MastodonNetworkError "Could not complete request."] after exactly one
    attempt: the request is not sent again, the session is unchanged and
    nothing is slept, whatever the rate-limit policy. *)
Theorem network_failure_is_not_retried (fuel : nat) (method endpoint : string)
    (params files : dict) (s : Mastodon) (w w0 : World) (hdrs : option dict) :
  pace_wait (s, w) = (Return tt, (s, w0)) ->
  auth_headers s = Return hdrs ->
  In method ["GET"; "POST"; "DELETE"] ->
  net w0 (List.length (sent w0)) = NetFail ->
  exists w' : World,
    api_request (S fuel) method endpoint params files (s, w)
    = (Raise (MastodonNetworkError "Could not complete request."), (s, w')) /\
    sent w' = sent w0 ++ [mkRequest method (api_base_url s ++ endpoint)%string
                            params hdrs files] /\
    slept w' = slept w0.
Proof.
  intros Hw Hh Hm Hnet.
  rewrite (api_request_after_wait _ _ _ _ _ _ _ s w w0 hdrs Hw Hh).
  rewrite loop_network_failure;
    [|exact Hm|now rewrite announced_net, announced_sent].
  eexists. split; [reflexivity|].
  cbn [sent slept log_call]. rewrite announced_sent, announced_slept.
  split; reflexivity.
Qed.

(** For a method other than GET, POST and DELETE, [__api_request] raises
    [MastodonIllegalArgumentError "Illegal request."] and sends nothing. *)
Lemma illegal_method_sends_nothing (fuel : nat) (method endpoint : string)
    (params files : dict) (s : Mastodon) (w w0 : World) (hdrs : option dict) :
  pace_wait (s, w) = (Return tt, (s, w0)) ->
  auth_headers s = Return hdrs ->
  ~ In method ["GET"; "POST"; "DELETE"] ->
  exists w' : World,
    api_request (S fuel) method endpoint params files (s, w)
    = (Raise (MastodonIllegalArgumentError "Illegal request."), (s, w')) /\
    sent w' = sent w0.
Proof.
  intros Hw Hh Hm.
  rewrite (api_request_after_wait _ _ _ _ _ _ _ s w w0 hdrs Hw Hh).
  rewrite loop_illegal_method by exact Hm.
  eexists. split; [reflexivity|]. apply announced_sent.
Qed.

(** X2. A call answered by a response that is processed and carries no
    throttle payload returns the decoded body after one request and no
    further sleep, and leaves the session with [ratelimit_remaining],
    [ratelimit_limit] and [ratelimit_reset] as the headers give them and
    [ratelimit_lastcall] at the time of the response; token, policy and
    pace factor are unchanged. *)
Theorem accepted_response_refreshes_rate_limit (fuel : nat)
    (method endpoint : string) (params files : dict) (s : Mastodon)
    (w w0 : World) (hdrs : option dict) (r : response) (rem lim : Z)
    (reset : Q) (j : pyval) :
  pace_wait (s, w) = (Return tt, (s, w0)) ->
  auth_headers s = Return hdrs ->
  In method ["GET"; "POST"; "DELETE"] ->
  net w0 (List.length (sent w0)) = NetResponse r ->
  ok r rem lim reset j ->
  throttled_payload j = Return false ->
  exists (s' : Mastodon) (w' : World),
    api_request (S fuel) method endpoint params files (s, w)
    = (Return j, (s', w')) /\
    ratelimit_remaining s' = rem /\ ratelimit_limit s' = lim /\
    ratelimit_reset s' = reset /\ ratelimit_lastcall s' = clock w0 /\
    access_token s' = access_token s /\
    ratelimit_method s' = ratelimit_method s /\
    ratelimit_pacefactor s' = ratelimit_pacefactor s /\
    sent w' = sent w0 ++ [mkRequest method (api_base_url s ++ endpoint)%string
                            params hdrs files] /\
    slept w' = slept w0 /\ clock w' = clock w0.
Proof.
  intros Hw Hh Hm Hnet Hok Hacc.
  rewrite (api_request_after_wait _ _ _ _ _ _ _ s w w0 hdrs Hw Hh).
  rewrite (request_loop_step _ _ fuel method endpoint params hdrs files s _ r
             rem lim reset j Hm);
    [|now rewrite announced_net, announced_sent|exact Hok].
  cbv zeta. rewrite Hacc. eexists. eexists. split; [reflexivity|].
  rewrite received_sent, received_slept, received_clock, announced_sent,
    announced_slept, announced_clock.
  repeat split; reflexivity.
Qed.

(** X3. A response with status 404 or 500, or with a body that does not
    decode, leaves the session as it was: its rate-limit headers are not
    read.  One request has been sent and nothing slept. *)
Theorem error_response_keeps_rate_limit_state (fuel : nat)
    (method endpoint : string) (params files : dict) (s : Mastodon)
    (w w0 : World) (hdrs : option dict) (r : response) :
  pace_wait (s, w) = (Return tt, (s, w0)) ->
  auth_headers s = Return hdrs ->
  In method ["GET"; "POST"; "DELETE"] ->
  net w0 (List.length (sent w0)) = NetResponse r ->
  status_code r = 404%Z \/ status_code r = 500%Z \/ json r = None ->
  exists w' : World,
    snd (api_request (S fuel) method endpoint params files (s, w)) = (s, w') /\
    sent w' = sent w0 ++ [mkRequest method (api_base_url s ++ endpoint)%string
                            params hdrs files] /\
    slept w' = slept w0.
Proof.
  intros Hw Hh Hm Hnet Herr.
  rewrite (api_request_after_wait _ _ _ _ _ _ _ s w w0 hdrs Hw Hh).
  rewrite (loop_error_response fuel method endpoint params hdrs files s _ r Hm);
    [| now rewrite announced_net, announced_sent | exact Herr].
  eexists. split; [reflexivity|].
  rewrite received_sent, received_slept, announced_sent, announced_slept.
  split; reflexivity.
Qed.

(** X4. A response that decodes but lacks the [X-RateLimit-Remaining]
    header makes the call raise [KeyError] after the request was sent, with
    the header's name in lower case as the missing key; the decoded data is
    lost and the session is unchanged. *)
Theorem missing_rate_limit_header_raises (fuel : nat)
    (method endpoint : string) (params files : dict) (s : Mastodon)
    (w w0 : World) (hdrs : option dict) (r : response) (j : pyval) :
  pace_wait (s, w) = (Return tt, (s, w0)) ->
  auth_headers s = Return hdrs ->
  In method ["GET"; "POST"; "DELETE"] ->
  net w0 (List.length (sent w0)) = NetResponse r ->
  status_code r <> 404%Z -> status_code r <> 500%Z -> json r = Some j ->
  headers r "X-RateLimit-Remaining" = None ->
  exists w' : World,
    api_request (S fuel) method endpoint params files (s, w)
    = (Raise (KeyError "x-ratelimit-remaining"), (s, w')) /\
    sent w' = sent w0 ++ [mkRequest method (api_base_url s ++ endpoint)%string
                            params hdrs files].
Proof.
  intros Hw Hh Hm Hnet H404 H500 Hj Hmiss.
  rewrite (api_request_after_wait _ _ _ _ _ _ _ s w w0 hdrs Hw Hh).
  rewrite (loop_missing_remaining_header fuel method endpoint params hdrs files
             s _ r j Hm); try assumption;
    [|now rewrite announced_net, announced_sent].
  eexists. split; [reflexivity|].
  now rewrite received_sent, announced_sent.
Qed.

(** X5. When [X-RateLimit-Reset] does not parse, the call raises
    [ValueError] with the session half refreshed: [ratelimit_remaining] and
    [ratelimit_limit] are the new ones, [ratelimit_reset] and
    [ratelimit_lastcall] the old ones. *)
Theorem unparsable_reset_leaves_partial_update (fuel : nat)
    (method endpoint : string) (params files : dict) (s : Mastodon)
    (w w0 : World) (hdrs : option dict) (r : response) (j : pyval)
    (v1 v2 v3 : string) (rem lim : Z) :
  pace_wait (s, w) = (Return tt, (s, w0)) ->
  auth_headers s = Return hdrs ->
  In method ["GET"; "POST"; "DELETE"] ->
  net w0 (List.length (sent w0)) = NetResponse r ->
  status_code r <> 404%Z -> status_code r <> 500%Z -> json r = Some j ->
  headers r "X-RateLimit-Remaining" = Some v1 -> py_int v1 = Some rem ->
  headers r "X-RateLimit-Limit" = Some v2 -> py_int v2 = Some lim ->
  headers r "X-RateLimit-Reset" = Some v3 ->
  strptime_total_seconds v3 = None ->
  exists (s' : Mastodon) (w' : World),
    api_request (S fuel) method endpoint params files (s, w)
    = (Raise ValueError, (s', w')) /\
    ratelimit_remaining s' = rem /\ ratelimit_limit s' = lim /\
    ratelimit_reset s' = ratelimit_reset s /\
    ratelimit_lastcall s' = ratelimit_lastcall s.
Proof.
  intros Hw Hh Hm Hnet H404 H500 Hj Hh1 Hp1 Hh2 Hp2 Hh3 Hp3.
  rewrite (api_request_after_wait _ _ _ _ _ _ _ s w w0 hdrs Hw Hh).
  rewrite (loop_unparsable_reset fuel method endpoint params hdrs files
             s _ r j v1 rem v2 lim v3 Hm); try assumption;
    [|now rewrite announced_net, announced_sent].
  eexists. eexists. split; [reflexivity|]. repeat split; reflexivity.
Qed.

Lemma scalar_body_not_iterable (j : pyval) :
  scalar_body j = true -> throttled_payload j = Raise TypeError.
Proof. destruct j; simpl; intros H; try discriminate H; reflexivity. Qed.

(** X6. A processed response whose body decodes to [None], a boolean or a
    number makes the call raise [TypeError]: ["error" in response] is
    evaluated on every decoded body. *)
Theorem scalar_body_raises_type_error (fuel : nat)
    (method endpoint : string) (params files : dict) (s : Mastodon)
    (w w0 : World) (hdrs : option dict) (r : response) (rem lim : Z)
    (reset : Q) (j : pyval) :
  pace_wait (s, w) = (Return tt, (s, w0)) ->
  auth_headers s = Return hdrs ->
  In method ["GET"; "POST"; "DELETE"] ->
  net w0 (List.length (sent w0)) = NetResponse r ->
  ok r rem lim reset j ->
  scalar_body j = true ->
  fst (api_request (S fuel) method endpoint params files (s, w))
  = Raise TypeError.
Proof.
  intros Hw Hh Hm Hnet Hok Hj.
  rewrite (api_request_after_wait _ _ _ _ _ _ _ s w w0 hdrs Hw Hh).
  rewrite (request_loop_step _ _ fuel method endpoint params hdrs files s _ r
             rem lim reset j Hm);
    [|now rewrite announced_net, announced_sent|exact Hok].
  cbv zeta. now rewrite (scalar_body_not_iterable j Hj).
Qed.

(** X7. A decoded body counts as throttled exactly when it is a dictionary
    whose ["error"] entry is the string ["Throttled"]. *)
Theorem throttle_detection_exact (j : pyval) :
  throttled_payload j = Return true <->
  exists d : dict, j = VDict d /\ dict_get d "error" = Some (VStr "Throttled").
Proof.
  split.
  - destruct j as [| | | | t | | l | d | l];
      cbv beta iota delta [throttled_payload contains subscript];
      try discriminate.
    + destruct (is_substring "error" t); discriminate.
    + destruct (existsb (fun x => eq_str x "error") l); discriminate.
    + unfold dict_has. destruct (dict_get d "error") as [e|] eqn:E;
        [|discriminate].
      intros H. injection H as H. exists d. split; [reflexivity|].
      destruct e; simpl in H; try discriminate H.
      apply String.eqb_eq in H. now subst.
    + destruct (existsb (fun x => eq_str x "error") l); discriminate.
  - intros (d & -> & Hd).
    cbv beta iota delta [throttled_payload contains subscript dict_has].
    rewrite Hd. reflexivity.
Qed.

(** X8. With a [ratelimit_method] other than "throw", "wait" and "pace", a
    throttle payload is returned to the caller as the result of the call:
    no error, no retry, no sleep. *)
Theorem unknown_policy_returns_throttle_payload (fuel : nat)
    (method endpoint : string) (params files : dict) (s : Mastodon)
    (w : World) (hdrs : option dict) (r : response) (rem lim : Z)
    (reset : Q) (j : pyval) :
  ~ In (ratelimit_method s) ["throw"; "wait"; "pace"] ->
  auth_headers s = Return hdrs ->
  In method ["GET"; "POST"; "DELETE"] ->
  net w (List.length (sent w)) = NetResponse r ->
  ok r rem lim reset j ->
  throttled_payload j = Return true ->
  exists (s' : Mastodon) (w' : World),
    api_request (S fuel) method endpoint params files (s, w)
    = (Return j, (s', w')) /\
    sent w' = sent w ++ [mkRequest method (api_base_url s ++ endpoint)%string
                           params hdrs files] /\
    slept w' = slept w.
Proof.
  intros Hpol Hh Hm Hnet Hok Ht.
  assert (Hthrow : String.eqb (ratelimit_method s) "throw" = false)
    by (apply String.eqb_neq; intros H; apply Hpol; rewrite H; simpl; tauto).
  assert (Hwait : String.eqb (ratelimit_method s) "wait" = false)
    by (apply String.eqb_neq; intros H; apply Hpol; rewrite H; simpl; tauto).
  assert (Hpace : ratelimit_method s <> "pace")
    by (intros H; apply Hpol; rewrite H; simpl; tauto).
  rewrite (api_request_after_wait _ _ _ _ _ _ _ s w w hdrs);
    [|now apply pace_wait_other_mode|exact Hh].
  rewrite (request_loop_step _ _ fuel method endpoint params hdrs files s _ r
             rem lim reset j Hm);
    [|now rewrite announced_net, announced_sent|exact Hok].
  cbv zeta. rewrite Ht, Hthrow, Hwait.
  apply String.eqb_neq in Hpace. rewrite Hpace. cbn [orb].
  eexists. eexists. split; [reflexivity|].
  rewrite received_sent, received_slept, announced_sent, announced_slept.
  split; reflexivity.
Qed.

Lemma loop_always_throttled (method endpoint : string) (params : dict)
    (hdrs : option dict) (files : dict) (fuel : nat) :
  forall (s : Mastodon) (w : World),
  ratelimit_method s = "wait" \/ ratelimit_method s = "pace" ->
  In method ["GET"; "POST"; "DELETE"] ->
  (forall i : nat,
     exists ri remi limi reseti ji,
       net w (List.length (sent w) + i) = NetResponse ri /\
       ok ri remi limi reseti ji /\ throttled_payload ji = Return true) ->
  exists (s' : Mastodon) (w' : World),
    loop fuel method endpoint params hdrs files (s, w) = (Timeout, (s', w')) /\
    sent w' = sent w ++ repeat (mkRequest method (api_base_url s ++ endpoint)%string
                                  params hdrs files) fuel.
Proof.
  induction fuel as [|fuel IH]; intros s w Hm Hmethod Hthr.
  - exists s, w. split; [reflexivity|]. simpl. now rewrite app_nil_r.
  - destruct (Hthr 0%nat) as (r0 & rem0 & lim0 & reset0 & j0 & Hnet0 & Hok0 & Ht0).
    rewrite Nat.add_0_r in Hnet0.
    rewrite (request_loop_step _ _ fuel method endpoint params hdrs files s w r0
               rem0 lim0 reset0 j0 Hmethod Hnet0 Hok0).
    cbv zeta. rewrite Ht0.
    assert (Hnothrow : String.eqb (ratelimit_method s) "throw" = false)
      by (destruct Hm as [-> | ->]; reflexivity).
    assert (Hretry : String.eqb (ratelimit_method s) "wait"
                     || String.eqb (ratelimit_method s) "pace" = true)
      by (destruct Hm as [-> | ->]; reflexivity).
    rewrite Hnothrow, Hretry.
    set (rq := mkRequest method (api_base_url s ++ endpoint)%string
                 params hdrs files).
    set (s1 := refreshed rem0 lim0 reset0 (clock w) s).
    set (w1 := sleep_until reset0 (received (debug_requests s) rq r0 w)).
    assert (Hsent1 : sent w1 = sent w ++ [rq])
      by (unfold w1; now rewrite sleep_until_sent, received_sent).
    assert (Hnet1 : net w1 = net w)
      by (unfold w1; now rewrite sleep_until_net, received_net).
    destruct (IH s1 w1) as (s' & w' & Hrun & Hsent).
    + exact Hm.
    + exact Hmethod.
    + intros i. rewrite Hnet1, Hsent1, length_app. simpl.
      replace (List.length (sent w) + 1 + i)%nat
        with (List.length (sent w) + S i)%nat by lia.
      apply Hthr.
    + exists s', w'. split; [exact Hrun|].
      rewrite Hsent, Hsent1. change (api_base_url s1) with (api_base_url s).
      fold rq. rewrite <- app_assoc. reflexivity.
Qed.

(** X9. Under "wait", against a server that answers every request with a
    throttle payload, the call never finishes: whatever the number of loop
    iterations allowed, all of them are used, each sending the request once
    more. *)
Theorem wait_never_gives_up (fuel : nat) (method endpoint : string)
    (params files : dict) (s : Mastodon) (w : World) (hdrs : option dict) :
  ratelimit_method s = "wait" ->
  In method ["GET"; "POST"; "DELETE"] ->
  auth_headers s = Return hdrs ->
  (forall i : nat,
     exists ri remi limi reseti ji,
       net w (List.length (sent w) + i) = NetResponse ri /\
       ok ri remi limi reseti ji /\ throttled_payload ji = Return true) ->
  exists (s' : Mastodon) (w' : World),
    api_request fuel method endpoint params files (s, w) = (Timeout, (s', w')) /\
    sent w' = sent w ++ repeat (mkRequest method (api_base_url s ++ endpoint)%string
                                  params hdrs files) fuel.
Proof.
  intros Hm Hmethod Hh Hthr.
  rewrite (api_request_after_wait _ _ _ _ _ _ _ s w w hdrs);
    [|apply pace_wait_other_mode; rewrite Hm; discriminate|exact Hh].
  destruct (loop_always_throttled method endpoint params hdrs files fuel s
              (announced (debug_requests s)
                 (PrintRequest endpoint method params hdrs files) w))
    as (s' & w' & Hrun & Hsent).
  - now left.
  - exact Hmethod.
  - intros i. rewrite announced_net, announced_sent. apply Hthr.
  - exists s', w'. split; [exact Hrun|]. now rewrite Hsent, announced_sent.
Qed.

(** X10. Under "pace", once the wait before the request is over, throttled
    responses are handled as under "wait": after [n] of them and one that
    is accepted the call returns the last body, having sent the request
    [n + 1] times and slept to or past every declared reset time. *)
Theorem pace_retries_like_wait (n fuel : nat) (method endpoint : string)
    (params files : dict) (s : Mastodon) (w w0 : World) (hdrs : option dict)
    (r : response) (rem lim : Z) (reset : Q) (j : pyval) :
  ratelimit_method s = "pace" ->
  pace_wait (s, w) = (Return tt, (s, w0)) ->
  In method ["GET"; "POST"; "DELETE"] ->
  auth_headers s = Return hdrs ->
  (forall i, (i < n)%nat ->
     exists ri remi limi reseti ji,
       net w0 (List.length (sent w0) + i) = NetResponse ri /\
       ok ri remi limi reseti ji /\ throttled_payload ji = Return true) ->
  net w0 (List.length (sent w0) + n) = NetResponse r ->
  ok r rem lim reset j ->
  throttled_payload j = Return false ->
  (n < fuel)%nat ->
  exists (s' : Mastodon) (w' : World),
    api_request fuel method endpoint params files (s, w) = (Return j, (s', w')) /\
    sent w' = sent w0 ++ repeat (mkRequest method (api_base_url s ++ endpoint)%string
                                   params hdrs files) (S n) /\
    (forall i ri remi limi reseti ji,
        (i < n)%nat ->
        net w0 (List.length (sent w0) + i) = NetResponse ri ->
        ok ri remi limi reseti ji -> reseti <= clock w').
Proof.
  intros Hm Hw Hmethod Hh Hthr Hnet Hok Hacc Hfuel.
  rewrite (api_request_after_wait _ _ _ _ _ _ _ s w w0 hdrs Hw Hh).
  set (w1 := announced (debug_requests s)
               (PrintRequest endpoint method params hdrs files) w0).
  assert (Hsent1 : sent w1 = sent w0) by apply announced_sent.
  assert (Hnet1 : net w1 = net w0) by apply announced_net.
  destruct (loop_retries_until_accepted py_int strptime_total_seconds
              method endpoint params hdrs files n fuel s w1 r rem lim reset j)
    as (s' & w' & Hrun & Hsent & _ & Hresets).
  - now right.
  - exact Hmethod.
  - intros i Hi. rewrite Hnet1, Hsent1. now apply Hthr.
  - now rewrite Hnet1, Hsent1.
  - exact Hok.
  - exact Hacc.
  - exact Hfuel.
  - exists s', w'. split; [exact Hrun|]. split; [now rewrite Hsent, Hsent1|].
    intros i ri remi limi reseti ji Hi Hneti Hoki.
    apply (Hresets i ri remi limi reseti ji Hi); [|exact Hoki].
    now rewrite Hnet1, Hsent1.
Qed.

End MoreLoopFacts.

(* ------------------------------------------------------------------ *)
(** ** Pacing bounds, request headers and the debug flag *)

(** X11. Under "pace" with calls remaining, when the rate-limit window has
    already reset ([ratelimit_reset] is not after now, and the last call is
    not in the future) the call does not sleep before the request. *)
Theorem pace_no_sleep_after_reset (s : Mastodon) (w : World) :
  ratelimit_method s = "pace" ->
  (0 < ratelimit_remaining s)%Z ->
  ratelimit_reset s <= clock w ->
  ratelimit_lastcall s <= clock w ->
  pace_wait (s, w) = (Return tt, (s, w)).
Proof.
  intros Hm Hr Hreset Hlast.
  unfold pace_wait. mrun. rewrite Hm. cbn [String.eqb Ascii.eqb Bool.eqb].
  assert (Hr0 : Z.eqb (ratelimit_remaining s) 0 = false)
    by (apply Z.eqb_neq; lia).
  rewrite Hr0. mrun.
  match goal with
  | |- context [Qltb 0 ?d] => assert (Hd : Qltb 0 d = false)
  end.
  { apply Qltb_false.
    assert (Hn : 0 < inject_Z (ratelimit_remaining s))
      by (change 0 with (inject_Z 0); rewrite <- Zlt_Qlt; exact Hr).
    assert (Hdiv : (ratelimit_reset s - clock w)
                   / inject_Z (ratelimit_remaining s) <= 0).
    { apply Qle_shift_div_r; [exact Hn|]. lra. }
    lra. }
  rewrite Hd. reflexivity.
Qed.

(** X12. Under "pace" with calls remaining and a pace factor between 0 and
    1, the wait before the request never lasts beyond the reset time: the
    request is issued no later than [max(now, ratelimit_reset)]. *)
Theorem pace_sleep_bounded_by_reset (s : Mastodon) (w : World) :
  ratelimit_method s = "pace" ->
  (0 < ratelimit_remaining s)%Z ->
  0 <= ratelimit_pacefactor s -> ratelimit_pacefactor s <= 1 ->
  ratelimit_lastcall s <= clock w ->
  exists w' : World,
    pace_wait (s, w) = (Return tt, (s, w')) /\
    clock w <= clock w' /\
    clock w' <= Qmax (clock w) (ratelimit_reset s).
Proof.
  intros Hm Hr Hpf0 Hpf1 Hlast.
  assert (Hr' : ratelimit_remaining s <> 0%Z) by lia.
  pose proof (pace_wait_remaining s w Hm Hr' Hpf0) as Hw. cbv zeta in Hw.
  set (n := inject_Z (ratelimit_remaining s)) in *.
  set (D := ratelimit_reset s - clock w) in *.
  set (rw := D / n - (clock w - ratelimit_lastcall s)) in *.
  assert (Hn : 1 <= n).
  { unfold n. change 1 with (inject_Z 1). rewrite <- Zle_Qle. lia. }
  assert (Hn0 : ~ n == 0) by lra.
  assert (Hdiv : D / n * n == D) by (field; exact Hn0).
  destruct (Qltb 0 rw) eqn:E.
  - apply Qltb_true in E.
    eexists. split; [exact Hw|]. cbn [clock advance]. split.
    + assert (0 <= rw * ratelimit_pacefactor s)
        by (apply Qmult_le_0_compat; lra).
      lra.
    + eapply Qle_trans; [|apply Q.le_max_r].
      set (q := D / n) in *. unfold rw in *.
      assert (Hq : 0 < q) by lra.
      assert (Hqn : q <= q * n) by nra.
      assert (Hrp : (q - (clock w - ratelimit_lastcall s))
                    * ratelimit_pacefactor s
                    <= q - (clock w - ratelimit_lastcall s)) by nra.
      unfold D in *. lra.
  - exists w. split; [exact Hw|]. split; [apply Qle_refl|apply Q.le_max_l].
Qed.

Section SessionFacts.

Variable py_int : string -> option Z.
Variable strptime_total_seconds : string -> option Q.

Local Abbreviation loop := (request_loop py_int strptime_total_seconds).
Local Abbreviation api_request := (__api_request py_int strptime_total_seconds).

(** The headers every request of a call carries. *)
Lemma api_request_sends (fuel : nat) (method endpoint : string)
    (params files : dict) (s : Mastodon) (w : World) :
  In method ["GET"; "POST"; "DELETE"] ->
  exists k : nat,
    sent (snd (snd (api_request fuel method endpoint params files (s, w))))
    = sent w ++ repeat (mkRequest method (api_base_url s ++ endpoint)%string
                          params
                          (match access_token s with
                           | VStr t => bearer t
                           | _ => None
                           end) files) k.
Proof.
  intros Hm. unfold __api_request, bind at 1.
  destruct (pace_wait_sent s w) as [Hs Hsent].
  destruct (pace_wait (s, w)) as [[[]|e|] [s0 w0]] eqn:Hw;
    cbn [fst snd] in Hs, Hsent; subst s0;
    try (exists 0%nat; cbn [fst snd repeat]; rewrite app_nil_r; exact Hsent).
  unfold perform_request.
  cbv beta iota delta [bind get_self ret raise lift print modify_world].
  cbn [fst snd]. unfold auth_headers.
  destruct (access_token s) as [| | | | t | | | |];
    try (exists 0%nat; cbn [fst snd repeat]; rewrite app_nil_r; exact Hsent).
  - destruct (loop_sent_invariant py_int strptime_total_seconds method
                endpoint params None files fuel Hm s
                (announced (debug_requests s)
                   (PrintRequest endpoint method params None files) w0))
      as (k & Hk & _).
    exists k. unfold announced in Hk. rewrite <- Hsent.
    destruct (debug_requests s); exact Hk.
  - destruct (loop_sent_invariant py_int strptime_total_seconds method
                endpoint params (bearer t) files fuel Hm s
                (announced (debug_requests s)
                   (PrintRequest endpoint method params (bearer t) files) w0))
      as (k & Hk & _).
    exists k. unfold announced in Hk. rewrite <- Hsent.
    destruct (debug_requests s); exact Hk.
Qed.

(** X13. Every request that a call sends is the one it was asked for (verb,
    URL under the session's base URL, form data, files) and carries the
    header [Authorization: Bearer <token>] when the session holds a string
    token, and no headers when it holds none. *)
Theorem every_request_carries_the_token (fuel : nat)
    (method endpoint : string) (params files : dict) (s : Mastodon)
    (w : World) (rq : request) :
  In method ["GET"; "POST"; "DELETE"] ->
  In rq (sent (snd (snd (api_request fuel method endpoint params files (s, w))))) ->
  In rq (sent w) \/
  (rq_verb rq = method /\
   rq_url rq = (api_base_url s ++ endpoint)%string /\
   rq_data rq = params /\ rq_files rq = files /\
   rq_headers rq = match access_token s with
                   | VStr t => bearer t
                   | _ => None
                   end).
Proof.
  intros Hm Hin.
  destruct (api_request_sends fuel method endpoint params files s w Hm)
    as [k Hk].
  rewrite Hk in Hin. apply in_app_or in Hin. destruct Hin as [Hin|Hin].
  - now left.
  - right. apply repeat_spec in Hin. subst rq. repeat split.
Qed.

End SessionFacts.

Section DebugFacts.

Variable py_int : string -> option Z.
Variable strptime_total_seconds : string -> option Q.

Local Abbreviation loop := (request_loop py_int strptime_total_seconds).
Local Abbreviation api_request := (__api_request py_int strptime_total_seconds).

Ltac run_all :=
  cbv beta iota delta [bind try_except_raise get_self requests_call ret raise
                       lift modify_self time_time header int_of_header
                       reset_of_header print modify_world time_sleep timeout
                       muted log_call log_print advance];
  cbn [fst snd orb
       clock fs net sent slept stdout
       api_base_url client_id client_secret access_token debug_requests
       ratelimit_method ratelimit_limit ratelimit_reset ratelimit_remaining
       ratelimit_lastcall ratelimit_pacefactor
       set_debug_requests set_ratelimit_lastcall set_ratelimit_reset
       set_ratelimit_limit set_ratelimit_remaining].

Ltac branch :=
  match goal with
  | |- context [String.eqb ?m "GET"] => destruct (String.eqb m "GET")
  | |- context [String.eqb ?m "POST"] => destruct (String.eqb m "POST")
  | |- context [String.eqb ?m "DELETE"] => destruct (String.eqb m "DELETE")
  | |- context [match net ?w ?n with _ => _ end] => destruct (net w n)
  | |- context [if debug_requests ?s then _ else _] =>
      destruct (debug_requests s)
  | |- context [Z.eqb (status_code ?r) ?c] =>
      destruct (Z.eqb (status_code r) c)
  | |- context [match json ?r with _ => _ end] => destruct (json r)
  | |- context [match headers ?r ?n with _ => _ end] =>
      destruct (headers r n)
  | |- context [match py_int ?v with _ => _ end] => destruct (py_int v)
  | |- context [match strptime_total_seconds ?v with _ => _ end] =>
      destruct (strptime_total_seconds v)
  | |- context [match throttled_payload ?j with _ => _ end] =>
      destruct (throttled_payload j) as [[|]| |]
  | |- context [String.eqb (ratelimit_method ?s) ?m] =>
      destruct (String.eqb (ratelimit_method s) m)
  | |- context [if Qltb ?a ?b then _ else _] => destruct (Qltb a b)
  end.

Lemma loop_muted (method endpoint : string) (params : dict)
    (hdrs : option dict) (files : dict) (fuel : nat) :
  forall (s : Mastodon) (w : World),
    muted_result (loop fuel method endpoint params hdrs files (s, w))
    = muted_result (loop fuel method endpoint params hdrs files (muted (s, w))).
Proof.
  induction fuel as [|fuel IH]; intros s w.
  - reflexivity.
  - cbn [request_loop]. repeat (run_all; branch). 
    all: run_all.
    all: try reflexivity.
    all: match goal with
         | |- muted_result (request_loop _ _ _ _ _ _ _ _ (?s1, ?w1))
              = muted_result (request_loop _ _ _ _ _ _ _ _ (?s2, ?w2)) =>
             rewrite (IH s1 w1), (IH s2 w2); reflexivity
         end.
Qed.

Lemma pace_wait_muted (s : Mastodon) (w : World) :
  muted_result (pace_wait (s, w)) = muted_result (pace_wait (muted (s, w))).
Proof.
  unfold pace_wait.
  repeat (run_all;
          match goal with
          | |- context [if ?b then _ else _] => destruct b
          end).
  all: run_all; reflexivity.
Qed.

Lemma api_request_muted (fuel : nat) (method endpoint : string)
    (params files : dict) (s : Mastodon) (w : World) :
  muted_result (api_request fuel method endpoint params files (s, w))
  = muted_result (api_request fuel method endpoint params files (muted (s, w))).
Proof.
  unfold __api_request, perform_request, pace_wait, auth_headers.
  repeat (run_all;
          match goal with
          | |- context [match access_token ?s with _ => _ end] =>
              destruct (access_token s)
          | |- context [if ?b then _ else _] => destruct b
          end).
  all: run_all.
  all: try reflexivity.
  all: match goal with
       | |- muted_result (request_loop _ _ ?f ?m ?e ?p ?h ?fl (?s1, ?w1))
            = muted_result (request_loop _ _ _ _ _ _ _ _ (?s2, ?w2)) =>
           rewrite (loop_muted m e p h fl f s1 w1),
                   (loop_muted m e p h fl f s2 w2); reflexivity
       end.
Qed.

(** X14. The [debug_requests] flag changes nothing but the debug output:
    with the flag set either way, a call has the same outcome, leaves the
    same session fields and the same world (clock, files, requests sent,
    sleeps). *)
Theorem debug_requests_changes_output_only (fuel : nat)
    (method endpoint : string) (params files : dict) (s : Mastodon)
    (w : World) (b : bool) :
  muted_result (api_request fuel method endpoint params files
                  (set_debug_requests b s, w))
  = muted_result (api_request fuel method endpoint params files (s, w)).
Proof.
  rewrite (api_request_muted fuel method endpoint params files
             (set_debug_requests b s) w).
  rewrite (api_request_muted fuel method endpoint params files s w).
  reflexivity.
Qed.

End DebugFacts.

(* ------------------------------------------------------------------ *)
(** ** The constructor and credential files *)


Lemma readline_line (t rest : string) :
  no_line_end t = true ->
  readline (t ++ String newline rest)%string = ((t ++ LF)%string, rest).
Proof.
  intros Ht.
  exact (readline_at_line_end t LF rest Ht (or_introl eq_refl)).
Qed.

(** A clean line followed by a newline is read back as it was written. *)
Lemma clean_line_read_back (t rest : string) :
  clean_line t ->
  rstrip (fst (readline (t ++ String newline rest)%string)) = t.
Proof.
  intros [Hn Hr]. rewrite (readline_line t rest Hn). cbn [fst].
  rewrite rstrip_newline. now apply rstrip_clean.
Qed.

(** The fields of a constructed session that do not come from the
    credentials file. *)
Lemma init_fields (w : World) (id : string)
    (secret token : option string) (url : string) (dbg : bool)
    (method : string) (pf : Q) (s : Mastodon) :
  __init__ w id secret token url dbg method pf = Return s ->
  access_token s
  = match token with
    | None => VNone
    | Some t =>
        match fs w t with
        | Some content => VStr (rstrip (fst (readline content)))
        | None => VStr t
        end
    end /\
  api_base_url s = url /\ debug_requests s = dbg /\
  ratelimit_method s = method /\
  ratelimit_limit s = 150%Z /\ ratelimit_remaining s = 150%Z /\
  ratelimit_reset s = clock w /\ ratelimit_lastcall s = clock w.
Proof.
  init_cases; intros H; try discriminate H; injection H as <-;
    repeat split;
    cbn [access_token set_access_token set_client_secret set_client_id];
    congruence.
Qed.

(** X15. The constructor raises in three cases only: the client id names
    no file and no secret was passed ([MastodonIllegalArgumentError]); the
    credentials file does not read as text; the file that [access_token]
    names does not read as text (in both, what the read raises).  In every
    other case it returns a session, whatever the other arguments are. *)
Theorem init_failure_cases (w : World) (id : string)
    (secret token : option string) (url : string) (dbg : bool)
    (method : string) (pf : Q) :
  match __init__ w id secret token url dbg method pf with
  | Return s =>
      (fs w id = None -> secret <> None) /\
      (fs w id <> None -> unreadable w id = None) /\
      (forall t, token = Some t -> fs w t <> None -> unreadable w t = None)
  | Raise e =>
      (e = MastodonIllegalArgumentError
             "Specified client id directly, but did not supply secret"
       /\ fs w id = None /\ secret = None) \/
      (fs w id <> None /\ unreadable w id = Some e) \/
      (exists t, token = Some t /\ fs w t <> None /\ unreadable w t = Some e)
  | Timeout => False
  end.
Proof.
  unfold __init__. cbn [client_id client_secret access_token].
  assert (Hreturned :
            forall P : Prop, P ->
              (fs w id = None -> secret <> None) ->
              (fs w id <> None -> unreadable w id = None) ->
              (forall t, token = Some t -> fs w t <> None ->
                         unreadable w t = None) ->
              (fs w id = None -> secret <> None) /\
              (fs w id <> None -> unreadable w id = None) /\
              (forall t, token = Some t -> fs w t <> None ->
                         unreadable w t = None))
    by (intros; repeat split; assumption).
  destruct (fs w id) as [content|] eqn:Hf.
  - destruct (unreadable w id) as [e|] eqn:Hu.
    + right. left. split; [discriminate|reflexivity].
    + destruct (readline content) as [line1 rest].
      destruct (readline rest) as [line2 rest'].
      cbn [access_token set_client_secret set_client_id].
      destruct token as [t|].
      * destruct (fs w t) as [token_file|] eqn:Ht.
        -- destruct (unreadable w t) as [e|] eqn:Hut.
           ++ right. right. exists t.
              split; [reflexivity|]. split; [congruence|exact Hut].
           ++ apply (Hreturned True I); [intros; congruence|intros; congruence|].
              intros t' Ht' _. injection Ht' as <-. exact Hut.
        -- apply (Hreturned True I); [intros; congruence|intros; congruence|].
           intros t' Ht' Hne. injection Ht' as <-. congruence.
      * apply (Hreturned True I); [intros; congruence|intros; congruence|].
        intros t' Ht'. discriminate Ht'.
  - destruct secret as [sec|]; cbn [is_none].
    + cbn [access_token].
      destruct token as [t|].
      * destruct (fs w t) as [token_file|] eqn:Ht.
        -- destruct (unreadable w t) as [e|] eqn:Hut.
           ++ right. right. exists t.
              split; [reflexivity|]. split; [congruence|exact Hut].
           ++ apply (Hreturned True I); [intros; congruence|intros; congruence|].
              intros t' Ht' _. injection Ht' as <-. exact Hut.
        -- apply (Hreturned True I); [intros; congruence|intros; congruence|].
           intros t' Ht' Hne. injection Ht' as <-. congruence.
      * apply (Hreturned True I); [intros; congruence|intros; congruence|].
        intros t' Ht'. discriminate Ht'.
    + left. repeat split.
Qed.

(** X16. A constructed session takes its access token from the
    [access_token] argument: when the argument names a file, the token is
    the first line of that file (up to the first newline or carriage
    return, or to the end of the file) without its trailing whitespace,
    otherwise the argument itself, and [None] when it was not given.  Base
    URL, debug flag and policy are the arguments; limit and remaining start
    at 150, reset time and last call at the time of construction. *)
Theorem init_resolves_access_token (w : World) (id : string)
    (secret token : option string) (url : string) (dbg : bool)
    (method : string) (pf : Q) (s : Mastodon) :
  __init__ w id secret token url dbg method pf = Return s ->
  access_token s
  = match token with
    | None => VNone
    | Some t =>
        match fs w t with
        | Some content => VStr (rstrip (fst (readline content)))
        | None => VStr t
        end
    end /\
  (forall t l e rest,
      token = Some t -> fs w t = Some (l ++ e ++ rest)%string ->
      no_line_end l = true -> line_end e rest ->
      exists tok : string, access_token s = VStr tok /\ stripped l tok) /\
  api_base_url s = url /\ debug_requests s = dbg /\
  ratelimit_method s = method /\
  ratelimit_limit s = 150%Z /\ ratelimit_remaining s = 150%Z /\
  ratelimit_reset s = clock w /\ ratelimit_lastcall s = clock w.
Proof.
  intros Hrun.
  destruct (init_fields w id secret token url dbg method pf s Hrun)
    as (Htok & Hrest).
  split; [exact Htok|]. split; [|exact Hrest].
  intros t l e rest -> Hfile Hl He. rewrite Hfile in Htok.
  rewrite (readline_at_line_end l e rest Hl He) in Htok. cbn [fst] in Htok.
  rewrite rstrip_of_line in Htok.
  exists (rstrip l). split; [exact Htok|apply rstrip_stripped].
Qed.


(* ------------------------------------------------------------------ *)
(** ** What a call leaves alone, and [log_in] around the token request *)

Section IdentityFacts.

Variable py_int : string -> option Z.
Variable strptime_total_seconds : string -> option Q.

Local Abbreviation loop := (request_loop py_int strptime_total_seconds).
Local Abbreviation api_request := (__api_request py_int strptime_total_seconds).
Local Abbreviation login := (log_in py_int strptime_total_seconds).

Ltac run_all :=
  cbv beta iota delta [bind try_except_raise get_self requests_call ret raise
                       lift modify_self time_time header int_of_header
                       reset_of_header print modify_world time_sleep timeout
                       log_call log_print advance];
  cbn [fst snd orb
       clock fs net sent slept stdout
       api_base_url client_id client_secret access_token debug_requests
       ratelimit_method ratelimit_limit ratelimit_reset ratelimit_remaining
       ratelimit_lastcall ratelimit_pacefactor
       set_ratelimit_lastcall set_ratelimit_reset
       set_ratelimit_limit set_ratelimit_remaining].

Ltac branch :=
  match goal with
  | |- context [String.eqb ?m "GET"] => destruct (String.eqb m "GET")
  | |- context [String.eqb ?m "POST"] => destruct (String.eqb m "POST")
  | |- context [String.eqb ?m "DELETE"] => destruct (String.eqb m "DELETE")
  | |- context [match net ?w ?n with _ => _ end] => destruct (net w n)
  | |- context [if debug_requests ?s then _ else _] =>
      destruct (debug_requests s)
  | |- context [Z.eqb (status_code ?r) ?c] =>
      destruct (Z.eqb (status_code r) c)
  | |- context [match json ?r with _ => _ end] => destruct (json r)
  | |- context [match headers ?r ?n with _ => _ end] =>
      destruct (headers r n)
  | |- context [match py_int ?v with _ => _ end] => destruct (py_int v)
  | |- context [match strptime_total_seconds ?v with _ => _ end] =>
      destruct (strptime_total_seconds v)
  | |- context [match throttled_payload ?j with _ => _ end] =>
      destruct (throttled_payload j) as [[|]| |]
  | |- context [String.eqb (ratelimit_method ?s) ?m] =>
      destruct (String.eqb (ratelimit_method s) m)
  | |- context [if Qltb ?a ?b then _ else _] => destruct (Qltb a b)
  end.

Lemma loop_identity (method endpoint : string) (params : dict)
    (hdrs : option dict) (files : dict) (fuel : nat) :
  forall (s : Mastodon) (w : World),
    identity (fst (snd (loop fuel method endpoint params hdrs files (s, w))))
    = identity s /\
    fs (snd (snd (loop fuel method endpoint params hdrs files (s, w)))) = fs w.
Proof.
  induction fuel as [|fuel IH]; intros s w.
  - split; reflexivity.
  - cbn [request_loop]. repeat (run_all; branch).
    all: run_all.
    all: try (split; reflexivity).
    all: match goal with
         | |- identity (fst (snd (request_loop _ _ _ _ _ _ _ _ (?s1, ?w1)))) = _
              /\ _ =>
             destruct (IH s1 w1) as [H1 H2]; rewrite H1, H2; split; reflexivity
         end.
Qed.

Lemma pace_wait_fs (s : Mastodon) (w : World) :
  fs (snd (snd (pace_wait (s, w)))) = fs w.
Proof.
  unfold pace_wait.
  cbv beta iota delta [bind get_self time_time ret raise time_sleep modify_world].
  cbn [fst snd].
  repeat (cbv beta iota; cbn [fst snd];
          match goal with
          | |- context [if ?b then _ else _] => destruct b
          end).
  all: cbv beta iota; cbn [fst snd fs advance]; reflexivity.
Qed.

Lemma api_request_identity (fuel : nat) (method endpoint : string)
    (params files : dict) (s : Mastodon) (w : World) :
  identity (fst (snd (api_request fuel method endpoint params files (s, w))))
  = identity s /\
  fs (snd (snd (api_request fuel method endpoint params files (s, w)))) = fs w.
Proof.
  destruct (pace_wait_sent s w) as [Hs _].
  pose proof (pace_wait_fs s w) as Hfs.
  unfold __api_request, perform_request.
  cbv beta iota delta [bind get_self ret raise lift print modify_world].
  destruct (pace_wait (s, w)) as [[[]|e|] [s0 w0]];
    cbn [fst snd] in *; subst s0; try (split; [reflexivity|exact Hfs]).
  destruct (auth_headers s) as [hdrs|e|]; try (split; [reflexivity|exact Hfs]).
  rewrite <- Hfs.
  destruct (debug_requests s); cbn [fst snd];
    match goal with
    | |- context [request_loop _ _ ?f ?m ?e ?p ?h ?fl (?s1, ?w1)] =>
        destruct (loop_identity m e p h fl f s1 w1) as [H1 H2];
        split; [exact H1|exact H2]
    end.
Qed.

(** X18. A call assigns nothing of the session but the four rate-limit
    readings, and writes no file: base URL, client id and secret, access
    token, debug flag, policy and pace factor are after the call what they
    were before it, however the call ends. *)
Theorem calls_keep_session_identity (fuel : nat) (method endpoint : string)
    (params files : dict) (s : Mastodon) (w : World) :
  identity (fst (snd (api_request fuel method endpoint params files (s, w))))
  = identity s /\
  fs (snd (snd (api_request fuel method endpoint params files (s, w)))) = fs w.
Proof. exact (api_request_identity fuel method endpoint params files s w). Qed.

Lemma identity_access_token (s s' : Mastodon) :
  identity s' = identity s -> access_token s' = access_token s.
Proof. unfold identity. intros H. now injection H. Qed.

(** What [log_in] does with the outcome of the token request. *)
Lemma log_in_failure (fuel : nat) (username password : pyval)
    (scopes : list string) (to_file : option string) (params : dict)
    (s : Mastodon) (w : World) :
  __generate_params (log_in_locals username password scopes to_file) []
  = Return params ->
  let request := api_request fuel "POST" "/oauth/token"
                   (token_request_params s scopes params) [] (s, w) in
  (exists e, fst request = Raise e) \/
  (exists response e, fst request = Return response /\
                      subscript response "access_token" = Raise e) ->
  login fuel username password scopes to_file (s, w)
  = (Raise (MastodonIllegalArgumentError
              "Invalid user name, password or scopes."), snd request).
Proof.
  intros Hp request Hfail. unfold log_in.
  cbv beta iota delta [bind get_self ret raise lift try_except_raise
                       modify_self modify_world write_file].
  rewrite Hp. cbn [fst snd]. fold request.
  destruct request as [o [s1 w1]]. cbn [fst snd] in *.
  destruct Hfail as [[e ->] | (response & e & -> & Hsub)].
  - reflexivity.
  - cbn [fst snd]. rewrite Hsub. reflexivity.
Qed.

(** X19. [log_in] reports every failure of the token request as
    [MastodonIllegalArgumentError "Invalid user name, password or scopes."]:
    whatever the request raised (a network error, a rate-limit error, an
    API error), and also a response without an ['access_token'] entry.  The
    session keeps the access token it had and no file is written. *)
Theorem log_in_masks_request_failures (fuel : nat) (username password : pyval)
    (scopes : list string) (to_file : option string) (params : dict)
    (s : Mastodon) (w : World) :
  __generate_params (log_in_locals username password scopes to_file) []
  = Return params ->
  let request := api_request fuel "POST" "/oauth/token"
                   (token_request_params s scopes params) [] (s, w) in
  (exists e, fst request = Raise e) \/
  (exists response e, fst request = Return response /\
                      subscript response "access_token" = Raise e) ->
  exists (s' : Mastodon) (w' : World),
    login fuel username password scopes to_file (s, w)
    = (Raise (MastodonIllegalArgumentError
                "Invalid user name, password or scopes."), (s', w')) /\
    access_token s' = access_token s /\ fs w' = fs w.
Proof.
  intros Hp request Hfail.
  rewrite (log_in_failure fuel username password scopes to_file params s w Hp
             Hfail).
  fold request.
  destruct (api_request_identity fuel "POST" "/oauth/token"
              (token_request_params s scopes params) [] s w) as [Hid Hfs].
  fold request in Hid, Hfs.
  destruct request as [o [s1 w1]]. cbn [fst snd] in *.
  exists s1, w1. split; [reflexivity|]. split; [|exact Hfs].
  now apply identity_access_token.
Qed.

(** What a successful [log_in] leaves behind. *)
Lemma log_in_success (fuel : nat) (username password : pyval)
    (scopes : list string) (to_file : option string)
    (s : Mastodon) (w : World) (tok : pyval) (s' : Mastodon) (w' : World) :
  login fuel username password scopes to_file (s, w) = (Return tok, (s', w')) ->
  access_token s' = tok /\ api_base_url s' = api_base_url s /\
  match to_file with
  | Some path =>
      exists t, tok = VStr t /\
                fs w' path = Some (t ++ String newline EmptyString)%string
  | None => fs w' = fs w
  end.
Proof.
  destruct (log_in_locals_params username password scopes to_file)
    as (params & Hp & _).
  unfold log_in.
  cbv beta iota delta [bind get_self ret raise lift try_except_raise
                       modify_self modify_world write_file].
  rewrite Hp. cbn [fst snd].
  pose proof (api_request_identity fuel "POST" "/oauth/token"
                (token_request_params s scopes params) [] s w) as [Hid Hfs].
  destruct (api_request fuel "POST" "/oauth/token"
              (token_request_params s scopes params) [] (s, w))
    as [[response|e|] [s1 w1]]; cbn [fst snd] in *; try discriminate.
  assert (Hurl : api_base_url s1 = api_base_url s)
    by (unfold identity in Hid; now injection Hid).
  destruct (subscript response "access_token") as [token|e|] eqn:Htok;
    cbn [fst snd]; try discriminate.
  destruct (subscript response "scope") as [granted|e|];
    cbn [fst snd]; try discriminate.
  destruct (str_of granted) as [g|e|]; cbn [fst snd]; try discriminate.
  destruct (negb (String.eqb (join " " (sorted scopes))
                    (join " " (sorted (split_space g)))));
    try discriminate.
  destruct to_file as [path|].
  - rewrite !Htok.
    destruct token as [| | | | t | | | |]; cbn [fst snd]; try discriminate.
    intros H. injection H as <- <- <-. split; [reflexivity|].
    split; [exact Hurl|].
    exists t. split; [reflexivity|]. cbn [fs store]. now rewrite String.eqb_refl.
  - rewrite !Htok. cbn [fst snd]. intros H. injection H as <- <- <-.
    split; [reflexivity|]. split; [exact Hurl|exact Hfs].
Qed.

(** X20. A [log_in] that succeeds with a [to_file] argument returns a
    string token and leaves the file holding that token and a newline.  A
    session constructed afterwards with the file's name as [access_token]
    holds the same token, provided the token has no newline and no
    carriage return inside and no whitespace at its end. *)
Theorem log_in_token_file_round_trip (fuel : nat) (username password : pyval)
    (scopes : list string) (path : string) (s : Mastodon) (w : World)
    (tok : pyval) (s' : Mastodon) (w' : World) :
  login fuel username password scopes (Some path) (s, w)
  = (Return tok, (s', w')) ->
  exists t : string,
    tok = VStr t /\
    fs w' path = Some (t ++ String newline EmptyString)%string /\
    (clean_line t ->
     forall (id : string) (secret : option string) (url : string) (dbg : bool)
            (method : string) (pf : Q) (s2 : Mastodon),
       __init__ w' id secret (Some path) url dbg method pf = Return s2 ->
       access_token s2 = VStr t).
Proof.
  intros Hrun.
  destruct (log_in_success fuel username password scopes (Some path) s w tok
              s' w' Hrun) as (_ & _ & t & -> & Hfile).
  exists t. split; [reflexivity|]. split; [exact Hfile|].
  intros Hclean id secret url dbg method pf s2 Hinit.
  destruct (init_fields w' id secret (Some path) url dbg method pf s2 Hinit)
    as [Htok _].
  rewrite Htok, Hfile. f_equal.
  exact (clean_line_read_back t EmptyString Hclean).
Qed.

(** X21. After a successful [log_in] that returned the token [t], every
    request that a later call on the session sends goes to the same base
    URL and carries the header [Authorization: Bearer t]. *)
Theorem requests_after_log_in_carry_the_token (fuel fuel' : nat)
    (username password : pyval) (scopes : list string)
    (to_file : option string) (s : Mastodon) (w : World) (t : string)
    (s' : Mastodon) (w' : World) (method endpoint : string)
    (params files : dict) (rq : request) :
  login fuel username password scopes to_file (s, w)
  = (Return (VStr t), (s', w')) ->
  In method ["GET"; "POST"; "DELETE"] ->
  In rq (sent (snd (snd (api_request fuel' method endpoint params files
                           (s', w'))))) ->
  In rq (sent w') \/
  (rq_url rq = (api_base_url s ++ endpoint)%string /\
   rq_headers rq = bearer t).
Proof.
  intros Hrun Hm Hin.
  destruct (log_in_success fuel username password scopes to_file s w (VStr t)
              s' w' Hrun) as (Htok & Hurl & _).
  destruct (api_request_sends py_int strptime_total_seconds fuel' method
              endpoint params files s' w' Hm) as [k Hk].
  rewrite Hk, Htok, Hurl in Hin. apply in_app_or in Hin.
  destruct Hin as [Hin|Hin].
  - now left.
  - right. apply repeat_spec in Hin. subst rq. split; reflexivity.
Qed.

End IdentityFacts.

(* ------------------------------------------------------------------ *)
(** ** The order of scopes *)




Section ScopeFacts.

Variable py_int : string -> option Z.
Variable strptime_total_seconds : string -> option Q.

Local Abbreviation api_request := (__api_request py_int strptime_total_seconds).
Local Abbreviation login := (log_in py_int strptime_total_seconds).



End ScopeFacts.

(* ------------------------------------------------------------------ *)
(** ** [create_app] *)











(** [create_app] wraps nothing: a failed transport call and a body that
    does not decode surface as they are, and no file is touched. *)
Lemma create_app_failures_are_raw (client_name : pyval)
    (scopes : list string) (redirect_uris : pyval) (to_file : option string)
    (url : string) (w : World) :
  match net w (List.length (sent w)) with
  | NetFail =>
      exists w', create_app client_name scopes redirect_uris to_file url w
                 = (Raise RequestException, w') /\ fs w' = fs w
  | NetResponse r =>
      json r = None ->
      exists w', create_app client_name scopes redirect_uris to_file url w
                 = (Raise ValueError, w') /\ fs w' = fs w
  end.
Proof.
  unfold create_app, plain_post.
  destruct (net w (List.length (sent w))) as [|r].
  - eexists. split; reflexivity.
  - intros ->. eexists. split; reflexivity.
Qed.

(* ------------------------------------------------------------------ *)
(** ** The endpoint methods and [media_post] *)

Section EndpointFacts.

Variable py_int : string -> option Z.
Variable strptime_total_seconds : string -> option Q.

Local Abbreviation api_request := (__api_request py_int strptime_total_seconds).

Ltac names_distinct :=
  unfold wf_dict; cbn [dict_keys map fst];
  repeat (constructor; [cbn [In]; intuition discriminate|]); constructor.

Ltac names_do_not_clash :=
  intros k Hk Hin; cbn [dict_keys map fst In] in Hk;
  repeat (destruct Hk as [<-|Hk];
          [cbn [dict_keys map fst In append] in Hin; intuition discriminate|]);
  exact Hk.

(** X26. [timeline] (and with it [timeline_home], [timeline_mentions],
    [timeline_public] and [timeline_hashtag]) is a GET on
    [/api/v1/timelines/<timeline>] whose form fields are made of [max_id],
    [since_id] and [limit] alone: the timeline's name is never a field, an
    argument that is [None] is left out, and a list goes last under its
    name followed by ["[]"]. *)
Theorem timeline_sends_given_filters_only (fuel : nat) (name : string)
    (max_id since_id limit : pyval) (st : state) :
  timeline py_int strptime_total_seconds fuel name max_id since_id limit st
  = api_request fuel "GET" ("/api/v1/timelines/" ++ name)%string
      (form_fields [("max_id", max_id); ("since_id", since_id);
                    ("limit", limit)]) [] st.
Proof.
  unfold timeline, bind, lift.
  rewrite generate_params_exact;
    [reflexivity | names_distinct | reflexivity | names_do_not_clash].
Qed.

(** X27. [account_relationships] sends its [id] argument as the field
    ["id"], as the field ["id[]"] when it is a list, and sends no field at
    all when it is [None]. *)
Theorem account_relationships_id_field (fuel : nat) (id : pyval) (st : state) :
  account_relationships py_int strptime_total_seconds fuel id st
  = api_request fuel "GET" "/api/v1/accounts/relationships"
      (match id with
       | VNone => []
       | VList _ => [("id[]", id)]
       | _ => [("id", id)]
       end) [] st.
Proof. destruct id; reflexivity. Qed.

(** X28. [status_post] is a POST on [/api/v1/statuses] whose form fields
    are those of [status], [in_reply_to_id] and [media_ids] that are not
    [None], a list ([media_ids], usually) under its name followed by
    ["[]"]; [toot] sends the status text alone. *)
Theorem status_post_fields (fuel : nat)
    (text in_reply_to_id media_ids : pyval) (st : state) :
  status_post py_int strptime_total_seconds fuel text in_reply_to_id media_ids st
  = api_request fuel "POST" "/api/v1/statuses"
      (form_fields [("status", text); ("in_reply_to_id", in_reply_to_id);
                    ("media_ids", media_ids)]) [] st /\
  toot py_int strptime_total_seconds fuel text st
  = api_request fuel "POST" "/api/v1/statuses"
      (match text with
       | VNone => []
       | VList _ => [("status[]", text)]
       | _ => [("status", text)]
       end) [] st.
Proof.
  split.
  - unfold status_post, bind, lift.
    rewrite generate_params_exact;
      [reflexivity | names_distinct | reflexivity | names_do_not_clash].
  - destruct text; reflexivity.
Qed.

(** [account_statuses] sends the same three filters; the account id is
    part of the URL only. *)
Lemma account_statuses_fields (fuel : nat) (id : ident)
    (max_id since_id limit : pyval) (st : state) :
  account_statuses py_int strptime_total_seconds fuel id max_id since_id limit st
  = api_request fuel "GET" ("/api/v1/accounts/" ++ str id ++ "/statuses")%string
      (form_fields [("max_id", max_id); ("since_id", since_id);
                    ("limit", limit)]) [] st.
Proof.
  unfold account_statuses, bind, lift.
  rewrite generate_params_exact;
    [|names_distinct|reflexivity|names_do_not_clash].
  destruct id; reflexivity.
Qed.

Variable guess_type : string -> option string.
Variable guess_extension : string -> option string.
Variable str_of_float : Q -> string.

Local Abbreviation upload :=
  (media_post py_int strptime_total_seconds guess_type guess_extension
     str_of_float).

(** X29. When [media_file] names an existing file, the [mime_type]
    argument is ignored: it is replaced by the guess from the file name, so
    calls that differ in it alone do the same. *)
Theorem media_post_ignores_mime_type_of_files (fuel : nat)
    (random_suffix media_file : string) (mime_type mime_type' : option string)
    (s : Mastodon) (w : World) :
  fs w media_file <> None ->
  upload fuel random_suffix media_file mime_type (s, w)
  = upload fuel random_suffix media_file mime_type' (s, w).
Proof.
  intros Hfile. unfold media_post. cbn [snd].
  destruct (fs w media_file); [reflexivity|congruence].
Qed.


(** Otherwise the upload is a POST on [/api/v1/media] without form fields,
    the file part named after the clock and the random suffix. *)
Lemma media_post_uploads_under_fresh_name (fuel : nat)
    (random_suffix media_file : string) (mime_type : option string)
    (s : Mastodon) (w : World) (mime extension : string) :
  effective_mime_type guess_type w media_file mime_type = Some mime ->
  guess_extension mime = Some extension ->
  upload fuel random_suffix media_file mime_type (s, w)
  = api_request fuel "POST" "/api/v1/media" []
      [("file",
        VList [VStr ("mastodonpyupload_" ++ str_of_float (clock w) ++ "_"
                     ++ random_suffix ++ extension)%string;
               match fs w media_file with
               | Some _ => VObject
               | None => VStr media_file
               end;
               VStr mime])] (s, w).
Proof.
  unfold effective_mime_type, media_post. cbn [snd].
  destruct (fs w media_file).
  - intros -> Hext. unfold bind, time_time. cbn [fst snd]. now rewrite Hext.
  - intros -> Hext. unfold bind, time_time. cbn [fst snd]. now rewrite Hext.
Qed.

End EndpointFacts.

(* ------------------------------------------------------------------ *)
(** ** Instances of the further properties *)

Lemma network_failure_is_not_retried_witness :
  exists w' : World,
    __api_request Demo.int Demo.strptime 1 "GET" "/api/v1/timelines/home" [] []
      (Demo.session "wait" 150, Demo.world [])
    = (Raise (MastodonNetworkError "Could not complete request."),
       (Demo.session "wait" 150, w')) /\
    sent w'
    = [mkRequest "GET" (DEFAULT_BASE_URL ++ "/api/v1/timelines/home")%string
         [] None []] /\
    slept w' = [].
Proof.
  apply (network_failure_is_not_retried Demo.int Demo.strptime 0 "GET"
           "/api/v1/timelines/home" [] [] (Demo.session "wait" 150)
           (Demo.world []) (Demo.world []) None).
  - reflexivity.
  - reflexivity.
  - simpl; tauto.
  - reflexivity.
Defined.

Lemma accepted_response_refreshes_rate_limit_witness :
  exists (s' : Mastodon) (w' : World),
    __api_request Demo.int Demo.strptime 1 "GET" "/api/v1/timelines/home" [] []
      (Demo.session "wait" 150, Demo.world [Demo.ok_response Demo.timeline_body])
    = (Return Demo.timeline_body, (s', w')) /\
    ratelimit_remaining s' = 149%Z /\ ratelimit_limit s' = 150%Z /\
    ratelimit_reset s' = 100 /\ ratelimit_lastcall s' = 50.
Proof.
  destruct (accepted_response_refreshes_rate_limit Demo.int Demo.strptime 0
              "GET" "/api/v1/timelines/home" [] [] (Demo.session "wait" 150)
              (Demo.world [Demo.ok_response Demo.timeline_body])
              (Demo.world [Demo.ok_response Demo.timeline_body]) None
              (Demo.ok_response Demo.timeline_body) 149 150 100
              Demo.timeline_body)
    as (s' & w' & Hrun & Hrem & Hlim & Hreset & Hlast & _).
  - reflexivity.
  - reflexivity.
  - simpl; tauto.
  - reflexivity.
  - exact (ok_response_processed Demo.timeline_body).
  - reflexivity.
  - exists s', w'. repeat split; assumption.
Defined.

Lemma error_response_keeps_rate_limit_state_witness :
  exists w' : World,
    snd (__api_request Demo.int Demo.strptime 1 "GET" "/api/v1/nowhere" [] []
           (Demo.session "wait" 150, Demo.world [Demo.html_response 404]))
    = (Demo.session "wait" 150, w') /\
    sent w'
    = [mkRequest "GET" (DEFAULT_BASE_URL ++ "/api/v1/nowhere")%string
         [] None []] /\
    slept w' = [].
Proof.
  apply (error_response_keeps_rate_limit_state Demo.int Demo.strptime 0 "GET"
           "/api/v1/nowhere" [] [] (Demo.session "wait" 150)
           (Demo.world [Demo.html_response 404])
           (Demo.world [Demo.html_response 404]) None (Demo.html_response 404)).
  - reflexivity.
  - reflexivity.
  - simpl; tauto.
  - reflexivity.
  - left. reflexivity.
Defined.

Lemma missing_rate_limit_header_raises_witness :
  exists w' : World,
    __api_request Demo.int Demo.strptime 1 "GET" "/api/v1/timelines/home" [] []
      (Demo.session "wait" 150,
       Demo.world [Demo.bare_response Demo.timeline_body])
    = (Raise (KeyError "x-ratelimit-remaining"),
       (Demo.session "wait" 150, w')) /\
    sent w'
    = [mkRequest "GET" (DEFAULT_BASE_URL ++ "/api/v1/timelines/home")%string
         [] None []].
Proof.
  apply (missing_rate_limit_header_raises Demo.int Demo.strptime 0 "GET"
           "/api/v1/timelines/home" [] [] (Demo.session "wait" 150)
           (Demo.world [Demo.bare_response Demo.timeline_body])
           (Demo.world [Demo.bare_response Demo.timeline_body]) None
           (Demo.bare_response Demo.timeline_body) Demo.timeline_body).
  - reflexivity.
  - reflexivity.
  - simpl; tauto.
  - reflexivity.
  - discriminate.
  - discriminate.
  - reflexivity.
  - reflexivity.
Defined.

Lemma unparsable_reset_leaves_partial_update_witness :
  exists (s' : Mastodon) (w' : World),
    __api_request Demo.int Demo.strptime 1 "GET" "/api/v1/timelines/home" [] []
      (Demo.session "wait" 10,
       Demo.world [Demo.odd_reset_response Demo.timeline_body])
    = (Raise ValueError, (s', w')) /\
    ratelimit_remaining s' = 149%Z /\ ratelimit_limit s' = 150%Z /\
    ratelimit_reset s' = 150 /\ ratelimit_lastcall s' = 47.
Proof.
  apply (unparsable_reset_leaves_partial_update Demo.int Demo.strptime 0 "GET"
           "/api/v1/timelines/home" [] [] (Demo.session "wait" 10)
           (Demo.world [Demo.odd_reset_response Demo.timeline_body])
           (Demo.world [Demo.odd_reset_response Demo.timeline_body]) None
           (Demo.odd_reset_response Demo.timeline_body) Demo.timeline_body
           "149" "150" "tomorrow" 149 150).
  - reflexivity.
  - reflexivity.
  - simpl; tauto.
  - reflexivity.
  - discriminate.
  - discriminate.
  - reflexivity.
  - reflexivity.
  - reflexivity.
  - reflexivity.
  - reflexivity.
  - reflexivity.
  - reflexivity.
Defined.

Lemma scalar_body_raises_type_error_witness :
  fst (__api_request Demo.int Demo.strptime 1 "GET" "/api/v1/timelines/home"
         [] [] (Demo.session "wait" 150, Demo.world [Demo.ok_response (VInt 7)]))
  = Raise TypeError.
Proof.
  apply (scalar_body_raises_type_error Demo.int Demo.strptime 0 "GET"
           "/api/v1/timelines/home" [] [] (Demo.session "wait" 150)
           (Demo.world [Demo.ok_response (VInt 7)])
           (Demo.world [Demo.ok_response (VInt 7)]) None
           (Demo.ok_response (VInt 7)) 149 150 100 (VInt 7)).
  - reflexivity.
  - reflexivity.
  - simpl; tauto.
  - reflexivity.
  - exact (ok_response_processed (VInt 7)).
  - reflexivity.
Defined.

Lemma unknown_policy_returns_throttle_payload_witness :
  exists (s' : Mastodon) (w' : World),
    __api_request Demo.int Demo.strptime 1 "GET" "/api/v1/timelines/home" [] []
      (Demo.session "none" 150, Demo.world [Demo.throttled_response])
    = (Return Demo.throttled_body, (s', w')) /\
    sent w'
    = [mkRequest "GET" (DEFAULT_BASE_URL ++ "/api/v1/timelines/home")%string
         [] None []] /\
    slept w' = [].
Proof.
  apply (unknown_policy_returns_throttle_payload Demo.int Demo.strptime 0 "GET"
           "/api/v1/timelines/home" [] [] (Demo.session "none" 150)
           (Demo.world [Demo.throttled_response]) None
           Demo.throttled_response 0 150 100 Demo.throttled_body).
  - simpl. intuition discriminate.
  - reflexivity.
  - simpl; tauto.
  - reflexivity.
  - exact throttled_response_processed.
  - reflexivity.
Defined.

Lemma wait_never_gives_up_witness :
  exists (s' : Mastodon) (w' : World),
    __api_request Demo.int Demo.strptime 3 "GET" "/api/v1/timelines/home" [] []
      (Demo.session "wait" 150, Demo.busy_world)
    = (Timeout, (s', w')) /\
    List.length (sent w') = 3%nat.
Proof.
  destruct (wait_never_gives_up Demo.int Demo.strptime 3 "GET"
              "/api/v1/timelines/home" [] [] (Demo.session "wait" 150)
              Demo.busy_world None)
    as (s' & w' & Hrun & Hsent).
  - reflexivity.
  - simpl; tauto.
  - reflexivity.
  - intros i.
    exists Demo.throttled_response, 0%Z, 150%Z, 100, Demo.throttled_body.
    split; [reflexivity|].
    split; [exact throttled_response_processed|reflexivity].
  - exists s', w'. split; [exact Hrun|]. rewrite Hsent. reflexivity.
Defined.

Lemma pace_retries_like_wait_witness :
  exists (s' : Mastodon) (w' : World),
    __api_request Demo.int Demo.strptime 2 "GET" "/api/v1/timelines/home" [] []
      (Demo.session "pace" 10,
       Demo.world [Demo.throttled_response; Demo.ok_response Demo.timeline_body])
    = (Return Demo.timeline_body, (s', w')) /\
    List.length (sent w') = 2%nat.
Proof.
  pose proof
    (fun w0 =>
       pace_retries_like_wait Demo.int Demo.strptime 1 2 "GET"
         "/api/v1/timelines/home" [] [] (Demo.session "pace" 10)
         (Demo.world [Demo.throttled_response;
                      Demo.ok_response Demo.timeline_body])
         w0 None (Demo.ok_response Demo.timeline_body) 149 150 100
         Demo.timeline_body) as Hpace.
  edestruct Hpace as (s' & w' & Hrun & Hsent & _).
  - reflexivity.
  - cbv. reflexivity.
  - simpl; tauto.
  - reflexivity.
  - intros i Hi. assert (i = 0%nat) by lia. subst i.
    exists Demo.throttled_response, 0%Z, 150%Z, 100, Demo.throttled_body.
    split; [reflexivity|].
    split; [exact throttled_response_processed|reflexivity].
  - reflexivity.
  - exact (ok_response_processed Demo.timeline_body).
  - reflexivity.
  - lia.
  - exists s', w'. split; [exact Hrun|]. rewrite Hsent. reflexivity.
Defined.

Lemma pace_no_sleep_after_reset_witness :
  pace_wait (Demo.session "pace" 10, Demo.late_world [])
  = (Return tt, (Demo.session "pace" 10, Demo.late_world [])).
Proof.
  apply (pace_no_sleep_after_reset (Demo.session "pace" 10)
           (Demo.late_world [])).
  - reflexivity.
  - reflexivity.
  - vm_compute. discriminate.
  - vm_compute. discriminate.
Defined.

Lemma pace_sleep_bounded_by_reset_witness :
  exists w' : World,
    pace_wait (Demo.session "pace" 10, Demo.world [])
    = (Return tt, (Demo.session "pace" 10, w')) /\
    50 <= clock w' /\ clock w' <= 150.
Proof.
  destruct (pace_sleep_bounded_by_reset (Demo.session "pace" 10)
              (Demo.world []))
    as (w' & Hrun & Hlow & Hhigh).
  - reflexivity.
  - reflexivity.
  - vm_compute. discriminate.
  - vm_compute. discriminate.
  - vm_compute. discriminate.
  - exists w'. split; [exact Hrun|]. split; [exact Hlow|].
    eapply Qle_trans; [exact Hhigh|]. vm_compute. discriminate.
Defined.

Lemma every_request_carries_the_token_witness :
  let rq := mkRequest "GET" (DEFAULT_BASE_URL ++ "/api/v1/timelines/home")%string
              [] (bearer "tok") [] in
  In rq (sent (snd (snd (__api_request Demo.int Demo.strptime 1 "GET"
                           "/api/v1/timelines/home" [] []
                           (Demo.logged_in "wait" 150,
                            Demo.world [Demo.ok_response Demo.timeline_body])))))
  /\ rq_headers rq = bearer "tok".
Proof.
  intros rq.
  assert (Hin : In rq (sent (snd (snd (__api_request Demo.int Demo.strptime 1
                                         "GET" "/api/v1/timelines/home" [] []
                                         (Demo.logged_in "wait" 150,
                                          Demo.world [Demo.ok_response
                                                        Demo.timeline_body]))))))
    by (vm_compute; left; reflexivity).
  split; [exact Hin|].
  destruct (every_request_carries_the_token Demo.int Demo.strptime 1 "GET"
              "/api/v1/timelines/home" [] [] (Demo.logged_in "wait" 150)
              (Demo.world [Demo.ok_response Demo.timeline_body]) rq)
    as [Hold | (_ & _ & _ & _ & Hhdr)].
  - simpl; tauto.
  - exact Hin.
  - destruct Hold.
  - exact Hhdr.
Defined.

Lemma init_resolves_access_token_witness :
  exists s : Mastodon,
    __init__ (Demo.world_with_file Demo.token_file) "id" (Some "secret")
      (Some "app.secret") DEFAULT_BASE_URL false "wait" (9 # 10)
    = Return s /\
    access_token s = VStr "tok" /\ ratelimit_remaining s = 150%Z /\
    ratelimit_reset s = 50.
Proof.
  destruct (__init__ (Demo.world_with_file Demo.token_file) "id"
              (Some "secret") (Some "app.secret") DEFAULT_BASE_URL false
              "wait" (9 # 10)) as [s|e|] eqn:E.
  - destruct (init_resolves_access_token
                (Demo.world_with_file Demo.token_file) "id" (Some "secret")
                (Some "app.secret") DEFAULT_BASE_URL false "wait" (9 # 10) s E)
      as (Htok & _ & _ & _ & _ & _ & Hrem & Hreset & _).
    exists s. split; [reflexivity|].
    split; [exact Htok|]. split; [exact Hrem|exact Hreset].
  - vm_compute in E. discriminate E.
  - vm_compute in E. discriminate E.
Defined.


Lemma log_in_masks_request_failures_witness :
  exists (s' : Mastodon) (w' : World),
    log_in Demo.int Demo.strptime 1 (VStr "user") (VStr "pw") ["read"] None
      (Demo.session "wait" 150, Demo.world [])
    = (Raise (MastodonIllegalArgumentError
                "Invalid user name, password or scopes."), (s', w')) /\
    access_token s' = VNone.
Proof.
  pose proof
    (fun params =>
       log_in_masks_request_failures Demo.int Demo.strptime 1 (VStr "user")
         (VStr "pw") ["read"] None params (Demo.session "wait" 150)
         (Demo.world [])) as Hmask.
  edestruct Hmask as (s' & w' & Hrun & Htok & _).
  - reflexivity.
  - left. eexists. vm_compute. reflexivity.
  - exists s', w'. split; [exact Hrun|exact Htok].
Defined.

Lemma log_in_token_file_round_trip_witness :
  let result :=
    log_in Demo.int Demo.strptime 1 (VStr "user") (VStr "pw") ["read"]
      (Some "token.secret")
      (Demo.session "wait" 150,
       Demo.world [Demo.ok_response (Demo.token_body "read")]) in
  fst result = Return (VStr "tok") /\
  fs (snd (snd result)) "token.secret" = Some ("tok" ++ Demo.nl)%string /\
  exists s2 : Mastodon,
    __init__ (snd (snd result)) "id" (Some "secret") (Some "token.secret")
      DEFAULT_BASE_URL false "wait" (9 # 10)
    = Return s2 /\
    access_token s2 = VStr "tok".
Proof.
  intros result.
  destruct (log_in_token_file_round_trip Demo.int Demo.strptime 1 (VStr "user")
              (VStr "pw") ["read"] "token.secret" (Demo.session "wait" 150)
              (Demo.world [Demo.ok_response (Demo.token_body "read")])
              (VStr "tok") (fst (snd result)) (snd (snd result)))
    as (t & Ht & Hfile & Hinit).
  - vm_compute. reflexivity.
  - injection Ht as <-.
    split; [vm_compute; reflexivity|]. split; [exact Hfile|].
    destruct (__init__ (snd (snd result)) "id" (Some "secret")
                (Some "token.secret") DEFAULT_BASE_URL false "wait" (9 # 10))
      as [s2|e|] eqn:E.
    + exists s2. split; [reflexivity|].
      apply (Hinit (conj eq_refl eq_refl) "id" (Some "secret") DEFAULT_BASE_URL
               false "wait" (9 # 10) s2 E).
    + vm_compute in E. discriminate E.
    + vm_compute in E. discriminate E.
Defined.

Lemma requests_after_log_in_carry_the_token_witness :
  let after :=
    snd (log_in Demo.int Demo.strptime 1 (VStr "user") (VStr "pw") ["read"]
           None
           (Demo.session "wait" 150,
            Demo.world [Demo.ok_response (Demo.token_body "read");
                        Demo.ok_response Demo.timeline_body])) in
  let rq := mkRequest "GET" (DEFAULT_BASE_URL ++ "/api/v1/timelines/home")%string
              [] (bearer "tok") [] in
  In rq (sent (snd (snd (__api_request Demo.int Demo.strptime 1 "GET"
                           "/api/v1/timelines/home" [] [] after)))) /\
  (In rq (sent (snd after)) \/
   rq_url rq = (DEFAULT_BASE_URL ++ "/api/v1/timelines/home")%string /\
   rq_headers rq = bearer "tok").
Proof.
  intros after rq.
  assert (Hin : In rq (sent (snd (snd (__api_request Demo.int Demo.strptime 1
                                         "GET" "/api/v1/timelines/home" [] []
                                         after)))))
    by (vm_compute; right; left; reflexivity).
  split; [exact Hin|].
  apply (requests_after_log_in_carry_the_token Demo.int Demo.strptime 1 1
           (VStr "user") (VStr "pw") ["read"] None (Demo.session "wait" 150)
           (Demo.world [Demo.ok_response (Demo.token_body "read");
                        Demo.ok_response Demo.timeline_body])
           "tok" (fst after) (snd after) "GET" "/api/v1/timelines/home" [] []
           rq).
  - vm_compute. reflexivity.
  - simpl; tauto.
  - exact Hin.
Defined.





Lemma media_post_ignores_mime_type_of_files_witness :
  media_post Demo.int Demo.strptime Demo.guess_type Demo.guess_extension
    Demo.str_of_float 1 "ABCDE01234" "app.secret" (Some "image/png")
    (Demo.session "wait" 150, Demo.world_with_file Demo.credentials_file)
  = media_post Demo.int Demo.strptime Demo.guess_type Demo.guess_extension
      Demo.str_of_float 1 "ABCDE01234" "app.secret" None
      (Demo.session "wait" 150, Demo.world_with_file Demo.credentials_file).
Proof.
  apply (media_post_ignores_mime_type_of_files Demo.int Demo.strptime
           Demo.guess_type Demo.guess_extension Demo.str_of_float 1
           "ABCDE01234" "app.secret" (Some "image/png") None
           (Demo.session "wait" 150)
           (Demo.world_with_file Demo.credentials_file)).
  discriminate.
Defined.

